(** * ALTIDES: alternative-text insertion for PPTX, DOCX and PDF documents

    A shallow embedding of [src/altides.py]: the captioning client
    ([generate_alt_text]), the three format adapters ([process_pptx],
    [process_docx], [process_pdf]) and the batch driver ([process_file],
    [process_folder]), together with the library functions they call
    ([os.path.splitext], [str.strip], [str.lower], [base64.b64encode],
    subscripting of parsed JSON). *)

From Stdlib Require Import ZArith NArith QArith_base List Lia String Ascii Bool.
From stdpp Require Import base option list gmap strings.

#[local] Set Warnings "-register-all".

Open Scope Z_scope.

(** ** Python strings

    A Python [str] is a sequence of code points; a [bytes] object is a
    sequence of bytes. *)

Abbreviation pystr := (list N).
Abbreviation pybytes := (list Byte.byte).

Module Utf8.

Fixpoint bytes_of (s : string) : list N :=
  match s with
  | EmptyString => []
  | String a r => N_of_ascii a :: bytes_of r
  end.

(** Decoding of the UTF-8 text of a literal of this file into code
    points; the literals below are well-formed, an ill-formed tail is
    dropped. *)
Fixpoint decode (bs : list N) : pystr :=
  match bs with
  | [] => []
  | b0 :: r =>
      if (b0 <? 128)%N then b0 :: decode r
      else if (b0 <? 224)%N then
        match r with
        | b1 :: r1 => ((b0 - 192) * 64 + (b1 - 128))%N :: decode r1
        | _ => []
        end
      else if (b0 <? 240)%N then
        match r with
        | b1 :: b2 :: r2 =>
            ((b0 - 224) * 4096 + (b1 - 128) * 64 + (b2 - 128))%N :: decode r2
        | _ => []
        end
      else
        match r with
        | b1 :: b2 :: b3 :: r3 =>
            ((b0 - 240) * 262144 + (b1 - 128) * 4096
             + (b2 - 128) * 64 + (b3 - 128))%N :: decode r3
        | _ => []
        end
  end.

End Utf8.

(** [py "..."] is the Python string written by the literal. *)
Definition py (s : string) : pystr := Utf8.decode (Utf8.bytes_of s).
Arguments py : simpl never.

Module Str.

(** [str.isspace] on one code point: the code points Python's Unicode
    database classes as whitespace. *)
Definition isspace (c : N) : bool :=
  ((9 <=? c) && (c <=? 13) || (28 <=? c) && (c <=? 32)
   || (c =? 133) || (c =? 160) || (c =? 5760)
   || (8192 <=? c) && (c <=? 8202)
   || (c =? 8232) || (c =? 8233) || (c =? 8239) || (c =? 8287)
   || (c =? 12288))%N.

Fixpoint lstrip (s : pystr) : pystr :=
  match s with
  | [] => []
  | c :: r => if isspace c then lstrip r else s
  end.

Definition rstrip (s : pystr) : pystr := rev (lstrip (rev s)).

(** [s.strip()] *)
Definition strip (s : pystr) : pystr := rstrip (lstrip s).

(** [s.lower()].  The ASCII capitals are folded.  The code points outside
    ASCII are left in place: Python maps them to code points that are
    again outside ASCII, or (U+0130, U+212A) to the letters i and k, so a
    comparison with ".pptx", ".docx" or ".pdf" comes out the same. *)
Definition lower_char (c : N) : N :=
  if ((65 <=? c) && (c <=? 90))%N then (c + 32)%N else c.

Definition lower (s : pystr) : pystr := map lower_char s.

(** [s.rfind(c)] for a one-character [c]: the highest index, or -1. *)
Fixpoint rfind_from (c : N) (s : pystr) (i last : Z) : Z :=
  match s with
  | [] => last
  | x :: r => rfind_from c r (i + 1) (if (x =? c)%N then i else last)
  end.

Definition rfind (s : pystr) (c : N) : Z := rfind_from c s 0 (-1).

(** [s[i:j]] for [0 <= i]. *)
Definition slice (s : pystr) (i j : Z) : pystr :=
  take (Z.to_nat (j - i)) (drop (Z.to_nat i) s).

Definition eqb (a b : pystr) : bool := bool_decide (a = b).

End Str.

(** ** [os.path.splitext]

    [genericpath._splitext], shared by [posixpath] and [ntpath]. *)
Module OsPath.

Definition extsep : N := 46.  (* "." *)

(** The loop skipping the leading dots of the file name; [n] bounds the
    iterations, [dotIndex - filenameIndex] of them are enough. *)
Fixpoint skip_leading_dots (n : nat) (p : pystr) (filenameIndex dotIndex : Z)
  : pystr * pystr :=
  match n with
  | O => (p, take 0 p)
  | S n' =>
      if filenameIndex <? dotIndex then
        if negb (Str.eqb (Str.slice p filenameIndex (filenameIndex + 1)) [extsep])
        then (take (Z.to_nat dotIndex) p, drop (Z.to_nat dotIndex) p)
        else skip_leading_dots n' p (filenameIndex + 1) dotIndex
      else (p, take 0 p)
  end.

Definition _splitext (p : pystr) (sep : N) (altsep : option N) : pystr * pystr :=
  let sepIndex := Str.rfind p sep in
  let sepIndex :=
    match altsep with
    | Some a => Z.max sepIndex (Str.rfind p a)
    | None => sepIndex
    end in
  let dotIndex := Str.rfind p extsep in
  if sepIndex <? dotIndex then
    skip_leading_dots (length p) p (sepIndex + 1) dotIndex
  else (p, take 0 p).

End OsPath.

(** ** [base64.b64encode] *)
Module Base64.

Definition alphabet : pystr :=
  Eval vm_compute in
    py "ABCDEFGHIJKLMNOPQRSTUVWXYZabcdefghijklmnopqrstuvwxyz0123456789+/".

Definition pad : N := 61.  (* "=" *)

Definition char (i : N) : N := nth (N.to_nat i) alphabet 0%N.

(** The encoding of a group of three bytes, and of the one or two bytes
    left at the end. *)
Definition enc3 (a b c : N) : pystr :=
  [char (a / 4); char ((a mod 4) * 16 + b / 16);
   char ((b mod 16) * 4 + c / 64); char (c mod 64)]%N.

Definition enc2 (a b : N) : pystr :=
  [char (a / 4); char ((a mod 4) * 16 + b / 16); char ((b mod 16) * 4); pad]%N.

Definition enc1 (a : N) : pystr :=
  [char (a / 4); char ((a mod 4) * 16); pad; pad]%N.

Fixpoint encodeN (bs : list N) : pystr :=
  match bs with
  | [] => []
  | [a] => enc1 a
  | [a; b] => enc2 a b
  | a :: b :: c :: r => enc3 a b c ++ encodeN r
  end.

Definition b64encode (bs : pybytes) : pystr := encodeN (map Byte.to_N bs).

(** The reading direction, used to state that the encoding loses
    nothing. *)
Fixpoint index_of (c : N) (l : pystr) (i : N) : option N :=
  match l with
  | [] => None
  | x :: r => if (x =? c)%N then Some i else index_of c r (i + 1)%N
  end.

Definition value (c : N) : option N := index_of c alphabet 0%N.

Definition dec4 (c1 c2 c3 c4 : N) : option (list N) :=
  match value c1, value c2 with
  | Some v1, Some v2 =>
      let a := (v1 * 4 + v2 / 16)%N in
      if (c3 =? pad)%N then
        if (c4 =? pad)%N then Some [a] else None
      else
        match value c3 with
        | Some v3 =>
            let b := ((v2 mod 16) * 16 + v3 / 4)%N in
            if (c4 =? pad)%N then Some [a; b]
            else
              match value c4 with
              | Some v4 => Some [a; b; ((v3 mod 4) * 64 + v4)%N]
              | None => None
              end
        | None => None
        end
  | _, _ => None
  end.

Fixpoint decodeN (cs : pystr) : option (list N) :=
  match cs with
  | [] => Some []
  | c1 :: c2 :: c3 :: c4 :: r =>
      match dec4 c1 c2 c3 c4, decodeN r with
      | Some g, Some t => Some (g ++ t)
      | _, _ => None
      end
  | _ => None
  end.

Definition b64decode (cs : pystr) : option pybytes :=
  match decodeN cs with
  | Some ns => mapM Byte.of_N ns
  | None => None
  end.

End Base64.


(** ** Exceptions, parsed JSON, HTTP

    Every exception below is a subclass of Python's [Exception]. *)
Inductive exn :=
| KeyError | IndexError | TypeError | AttributeError | ValueError
| ConnectionError | Timeout | HTTPError (status : Z) | JSONDecodeError
| PackageNotFoundError | FileDataError | FileNotFoundError
| NotImplementedError.

Inductive result (A : Type) :=
| Ok (a : A)
| Raise (e : exn).
Arguments Ok {A} a.
Arguments Raise {A} e.

#[global] Instance exn_eq_dec : EqDecision exn.
Proof. solve_decision. Defined.

#[global] Instance result_eq_dec {A : Type} `{EqDecision A} : EqDecision (result A).
Proof. solve_decision. Defined.

(** A JSON value, as [json=payload] serialises it and as
    [response.json()] parses it.  An object keeps its members in order and is
    read by the first member of a name; a float is the decimal
    [mantissa * 10 ^ exponent]. *)
Inductive json :=
| JNull
| JBool (b : bool)
| JInt (z : Z)
| JFloat (mantissa exponent : Z)
| JStr (s : pystr)
| JArr (items : list json)
| JObj (members : list (pystr * json)).

Inductive pykey :=
| KStr (s : pystr)
| KInt (i : Z).

Fixpoint assoc (k : pystr) (members : list (pystr * json)) : option json :=
  match members with
  | [] => None
  | (k', v) :: r => if Str.eqb k' k then Some v else assoc k r
  end.

(** Python's index of a sequence of length [n]: negative indices count
    from the end. *)
Definition seq_index (n : nat) (i : Z) : option nat :=
  let j := if i <? 0 then i + Z.of_nat n else i in
  if (0 <=? j) && (j <? Z.of_nat n) then Some (Z.to_nat j) else None.

(** [v[k]] on a parsed JSON value. *)
Definition getitem (v : json) (k : pykey) : result json :=
  match v, k with
  | JObj members, KStr s =>
      match assoc s members with Some x => Ok x | None => Raise KeyError end
  | JObj _, KInt _ => Raise KeyError
  | JArr items, KInt i =>
      match seq_index (length items) i with
      | Some n => match items !! n with Some x => Ok x | None => Raise IndexError end
      | None => Raise IndexError
      end
  | JStr s, KInt i =>
      match seq_index (length s) i with
      | Some n => match s !! n with Some c => Ok (JStr [c]) | None => Raise IndexError end
      | None => Raise IndexError
      end
  | _, _ => Raise TypeError
  end.

Record http_request := HttpRequest {
  req_url : pystr;
  req_headers : list (pystr * pystr);
  req_json : json;
  req_timeout : Z
}.

(** What [requests.post] does: it raises (no connection, timeout), or
    returns a response with a status and a body; [None] is a body that
    is not JSON. *)
Inductive http_outcome :=
| PostRaises (e : exn)
| PostReturns (status_code : Z) (body : option json).

(** ** Documents *)

(** [pptx.enum.shapes.MSO_SHAPE_TYPE] *)
Inductive MSO_SHAPE_TYPE :=
| AUTO_SHAPE | CALLOUT | CANVAS | CHART | COMMENT | DIAGRAM
| EMBEDDED_OLE_OBJECT | FORM_CONTROL | FREEFORM | GROUP | IGX_GRAPHIC | INK
| INK_COMMENT | LINE | LINKED_OLE_OBJECT | LINKED_PICTURE | MEDIA
| OLE_CONTROL_OBJECT | PICTURE | PLACEHOLDER | SCRIPT_ANCHOR | TABLE
| TEXT_BOX | TEXT_EFFECT | WEB_VIDEO | MIXED.

#[global] Instance MSO_SHAPE_TYPE_eq_dec : EqDecision MSO_SHAPE_TYPE.
Proof. solve_decision. Defined.

(** [t == MSO_SHAPE_TYPE.PICTURE], for what [shape.shape_type] returned. *)
Definition is_picture (t : option MSO_SHAPE_TYPE) : bool :=
  match t with Some PICTURE => true | _ => false end.

(** A shape of a slide.  [shape_type] is what reading [shape.shape_type]
    gives: a member of the enumeration, [None] (a graphic frame that holds
    neither a chart, a table nor an OLE object), or an exception
    (python-pptx raises [NotImplementedError] for a [<p:sp>] element it does
    not recognise).  [image_blob] is what [shape.image.blob] reads, [None]
    when reading it raises (a picture without an embedded image); [descr]
    is the [descr] attribute of the shape's [cNvPr] element. *)
Record shape := Shape {
  shape_type : result (option MSO_SHAPE_TYPE);
  image_blob : option pybytes;
  descr : option pystr
}.

Abbreviation slide := (list shape).
Abbreviation presentation := (list slide).

(** The picture reference of an inline shape of a word-processing
    document: a graphic that holds no picture, or a picture whose blip has
    ([Some]) or lacks ([None]) the [r:embed] relationship id. *)
Inductive blip :=
| NoPicture
| Blip (embed : option pystr).

Record inline_shape := InlineShape {
  graphic : blip;
  docPr_descr : option pystr
}.

Record document := Document {
  inline_shapes : list inline_shape;
  related_parts : gmap pystr pybytes
}.

(** A value of a PDF block dictionary. *)
Inductive pdfval :=
| PInt (z : Z)
| PStr (s : pystr)
| PBytes (b : pybytes)
| PSeq (coords : list Q).

Record Rect := MkRect { x0 : Q; y0 : Q; x1 : Q; y1 : Q }.

Abbreviation block := (gmap string pdfval).

(** A page: the blocks [get_text("dict")] extracts and the HTML boxes
    inserted so far. *)
Record page := Page {
  blocks : list block;
  htmlboxes : list (Rect * pystr)
}.

Abbreviation pdf := (list page).

Inductive file :=
| PptxFile (prs : presentation)
| DocxFile (doc : document)
| PdfFile (doc : pdf)
| OtherFile (data : pybytes).

(** ** Log records: the calls made to [logging], with the f-string kept
    as its fragments. *)
Inductive level := DEBUG | INFO | WARNING | ERROR.

Inductive frag :=
| Lit (s : string)
| FStr (s : pystr)
| FInt (z : Z)
| FVal (v : pdfval)
| FExn (e : exn)
| FObject.

Abbreviation log_record := (level * list frag)%type.

(** ** The world the program runs in *)
Record world := World {
  fs : gmap pystr file;
  log : list log_record;
  posts : list http_request
}.

Definition M (A : Type) : Type := world -> result A * world.

Definition ret {A} (a : A) : M A := fun w => (Ok a, w).

Definition raise {A} (e : exn) : M A := fun w => (Raise e, w).

Definition bind {A B} (m : M A) (k : A -> M B) : M B :=
  fun w =>
    match m w with
    | (Ok a, w') => k a w'
    | (Raise e, w') => (Raise e, w')
    end.

(** [try: body except Exception as e: handler] *)
Definition try_except {A} (body : M A) (handler : exn -> M A) : M A :=
  fun w =>
    match body w with
    | (Ok a, w') => (Ok a, w')
    | (Raise e, w') => handler e w'
    end.

Definition lift {A} (r : result A) : M A := fun w => (r, w).

Declare Scope py_scope.
Delimit Scope py_scope with py.
Notation "'let*' x ':=' m 'in' k" := (bind m (fun x => k))
  (at level 10, x pattern, m at level 100, k at level 200) : py_scope.
Open Scope py_scope.

Definition logging (l : level) (msg : list frag) : M unit :=
  fun w => (Ok tt, World (fs w) (log w ++ [(l, msg)]) (posts w)).

(** [for x in xs: body], where the body may change [x] in place and the
    local variables [st]. *)
Fixpoint for_mut {A St} (body : A -> St -> M (A * St)) (xs : list A) (st : St)
  : M (list A * St) :=
  match xs with
  | [] => ret ([], st)
  | x :: r =>
      let* (x', st1) := body x st in
      let* (r', st2) := for_mut body r st1 in
      ret (x' :: r', st2)
  end.

(** [for x in xs: body], where the body changes the local variables. *)
Fixpoint for_in {A St} (body : A -> St -> M St) (xs : list A) (st : St) : M St :=
  match xs with
  | [] => ret st
  | x :: r => let* st1 := body x st in for_in body r st1
  end.

(** ** Library calls on documents *)

(** The check lxml applies to an attribute value before storing it: no
    NUL or control character other than tab, line feed and carriage
    return, no surrogate, no U+FFFE or U+FFFF. *)
Definition xml_char (c : N) : bool :=
  ((c =? 9) || (c =? 10) || (c =? 13)
   || (32 <=? c) && negb ((55296 <=? c) && (c <=? 57343))
      && negb ((c =? 65534) || (c =? 65535)))%N.

Definition xml_compatible (s : pystr) : bool := forallb xml_char s.

(** [shape.image.blob] *)
Definition shape_image_blob (sh : shape) : M pybytes :=
  match image_blob sh with
  | Some b => ret b
  | None => raise ValueError
  end.

(** [shape._element.nvPicPr.cNvPr.set('descr', alt_text)] *)
Definition shape_set_descr (sh : shape) (alt_text : pystr) : M shape :=
  if xml_compatible alt_text
  then ret (Shape (shape_type sh) (image_blob sh) (Some alt_text))
  else raise ValueError.

(** [shape._inline.graphic.graphicData.pic.blipFill.blip.embed] *)
Definition inline_embed (sh : inline_shape) : M (option pystr) :=
  match graphic sh with
  | NoPicture => raise AttributeError
  | Blip embed => ret embed
  end.

(** [doc.part.related_parts[embed_id]] followed by [image_part.blob] *)
Definition related_part_blob (doc : document) (embed_id : option pystr) : M pybytes :=
  match embed_id with
  | Some rId =>
      match related_parts doc !! rId with
      | Some b => ret b
      | None => raise KeyError
      end
  | None => raise KeyError
  end.

(** [shape._inline.docPr.set('descr', alt_text)] *)
Definition inline_set_descr (sh : inline_shape) (alt_text : pystr) : M inline_shape :=
  if xml_compatible alt_text
  then ret (InlineShape (graphic sh) (Some alt_text))
  else raise ValueError.

(** [b[key]] and [b.get(key, default)] on a block dictionary *)
Definition block_getitem (b : block) (key : string) : M pdfval :=
  match b !! key with
  | Some v => ret v
  | None => raise KeyError
  end.

Definition block_get (b : block) (key : string) (default : pdfval) : pdfval :=
  match b !! key with
  | Some v => v
  | None => default
  end.

(** [v == n] and [v < n] for an integer [n]: equality never raises, the
    order raises [TypeError] on a value that is not a number. *)
Definition val_eq_int (v : pdfval) (n : Z) : bool :=
  match v with
  | PInt z => z =? n
  | _ => false
  end.

Definition val_lt_int (v : pdfval) (n : Z) : M bool :=
  match v with
  | PInt z => ret (z <? n)
  | _ => raise TypeError
  end.

(** [fitz.Rect(v)] *)
Definition fitz_Rect (v : pdfval) : M Rect :=
  match v with
  | PSeq [a; b; c; d] => ret (MkRect a b c d)
  | _ => raise ValueError
  end.

(** The bytes-like argument [base64.b64encode] demands. *)
Definition bytes_like (v : pdfval) : M pybytes :=
  match v with
  | PBytes b => ret b
  | _ => raise TypeError
  end.

(** [Presentation(file_path)], [Document(file_path)]: a file that is
    missing, or is not a document of the format, raises. *)
Definition Presentation (file_path : pystr) : M presentation :=
  fun w =>
    match fs w !! file_path with
    | Some (PptxFile prs) => (Ok prs, w)
    | _ => (Raise PackageNotFoundError, w)
    end.

Definition Document_open (file_path : pystr) : M document :=
  fun w =>
    match fs w !! file_path with
    | Some (DocxFile doc) => (Ok doc, w)
    | _ => (Raise PackageNotFoundError, w)
    end.

(** [prs.save(output_file)], [doc.save(output_file)] *)
Definition save (output_file : pystr) (f : file) : M unit :=
  fun w => (Ok tt, World (<[output_file := f]> (fs w)) (log w) (posts w)).

(** The truth value of [output] in [if output:]. *)
Definition truthy (output : option pystr) : bool :=
  match output with
  | Some (_ :: _) => true
  | _ => false
  end.

Definition caption_error_text : pystr :=
  Eval vm_compute in py "代替テキスト生成エラー".

Definition instruction_text : pystr :=
  Eval vm_compute in
    py "この画像の内容を英語で説明してください。Important - No talk, just go!".

Definition SUPPORTED_EXTENSIONS : list pystr :=
  Eval vm_compute in [py ".pptx"; py ".docx"; py ".pdf"].

(** ** The environment of a run

    [os.name] decides the flavour of [os.path]. *)
Inductive os_name := posix | nt.

Definition os_sep (o : os_name) : N :=
  match o with
  | posix => 47  (* "/" *)
  | nt => 92     (* "\" *)
  end.

Definition os_altsep (o : os_name) : option N :=
  match o with
  | posix => None
  | nt => Some 47%N
  end.

Record env := Env {
  (** the captioning server: what the [n]-th POST of the process (counting
      from 0) meets, given the request *)
  server : nat -> http_request -> http_outcome;
  (** the settings read from [config.ini], or their fallbacks *)
  LMSTUDIO_ENDPOINT : pystr;
  API_TIMEOUT : Z;
  MODEL_NAME : pystr;
  (** the platform: [os.name], [os.path.join], and what [glob.glob] finds
      on a file system *)
  os : os_name;
  os_path_join : pystr -> pystr -> pystr;
  glob_glob : gmap pystr file -> pystr -> list pystr;
  (** whether [page.insert_htmlbox], on a page of a PDF, accepts a box and
      its text *)
  htmlbox_accepts : Rect -> pystr -> bool;
  (** the pages PyMuPDF makes of a file that is not a PDF (an image opens
      as a document of one page that holds it), [None] for a file it
      refuses *)
  fitz_other : file -> option pdf
}.

(** ** The program *)
Section Altides.

Variable E : env.

Definition splitext (p : pystr) : pystr * pystr :=
  OsPath._splitext p (os_sep (os E)) (os_altsep (os E)).

(** [fitz.open(file_path)]: the pages of the document and whether it is a
    PDF.  The kind of the document is decided by its content, not by the
    name of the file; a missing file and a file PyMuPDF refuses raise. *)
Definition fitz_open (file_path : pystr) : M (bool * pdf) :=
  fun w =>
    match fs w !! file_path with
    | Some (PdfFile doc) => (Ok (true, doc), w)
    | Some f =>
        match fitz_other E f with
        | Some doc => (Ok (false, doc), w)
        | None => (Raise FileDataError, w)
        end
    | None => (Raise FileNotFoundError, w)
    end.

(** [doc.save(output_file)] of PyMuPDF: only a PDF can be saved. *)
Definition fitz_save (is_pdf : bool) (output_file : pystr) (doc : pdf) : M unit :=
  if is_pdf then save output_file (PdfFile doc) else raise ValueError.

Definition requests_post (req : http_request) : M (Z * option json) :=
  fun w =>
    let w' := World (fs w) (log w) (posts w ++ [req]) in
    match server E (length (posts w)) req with
    | PostRaises e => (Raise e, w')
    | PostReturns status_code body => (Ok (status_code, body), w')
    end.

Definition raise_for_status (response : Z * option json) : M unit :=
  let status_code := fst response in
  if (400 <=? status_code) && (status_code <? 600)
  then raise (HTTPError status_code)
  else ret tt.

Definition response_json (response : Z * option json) : M json :=
  match snd response with
  | Some data => ret data
  | None => raise JSONDecodeError
  end.

(** [v.strip()]: only a string has the method. *)
Definition json_strip (v : json) : M pystr :=
  match v with
  | JStr s => ret (Str.strip s)
  | _ => raise AttributeError
  end.

Definition payload (image_bytes : pybytes) : json :=
  let base64_image := Base64.b64encode image_bytes in
  JObj [
    (py "model", JStr (MODEL_NAME E));
    (py "messages", JArr [
      JObj [
        (py "role", JStr (py "user"));
        (py "content", JArr [
          JObj [
            (py "type", JStr (py "image_url"));
            (py "image_url",
              JObj [(py "url", JStr (py "data:image/png;base64," ++ base64_image))])
          ];
          JObj [
            (py "type", JStr (py "text"));
            (py "text", JStr instruction_text)
          ]
        ])
      ]
    ]);
    (py "temperature", JFloat 7 (-1));
    (py "max_tokens", JInt 4096);
    (py "stream", JBool false)
  ].

Definition generate_alt_text (image_bytes : pybytes) : M pystr :=
  let headers := [(py "Content-Type", py "application/json")] in
  try_except
    (let* response :=
       requests_post
         (HttpRequest (LMSTUDIO_ENDPOINT E) headers (payload image_bytes) (API_TIMEOUT E)) in
     let* _ := raise_for_status response in
     let* data := response_json response in
     let* choices := lift (getitem data (KStr (py "choices"))) in
     let* choice := lift (getitem choices (KInt 0)) in
     let* message := lift (getitem choice (KStr (py "message"))) in
     let* content := lift (getitem message (KStr (py "content"))) in
     json_strip content)
    (fun e =>
       let* _ := logging ERROR
         [Lit "代替テキストの生成中にエラーが発生しました: "; FExn e] in
       ret caption_error_text).

(** *** PPTX *)

(** The body of [for shape in slide.shapes]. *)
Definition pptx_shape (sh : shape) (updated : bool) : M (shape * bool) :=
  let* ty := lift (shape_type sh) in
  if is_picture ty then
    try_except
      (let* image_bytes := shape_image_blob sh in
       let* alt_text := generate_alt_text image_bytes in
       let* sh' := shape_set_descr sh alt_text in
       let* _ := logging INFO [Lit "Updated PPTX image alt text: "; FStr alt_text] in
       ret (sh', true))
      (fun e =>
         let* _ := logging ERROR [Lit "Error processing image in PPTX: "; FExn e] in
         ret (sh, updated))
  else ret (sh, updated).

Definition pptx_slides (prs : presentation) (updated : bool)
  : M (presentation * bool) :=
  for_mut (fun sl upd => for_mut pptx_shape sl upd) prs updated.

Definition process_pptx (file_path : pystr) : M (option pystr) :=
  let* _ := logging INFO [Lit "Processing PPTX: "; FStr file_path] in
  let* prs := Presentation file_path in
  let* (prs', updated) := pptx_slides prs false in
  if updated : bool then
    let '(base, ext) := splitext file_path in
    let output_file := base ++ py "_alt" ++ ext in
    let* _ := save output_file (PptxFile prs') in
    let* _ := logging INFO [Lit "Saved updated PPTX: "; FStr output_file] in
    ret (Some output_file)
  else ret None.

(** *** DOCX *)

Definition fstr_opt (o : option pystr) : frag :=
  match o with
  | Some s => FStr s
  | None => Lit "None"
  end.

(** The body of [for shape in doc.inline_shapes]. *)
Definition docx_shape (doc : document) (sh : inline_shape) (updated : bool)
  : M (inline_shape * bool) :=
  try_except
    (let* embed_id := inline_embed sh in
     let* _ := logging DEBUG [Lit "Embed ID: "; fstr_opt embed_id] in
     let* image_bytes := related_part_blob doc embed_id in
     let* _ := logging DEBUG [Lit "Image Part: "; FObject] in
     let* alt_text := generate_alt_text image_bytes in
     let* _ := logging DEBUG [Lit "Generated Alt Text: "; FStr alt_text] in
     let* sh' := inline_set_descr sh alt_text in
     let* _ := logging INFO [Lit "Updated DOCX image alt text: "; FStr alt_text] in
     ret (sh', true))
    (fun e =>
       let* _ := logging ERROR [Lit "Error processing image in DOCX: "; FExn e] in
       ret (sh, updated)).

Definition process_docx (file_path : pystr) : M (option pystr) :=
  let* _ := logging INFO [Lit "Processing DOCX: "; FStr file_path] in
  let* doc := Document_open file_path in
  let* (shapes', updated) := for_mut (docx_shape doc) (inline_shapes doc) false in
  if updated : bool then
    let '(base, ext) := splitext file_path in
    let output_file := base ++ py "_alt" ++ ext in
    let* _ := save output_file (DocxFile (Document shapes' (related_parts doc))) in
    let* _ := logging INFO [Lit "Saved updated DOCX: "; FStr output_file] in
    ret (Some output_file)
  else ret None.

(** *** PDF *)

(** [page.insert_htmlbox(bbox, html_text)]: it raises on a page of a
    document that is not a PDF. *)
Definition insert_htmlbox (is_pdf : bool) (pg : page) (bbox : Rect)
    (html_text : pystr) : M page :=
  if is_pdf && htmlbox_accepts E bbox html_text
  then ret (Page (blocks pg) (htmlboxes pg ++ [(bbox, html_text)]))
  else raise ValueError.

(** [x < n or y < n] *)
Definition either_below (x y : pdfval) (n : Z) : M bool :=
  let* c := val_lt_int x n in
  if c : bool then ret true else val_lt_int y n.

(** The body of [for b in blocks], on page [page_num] of a document that
    is a PDF or not; the local state is the page and [updated]. *)
Definition pdf_block (is_pdf : bool) (page_num : Z) (b : block) (st : page * bool)
  : M (page * bool) :=
  let '(pg, updated) := st in
  let* ty := block_getitem b "type" in
  if val_eq_int ty 1 then
    try_except
      (let width := block_get b "width" (PInt 0) in
       let height := block_get b "height" (PInt 0) in
       let xres := block_get b "xres" (PInt 0) in
       let yres := block_get b "yres" (PInt 0) in
       let* _ := logging DEBUG
         [Lit "Block Width: "; FVal width; Lit ", Height: "; FVal height] in
       let* _ := logging DEBUG
         [Lit "Block XRes: "; FVal xres; Lit ", YRes: "; FVal yres] in
       let* small := either_below width height 20 in
       if small : bool then
         let* _ := logging DEBUG
           [Lit "Skipping block on page "; FInt (page_num + 1);
            Lit " due to small size (width="; FVal width;
            Lit ", height="; FVal height; Lit ")."] in
         ret (pg, updated)
       else
         let* low := either_below xres yres 36 in
         if low : bool then
           let* _ := logging DEBUG
             [Lit "Skipping block on page "; FInt (page_num + 1);
              Lit " due to low resolution (xres="; FVal xres;
              Lit ", yres="; FVal yres; Lit ")."] in
           ret (pg, updated)
         else
           let* image := block_getitem b "image" in
           let* bbox_val := block_getitem b "bbox" in
           let* bbox := fitz_Rect bbox_val in
           let* image_bytes := bytes_like image in
           let* alt_text := generate_alt_text image_bytes in
           let html_text := py "<p>" ++ alt_text ++ py "</p>" in
           let* pg' := insert_htmlbox is_pdf pg bbox html_text in
           let* _ := logging INFO
             [Lit "Updated PDF image alt text on page "; FInt (page_num + 1);
              Lit ": "; FStr alt_text] in
           ret (pg', true))
      (fun e =>
         let* _ := logging ERROR
           [Lit "Error processing image in PDF on page "; FInt (page_num + 1);
            Lit ": "; FExn e] in
         ret (pg, updated))
  else ret (pg, updated).

(** The body of [for page_num in range(len(doc))]; the local state is
    [page_num] and [updated]. *)
Definition pdf_page (is_pdf : bool) (pg : page) (st : Z * bool)
  : M (page * (Z * bool)) :=
  let '(page_num, updated) := st in
  let blocks := blocks pg in
  let* _ := logging DEBUG
    [Lit "Page "; FInt (page_num + 1); Lit ": Found ";
     FInt (Z.of_nat (length blocks)); Lit " blocks."] in
  let* (pg', updated') := for_in (pdf_block is_pdf page_num) blocks (pg, updated) in
  ret (pg', (page_num + 1, updated')).

Definition process_pdf (file_path : pystr) : M (option pystr) :=
  let* _ := logging INFO [Lit "Processing PDF: "; FStr file_path] in
  let* (is_pdf, doc) := fitz_open file_path in
  let* (doc', (_, updated)) := for_mut (pdf_page is_pdf) doc (0, false) in
  if updated : bool then
    let '(base, ext) := splitext file_path in
    let output_file := base ++ py "_alt" ++ ext in
    let* _ := fitz_save is_pdf output_file doc' in
    let* _ := logging INFO [Lit "Saved updated PDF: "; FStr output_file] in
    ret (Some output_file)
  else ret None.

(** *** The batch driver *)

Definition process_file (file_path : pystr) : M (option pystr) :=
  let ext := Str.lower (snd (splitext file_path)) in
  if Str.eqb ext (py ".pptx") then process_pptx file_path
  else if Str.eqb ext (py ".docx") then process_docx file_path
  else if Str.eqb ext (py ".pdf") then process_pdf file_path
  else
    let* _ := logging WARNING [Lit "Unsupported file type: "; FStr file_path] in
    ret None.

Definition glob (pattern : pystr) : M (list pystr) :=
  fun w => (Ok (glob_glob E (fs w) pattern), w).

(** The body of [for file_path in glob.glob(...)]. *)
Definition folder_file (file_path : pystr) (processed_files : list pystr)
  : M (list pystr) :=
  let* output := process_file file_path in
  if truthy output
  then ret (processed_files ++ option_list output)
  else ret processed_files.

Definition process_folder (folder_path : pystr) : M (list pystr) :=
  for_in
    (fun ext processed_files =>
       let* found := glob (os_path_join E folder_path (py "**/*" ++ ext)) in
       for_in folder_file found processed_files)
    SUPPORTED_EXTENSIONS [].

End Altides.

(** * Vocabulary of the properties *)

(** A response body of the shape [{choices:[{message:{content: s}}]}],
    whatever else its objects hold. *)
Definition has_content (data : json) (content : pystr) : Prop :=
  exists members cm rest mm,
    data = JObj members
    /\ assoc (py "choices") members = Some (JArr (JObj cm :: rest))
    /\ assoc (py "message") cm = Some (JObj mm)
    /\ assoc (py "content") mm = Some (JStr content).

(** The status codes [raise_for_status] lets through. *)
Definition status_ok (status_code : Z) : Prop :=
  ~ (400 <= status_code < 600).

(** A caption call that fails: the transport raises (no connection,
    timeout), the status is an error status, the body is not JSON, or the
    body has no string at [choices[0].message.content]. *)
Definition call_fails (o : http_outcome) : Prop :=
  match o with
  | PostRaises _ => True
  | PostReturns status_code body =>
      400 <= status_code < 600
      \/ body = None
      \/ exists data, body = Some data /\ forall s, ~ has_content data s
  end.

Definition all_space (s : pystr) : Prop := forallb Str.isspace s = true.

(** The values of the Base64 digits. *)
Definition b64_sextets : list N := map N.of_nat (seq 0 64).

(** The character of a path at an index is a dot; the index of the last
    separator, as [_splitext] computes it. *)
Definition dot_at (p : pystr) (i : Z) : Prop :=
  Str.slice p i (i + 1) = [OsPath.extsep].

Definition sep_index (p : pystr) (sep : N) (altsep : option N) : Z :=
  match altsep with
  | Some a => Z.max (Str.rfind p sep) (Str.rfind p a)
  | None => Str.rfind p sep
  end.

Section Describe.

Variable E : env.

(** The request [generate_alt_text] posts for an image. *)
Definition request_for (image_bytes : pybytes) : http_request :=
  HttpRequest (LMSTUDIO_ENDPOINT E)
    [(py "Content-Type", py "application/json")]
    (payload E image_bytes) (API_TIMEOUT E).

(** What the body of the [try] of [generate_alt_text] makes of the
    outcome of the POST. *)
Definition reply_text (o : http_outcome) : result pystr :=
  match o with
  | PostRaises e => Raise e
  | PostReturns status_code body =>
      if (400 <=? status_code) && (status_code <? 600)
      then Raise (HTTPError status_code)
      else
        match body with
        | None => Raise JSONDecodeError
        | Some data =>
            match getitem data (KStr (py "choices")) with
            | Raise e => Raise e
            | Ok choices =>
                match getitem choices (KInt 0) with
                | Raise e => Raise e
                | Ok choice =>
                    match getitem choice (KStr (py "message")) with
                    | Raise e => Raise e
                    | Ok message =>
                        match getitem message (KStr (py "content")) with
                        | Raise e => Raise e
                        | Ok (JStr s) => Ok (Str.strip s)
                        | Ok _ => Raise AttributeError
                        end
                    end
                end
            end
        end
  end.

(** The text and the log records of the call that is the [n]-th POST. *)
Definition caption (n : nat) (image_bytes : pybytes) : pystr :=
  match reply_text (server E n (request_for image_bytes)) with
  | Ok s => s
  | Raise _ => caption_error_text
  end.

Definition caption_log (n : nat) (image_bytes : pybytes) : list log_record :=
  match reply_text (server E n (request_for image_bytes)) with
  | Ok _ => []
  | Raise e =>
      [(ERROR, [Lit "代替テキストの生成中にエラーが発生しました: "; FExn e])]
  end.

End Describe.

(** The world after a computation that logged [lg] and posted [ps]. *)
Definition after_run (w : world) (lg : list log_record) (ps : list http_request)
  : world :=
  World (fs w) (log w ++ lg) (posts w ++ ps).

(** *** The loops as functions of the number of POSTs made so far

    [calls x] POSTs are made for the element [x]; [step n x st] is the
    element after its turn and the local state, when [n] POSTs were made
    before. *)
Section Pure.

Context {A St : Type}.
Variable calls : A -> nat.

Definition total_calls (xs : list A) : nat := sum_list_with calls xs.

Fixpoint for_mut_pure (step : nat -> A -> St -> A * St)
    (n : nat) (xs : list A) (st : St) : list A * St :=
  match xs with
  | [] => ([], st)
  | x :: r =>
      let '(x', st1) := step n x st in
      let '(r', st2) := for_mut_pure step (n + calls x) r st1 in
      (x' :: r', st2)
  end.

Fixpoint for_in_pure (next : nat -> A -> St -> St)
    (n : nat) (xs : list A) (st : St) : St :=
  match xs with
  | [] => st
  | x :: r => for_in_pure next (n + calls x) r (next n x st)
  end.

End Pure.

Section DescribeAdapters.

Variable E : env.

(** PPTX: a picture whose image can be read is captioned. *)
Definition shape_image (sh : shape) : option pybytes :=
  match shape_type sh with
  | Ok ty => if is_picture ty then image_blob sh else None
  | Raise _ => None
  end.

Definition shape_calls (sh : shape) : nat :=
  match shape_image sh with Some _ => 1 | None => 0 end.

Definition shape_requests (sh : shape) : list http_request :=
  match shape_image sh with Some bs => [request_for E bs] | None => [] end.

Definition shape_step (n : nat) (sh : shape) (updated : bool) : shape * bool :=
  match shape_image sh with
  | Some bs =>
      let alt_text := caption E n bs in
      if xml_compatible alt_text
      then (Shape (shape_type sh) (image_blob sh) (Some alt_text), true)
      else (sh, updated)
  | None => (sh, updated)
  end.

Definition slide_calls (sl : slide) : nat := total_calls shape_calls sl.

Definition slide_requests (sl : slide) : list http_request :=
  flat_map shape_requests sl.

Definition slide_step (n : nat) (sl : slide) (updated : bool) : slide * bool :=
  for_mut_pure shape_calls shape_step n sl updated.

Definition pptx_pure (n : nat) (prs : presentation) (updated : bool)
  : presentation * bool :=
  for_mut_pure slide_calls slide_step n prs updated.

(** DOCX: an inline picture whose relationship id leads to a part is
    captioned. *)
Definition inline_image (doc : document) (sh : inline_shape) : option pybytes :=
  match graphic sh with
  | Blip (Some rId) => related_parts doc !! rId
  | _ => None
  end.

Definition inline_calls (doc : document) (sh : inline_shape) : nat :=
  match inline_image doc sh with Some _ => 1 | None => 0 end.

Definition inline_requests (doc : document) (sh : inline_shape)
  : list http_request :=
  match inline_image doc sh with Some bs => [request_for E bs] | None => [] end.

Definition inline_step (doc : document) (n : nat) (sh : inline_shape)
    (updated : bool) : inline_shape * bool :=
  match inline_image doc sh with
  | Some bs =>
      let alt_text := caption E n bs in
      if xml_compatible alt_text
      then (InlineShape (graphic sh) (Some alt_text), true)
      else (sh, updated)
  | None => (sh, updated)
  end.

Definition docx_pure (n : nat) (doc : document) (updated : bool)
  : list inline_shape * bool :=
  for_mut_pure (inline_calls doc) (inline_step doc) n (inline_shapes doc) updated.

(** PDF: an image block that passes the thresholds and carries its
    bytes and its box is captioned. *)
Definition at_least (v : pdfval) (n : Z) : bool :=
  match v with
  | PInt z => n <=? z
  | _ => false
  end.

Definition block_passes (b : block) : bool :=
  at_least (block_get b "width" (PInt 0)) 20
  && at_least (block_get b "height" (PInt 0)) 20
  && at_least (block_get b "xres" (PInt 0)) 36
  && at_least (block_get b "yres" (PInt 0)) 36.

Definition is_image_block (b : block) : bool :=
  match b !! "type" with
  | Some v => val_eq_int v 1
  | None => false
  end.

Definition block_image (b : block) : option (pybytes * Rect) :=
  match b !! "image", b !! "bbox" with
  | Some (PBytes bs), Some (PSeq [c0; c1; c2; c3]) => Some (bs, MkRect c0 c1 c2 c3)
  | _, _ => None
  end.

Definition block_target (b : block) : option (pybytes * Rect) :=
  if is_image_block b && block_passes b then block_image b else None.

Definition block_calls (b : block) : nat :=
  match block_target b with Some _ => 1 | None => 0 end.

Definition block_requests (b : block) : list http_request :=
  match block_target b with Some (bs, _) => [request_for E bs] | None => [] end.

Definition block_html (n : nat) (bs : pybytes) : pystr :=
  py "<p>" ++ caption E n bs ++ py "</p>".

Definition block_next (n : nat) (b : block) (st : page * bool) : page * bool :=
  match block_target b with
  | Some (bs, bbox) =>
      if htmlbox_accepts E bbox (block_html n bs)
      then (Page (blocks (fst st)) (htmlboxes (fst st) ++ [(bbox, block_html n bs)]),
            true)
      else st
  | None => st
  end.

Definition page_calls (pg : page) : nat := total_calls block_calls (blocks pg).

Definition page_requests (pg : page) : list http_request :=
  flat_map block_requests (blocks pg).

Definition page_step (n : nat) (pg : page) (st : Z * bool) : page * (Z * bool) :=
  let '(pg', updated) :=
    for_in_pure block_calls block_next n (blocks pg) (pg, snd st) in
  (pg', (fst st + 1, updated)).

Definition pdf_pure (n : nat) (doc : pdf) (st : Z * bool) : pdf * (Z * bool) :=
  for_mut_pure page_calls page_step n doc st.

End DescribeAdapters.

(** A block dictionary with its ["type"], as [get_text("dict")] gives
    them. *)
Definition typed (b : block) : Prop := is_Some (b !! "type").

Definition typed_page (pg : page) : Prop := Forall typed (blocks pg).

(** A shape whose [shape_type] can be read: python-pptx gives a member of
    the enumeration or [None] for it, and does not raise. *)
Definition recognised (sh : shape) : Prop := exists ty, shape_type sh = Ok ty.

Definition recognised_slides (prs : presentation) : Prop :=
  Forall (Forall recognised) prs.

#[global] Instance recognised_dec (sh : shape) : Decision (recognised sh).
Proof.
  unfold recognised. destruct (shape_type sh) as [ty|e].
  - left. exists ty. reflexivity.
  - right. intros [ty H]. discriminate H.
Defined.

(** The path an adapter saves to, and what a run of an adapter leaves:
    the value it returns and the files. *)
Definition output_path (E : env) (file_path : pystr) : pystr :=
  fst (splitext E file_path) ++ py "_alt" ++ snd (splitext E file_path).

Definition returned (updated : bool) (output_file : pystr) : option pystr :=
  if updated then Some output_file else None.

Definition files_after (updated : bool) (output_file : pystr) (f : file)
    (files : gmap pystr file) : gmap pystr file :=
  if updated then <[output_file := f]> files else files.

(** [updates R xs xs' k]: the list [xs'] is [xs] element by element, [R]
    relates each pair, and [k] counts the changes made. *)
Inductive updates {A : Type} (R : A -> A -> nat -> Prop)
  : list A -> list A -> nat -> Prop :=
| updates_nil : updates R [] [] 0
| updates_cons x x' k xs xs' n :
    R x x' k -> updates R xs xs' n -> updates R (x :: xs) (x' :: xs') (k + n).

(** A shape is left as it was, or it is a picture and its description
    was set. *)
Definition shape_update (sh sh' : shape) (k : nat) : Prop :=
  (k = 0%nat /\ sh' = sh)
  \/ (k = 1%nat /\ shape_type sh = Ok (Some PICTURE)
      /\ exists alt_text, sh' = Shape (Ok (Some PICTURE)) (image_blob sh) (Some alt_text)).

Definition inline_update (sh sh' : inline_shape) (k : nat) : Prop :=
  (k = 0%nat /\ sh' = sh)
  \/ (k = 1%nat /\ exists alt_text, sh' = InlineShape (graphic sh) (Some alt_text)).

(** A page keeps its blocks and gains [k] HTML boxes. *)
Definition page_update (pg pg' : page) (k : nat) : Prop :=
  blocks pg' = blocks pg
  /\ exists boxes, htmlboxes pg' = htmlboxes pg ++ boxes /\ length boxes = k.

(** The shapes of picture type of a presentation, in the order of the
    slides. *)
Definition pictures (prs : presentation) : list shape :=
  filter (fun sh => shape_type sh = Ok (Some PICTURE)) (concat prs).

Definition other_shapes (prs : presentation) : list shape :=
  filter (fun sh => shape_type sh <> Ok (Some PICTURE)) (concat prs).

(** The servers answer alike: the [k] POSTs from the [n1]-th on meet what
    the [k] POSTs from the [n2]-th on meet. *)
Definition same_responses (E : env) (n1 n2 k : nat) : Prop :=
  forall i req, (i < k)%nat -> server E (n1 + i) req = server E (n2 + i) req.

(** *** The three formats *)
Inductive format := PPTX | DOCX | PDF.

Definition adapter (E : env) (fmt : format) : pystr -> M (option pystr) :=
  match fmt with
  | PPTX => process_pptx E
  | DOCX => process_docx E
  | PDF => process_pdf E
  end.

(** A file the adapter of the format opens and walks through: a document
    of the format, the shapes of a presentation with a [shape_type] that
    can be read, the blocks of a PDF with their ["type"]. *)
Definition readable_as (fmt : format) (f : file) : Prop :=
  match fmt, f with
  | PPTX, PptxFile prs => recognised_slides prs
  | DOCX, DocxFile _ => True
  | PDF, PdfFile doc => Forall typed_page doc
  | _, _ => False
  end.

(** [file_updates fmt f f' k]: [f'] is the document [f] with the
    descriptions of [k] of its images set (PPTX, DOCX) or with [k] text
    boxes inserted (PDF), and nothing else changed. *)
Definition file_updates (fmt : format) (f f' : file) (k : nat) : Prop :=
  match fmt, f, f' with
  | PPTX, PptxFile prs, PptxFile prs' => updates (updates shape_update) prs prs' k
  | DOCX, DocxFile doc, DocxFile doc' =>
      related_parts doc' = related_parts doc
      /\ updates inline_update (inline_shapes doc) (inline_shapes doc') k
  | PDF, PdfFile doc, PdfFile doc' => updates page_update doc doc' k
  | _, _, _ => False
  end.

(** The document an adapter holds after its loop, whether it made a
    change, and the requests it posted, when [n] POSTs were made before. *)
Definition adapter_pure (E : env) (fmt : format) (n : nat) (f : file) : file * bool :=
  match fmt, f with
  | PPTX, PptxFile prs =>
      (PptxFile (fst (pptx_pure E n prs false)), snd (pptx_pure E n prs false))
  | DOCX, DocxFile doc =>
      (DocxFile (Document (fst (docx_pure E n doc false)) (related_parts doc)),
       snd (docx_pure E n doc false))
  | PDF, PdfFile doc =>
      (PdfFile (fst (pdf_pure E n doc (0, false))),
       snd (snd (pdf_pure E n doc (0, false))))
  | _, _ => (f, false)
  end.

Definition adapter_requests (E : env) (fmt : format) (f : file)
  : list http_request :=
  match fmt, f with
  | PPTX, PptxFile prs => flat_map (flat_map (shape_requests E)) prs
  | DOCX, DocxFile doc => flat_map (inline_requests E doc) (inline_shapes doc)
  | PDF, PdfFile doc =>
      flat_map (fun pg => flat_map (block_requests E) (blocks pg)) doc
  | _, _ => []
  end.

(** The images an adapter captions, in the order of its calls, each with
    the test its caption must pass to be stored: the XML library must take
    it as an attribute value (PPTX, DOCX), the PDF library must take the
    text box at the box of the block. *)
Definition box_test (E : env) (bbox : Rect) (alt_text : pystr) : bool :=
  htmlbox_accepts E bbox (py "<p>" ++ alt_text ++ py "</p>").

Definition adapter_images (E : env) (fmt : format) (f : file)
  : list (pybytes * (pystr -> bool)) :=
  match fmt, f with
  | PPTX, PptxFile prs =>
      map (fun bs => (bs, xml_compatible)) (omap image_blob (pictures prs))
  | DOCX, DocxFile doc =>
      map (fun bs => (bs, xml_compatible)) (omap (inline_image doc) (inline_shapes doc))
  | PDF, PdfFile doc =>
      map (fun t : pybytes * Rect => (fst t, box_test E (snd t)))
        (omap block_target (flat_map blocks doc))
  | _, _ => []
  end.

(** The same, element by element of the loops. *)
Definition shape_images (sh : shape) : list (pybytes * (pystr -> bool)) :=
  match shape_image sh with Some bs => [(bs, xml_compatible)] | None => [] end.

Definition inline_images (doc : document) (sh : inline_shape)
  : list (pybytes * (pystr -> bool)) :=
  match inline_image doc sh with Some bs => [(bs, xml_compatible)] | None => [] end.

Definition block_images (E : env) (b : block) : list (pybytes * (pystr -> bool)) :=
  match block_target b with Some (bs, bbox) => [(bs, box_test E bbox)] | None => [] end.

(** The number of images updated: the [i]-th image is captioned by the
    POST number [n + i], and it counts when its caption passes its test. *)
Fixpoint captioned_from (E : env) (n : nat) (images : list (pybytes * (pystr -> bool)))
  : nat :=
  match images with
  | [] => 0
  | (bs, accepts) :: r =>
      ((if accepts (caption E n bs) then 1 else 0) + captioned_from E (S n) r)%nat
  end.

Definition captioned (E : env) (fmt : format) (n : nat) (f : file) : nat :=
  captioned_from E n (adapter_images E fmt f).

(** The environment in which no page takes a text box: the pages of a
    document that is not a PDF behave like the pages of a PDF in it. *)
Definition no_htmlbox (E : env) : env :=
  Env (server E) (LMSTUDIO_ENDPOINT E) (API_TIMEOUT E) (MODEL_NAME E) (os E)
    (os_path_join E) (glob_glob E) (fun _ _ => false) (fitz_other E).

(** The extension [process_file] sends to each adapter. *)
Definition extension (fmt : format) : pystr :=
  match fmt with
  | PPTX => py ".pptx"
  | DOCX => py ".docx"
  | PDF => py ".pdf"
  end.

(** *** Sample inputs *)
Module Example.

Definition content_reply (s : pystr) : json :=
  JObj [(py "choices", JArr [JObj [(py "message", JObj [(py "content", JStr s)])]])].

(** A server that times out on the first POST and captions from then
    on. *)
Definition server0 (n : nat) (req : http_request) : http_outcome :=
  match n with
  | O => PostRaises Timeout
  | S _ => PostReturns 200 (Some (content_reply (py "  a cat on a mat
")))
  end.

Definition join0 (a b : pystr) : pystr := a ++ [47%N] ++ b.

(** [glob.glob] on a folder that holds [d/a.pptx] and [d/b.docx]. *)
Definition glob0 (files : gmap pystr file) (pattern : pystr) : list pystr :=
  if Str.eqb pattern (py "d/**/*.pptx") then [py "d/a.pptx"]
  else if Str.eqb pattern (py "d/**/*.docx") then [py "d/b.docx"]
  else [].

Definition E0 : env :=
  Env server0 (py "http://localhost:1234/v1/chat/completions") 60
    (py "gemma-3-12b-it") posix join0 glob0 (fun _ _ => true)
    (fun _ => None).

Definition png1 : pybytes := [Byte.x89; Byte.x50; Byte.x4e; Byte.x47].
Definition png2 : pybytes := [Byte.x89; Byte.x50; Byte.x4e; Byte.x47; Byte.x0d].

(** Two slides: a picture and a text box, then a picture that has a
    description. *)
Definition prs0 : presentation :=
  [[Shape (Ok (Some PICTURE)) (Some png1) None; Shape (Ok (Some TEXT_BOX)) None None];
   [Shape (Ok (Some PICTURE)) (Some png2) (Some (py "old"))]].

Definition doc0 : document :=
  Document [InlineShape (Blip (Some (py "rId4"))) None]
    {[ py "rId4" := png1 ]}.

Definition image_block (width height xres yres : Z) : block :=
  <["type" := PInt 1]>
    (<["width" := PInt width]>
       (<["height" := PInt height]>
          (<["xres" := PInt xres]>
             (<["yres" := PInt yres]>
                (<["image" := PBytes png1]>
                   (<["bbox" := PSeq [0#1; 0#1; 72#1; 72#1]%Q]> ∅)))))).

Definition w0 : world :=
  World {[ py "d/a.pptx" := PptxFile prs0 ]} [] [].

(** A folder whose presentation is not a presentation. *)
Definition w_broken : world :=
  World (<[py "d/a.pptx" := OtherFile []]> {[ py "d/b.docx" := DocxFile doc0 ]})
    [] [].

Definition w_folder : world :=
  World (<[py "d/a.pptx" := PptxFile prs0]> {[ py "d/b.docx" := DocxFile doc0 ]})
    [] [].

Definition page0 : page := Page [] [].

End Example.

(** A world in which one POST was made before the run. *)
Module Example2.

Definition w_later : world :=
  World {[ py "d/a.pptx" := PptxFile Example.prs0 ]} []
    [request_for Example.E0 Example.png2].

(** [glob.glob] on folders whose [d/a.pptx] and [d/b.docx], when there,
    are a presentation and a word-processing document. *)
Definition glob1 (files : gmap pystr file) (pattern : pystr) : list pystr :=
  if Str.eqb pattern (py "d/**/*.pptx") then
    match files !! py "d/a.pptx" with
    | Some (PptxFile _) => [py "d/a.pptx"]
    | _ => []
    end
  else if Str.eqb pattern (py "d/**/*.docx") then
    match files !! py "d/b.docx" with
    | Some (DocxFile _) => [py "d/b.docx"]
    | _ => []
    end
  else [].

Definition E1 : env :=
  Env Example.server0 (py "http://localhost:1234/v1/chat/completions") 60
    (py "gemma-3-12b-it") posix Example.join0 glob1 (fun _ _ => true)
    (fun _ => None).

End Example2.

(** Files in order: every file whose extension is that of a format is a
    document the adapter of the format opens and walks through.  And
    [glob.glob] lists files that exist. *)
Definition sound_files (E : env) (files : gmap pystr file) : Prop :=
  forall p f fmt,
    files !! p = Some f ->
    Str.lower (snd (splitext E p)) = extension fmt ->
    readable_as fmt f.

Definition glob_lists_files (E : env) : Prop :=
  forall files pattern p, p ∈ glob_glob E files pattern -> is_Some (files !! p).

(** What the library of the format cannot open, of what is at a path: a
    missing file, a file that is not a document of the format and, for
    PyMuPDF, not one of the other files it reads either. *)
Definition open_fails (E : env) (fmt : format) (o : option file) : Prop :=
  match fmt, o with
  | PPTX, Some (PptxFile _) => False
  | DOCX, Some (DocxFile _) => False
  | PDF, Some (PdfFile _) => False
  | PDF, Some f => fitz_other E f = None
  | _, _ => True
  end.

(** * The rest of the program: the log level and the window *)

(** [s.upper()].  The ASCII small letters are folded; what Python makes of
    a code point outside ASCII (one or more code points, "SS" for U+00DF,
    "I" for U+0131) is the table [unicode_upper]. *)
Definition upper_char (unicode_upper : N -> pystr) (c : N) : pystr :=
  if ((97 <=? c) && (c <=? 122))%N then [(c - 32)%N]
  else if (c <? 128)%N then [c]
  else unicode_upper c.

Definition str_upper (unicode_upper : N -> pystr) (s : pystr) : pystr :=
  flat_map (upper_char unicode_upper) s.

(** The constants of [logging]. *)
Definition logging_DEBUG : Z := 10.
Definition logging_INFO : Z := 20.
Definition logging_WARNING : Z := 30.
Definition logging_ERROR : Z := 40.
Definition logging_CRITICAL : Z := 50.

Definition get_log_level (unicode_upper : N -> pystr) (level_name : pystr) : Z :=
  let levels : gmap pystr Z :=
    <[py "DEBUG" := logging_DEBUG]>
      (<[py "INFO" := logging_INFO]>
         (<[py "WARNING" := logging_WARNING]>
            (<[py "ERROR" := logging_ERROR]>
               (<[py "CRITICAL" := logging_CRITICAL]> ∅)))) in
  default logging_INFO (levels !! str_upper unicode_upper level_name).

(** [sep.join(l)] *)
Definition str_join (sep : pystr) (l : list pystr) : pystr :=
  match l with
  | [] => []
  | x :: r => x ++ flat_map (fun y => sep ++ y) r
  end.

(** The message boxes shown, and the two variables of the window. *)
Inductive dialog :=
| showerror (title message : pystr)
| showinfo (title message : pystr)
| showwarning (title message : pystr).

Record gui := Gui {
  selected_path : pystr;
  output_text : pystr;
  dialogs : list dialog
}.

Section Window.

Variable E : env.

(** [os.path.isdir] on a file system. *)
Variable os_path_isdir : gmap pystr file -> pystr -> bool.

Definition isdir (path : pystr) : M bool :=
  fun w => (Ok (os_path_isdir (fs w) path), w).

(** The callback of the start button. *)
Definition process_action (g : gui) : M gui :=
  let path := selected_path g in
  match path with
  | [] =>
      ret (Gui (selected_path g) (output_text g)
             (dialogs g ++ [showerror (py "Error") (py "No file or folder selected.")]))
  | _ :: _ =>
      let* is_dir := isdir path in
      let* processed :=
        if is_dir : bool then process_folder E path
        else
          let* output := process_file E path in
          if truthy output then ret ([] ++ option_list output) else ret [] in
      match processed with
      | _ :: _ =>
          ret (Gui (selected_path g)
                 (py "✅ Processing complete:" ++ [10%N] ++ str_join [10%N] processed)
                 (dialogs g
                  ++ [showinfo (py "Complete")
                        (py "Alternative text embedding has finished.")]))
      | [] =>
          ret (Gui (selected_path g)
                 (py "⚠️ The target document was not found.")
                 (dialogs g
                  ++ [showwarning (py "Complete") (py "Target document not found.")]))
      end
  end.

(** [browse_file] and [browse_folder], given what the dialog returned
    (the empty string when it was cancelled). *)
Definition browse (chosen : pystr) (g : gui) : gui :=
  match chosen with
  | [] => g
  | _ :: _ => Gui chosen [] (dialogs g)
  end.

End Window.

(** A path a run reports: the output path of a file with a supported
    extension, and a file that is there. *)
Definition reported (E : env) (files : gmap pystr file) (o : pystr) : Prop :=
  is_Some (files !! o)
  /\ exists p fmt,
       o = output_path E p /\ Str.lower (snd (splitext E p)) = extension fmt.

(** *** More sample inputs *)
Module Example3.

(** A slide with a picture and, after it, a shape python-pptx does not
    recognise; and the same shapes the other way round. *)
Definition prs_unrecognised : presentation :=
  [[Shape (Ok (Some PICTURE)) (Some Example.png1) None;
    Shape (Raise NotImplementedError) None None]].

Definition prs_unrecognised_first : presentation :=
  [[Shape (Raise NotImplementedError) None None;
    Shape (Ok (Some PICTURE)) (Some Example.png1) None]].

(** Two slides with shapes of several kinds: two pictures, a text box, a
    linked picture that carries bytes, and a graphic frame for which
    [shape_type] is [None]. *)
Definition prs_kinds : presentation :=
  [[Shape (Ok (Some PICTURE)) (Some Example.png1) None;
    Shape (Ok (Some TEXT_BOX)) None None;
    Shape (Ok (Some LINKED_PICTURE)) (Some Example.png2) None];
   [Shape (Ok None) None None;
    Shape (Ok (Some PICTURE)) (Some Example.png2) (Some (py "old"))]].

Definition w_kinds : world :=
  World {[ py "d/a.pptx" := PptxFile prs_kinds ]} [] [].

(** A presentation without a picture. *)
Definition prs_text : presentation := [[Shape (Ok (Some TEXT_BOX)) None None]].

Definition w_text : world :=
  World {[ py "d/t.pptx" := PptxFile prs_text ]} [] [].

Definition w_unrecognised : world :=
  World {[ py "d/a.pptx" := PptxFile prs_unrecognised ]} [] [].

Definition w_unrecognised_first : world :=
  World {[ py "d/a.pptx" := PptxFile prs_unrecognised_first ]} [] [].

(** A slide whose first picture is linked, not embedded: its bytes cannot
    be read. *)
Definition prs_linked : presentation :=
  [[Shape (Ok (Some PICTURE)) None None; Shape (Ok (Some PICTURE)) (Some Example.png1) None]].

Definition w_linked : world :=
  World {[ py "d/a.pptx" := PptxFile prs_linked ]} [] [].

(** A chart, a linked picture, a picture whose relationship id leads
    nowhere, and a picture. *)
Definition doc_mixed : document :=
  Document
    [InlineShape NoPicture None;
     InlineShape (Blip None) None;
     InlineShape (Blip (Some (py "rId9"))) None;
     InlineShape (Blip (Some (py "rId4"))) None]
    {[ py "rId4" := Example.png1 ]}.

Definition w_mixed : world :=
  World {[ py "d/b.docx" := DocxFile doc_mixed ]} [] [].

Definition text_block : block :=
  <["type" := PInt 0]> (<["bbox" := PSeq [0#1; 0#1; 72#1; 12#1]%Q]> ∅).

(** A page with a text block, an image block and an image block that is
    too small. *)
Definition pdf_mixed : pdf :=
  [Page [text_block; Example.image_block 40 40 72 72;
         Example.image_block 10 10 72 72] []].

Definition w_pdf : world :=
  World {[ py "d/c.pdf" := PdfFile pdf_mixed ]} [] [].

(** A second page holds a block dictionary without its ["type"]. *)
Definition pdf_untyped : pdf :=
  [Page [Example.image_block 40 40 72 72] [];
   Page [delete "type" (Example.image_block 40 40 72 72)] []].

Definition w_untyped : world :=
  World {[ py "d/c.pdf" := PdfFile pdf_untyped ]} [] [].

(** [glob.glob] by names, for patterns [folder/**/*ext] and paths without
    hidden components: the files whose path starts with [folder/] and ends
    with [ext]. *)
Fixpoint pattern_matches (pattern p : pystr) : bool :=
  match pattern with
  | [] => bool_decide (p = [])
  | c :: pattern' =>
      if bool_decide (take 4 pattern = py "**/*") then
        bool_decide (drop (length p - length (drop 4 pattern)) p = drop 4 pattern)
      else
        match p with
        | c' :: p' => (c =? c')%N && pattern_matches pattern' p'
        | [] => false
        end
  end.

Definition glob_names (files : gmap pystr file) (pattern : pystr) : list pystr :=
  filter (fun p => pattern_matches pattern p = true) (map fst (map_to_list files)).

Definition E_names : env :=
  Env Example.server0 (py "http://localhost:1234/v1/chat/completions") 60
    (py "gemma-3-12b-it") posix Example.join0 glob_names (fun _ _ => true)
    (fun _ => None).

(** A PNG image under a PDF name, and a PyMuPDF that opens the image as a
    document of one page holding it as an image block of 40 by 40 pixels
    at 96 dpi. *)
Definition fitz_png (f : file) : option pdf :=
  match f with
  | OtherFile (b :: data) =>
      Some [Page [<["image" := PBytes (b :: data)]>
                    (Example.image_block 40 40 96 96)] []]
  | _ => None
  end.

Definition E_png : env :=
  Env Example.server0 (py "http://localhost:1234/v1/chat/completions") 60
    (py "gemma-3-12b-it") posix Example.join0 Example.glob0 (fun _ _ => true)
    fitz_png.

Definition w_png : world :=
  World {[ py "d/c.pdf" := OtherFile Example.png1 ]} [] [].

(** No directory is a directory; every directory is. *)
Definition isdir_never (files : gmap pystr file) (path : pystr) : bool := false.
Definition isdir_always (files : gmap pystr file) (path : pystr) : bool := true.

(** A server that answers with blanks, and one that answers with a NUL
    character. *)
Definition E_blank : env :=
  Env (fun _ _ => PostReturns 200 (Some (Example.content_reply (py "   "))))
    (py "http://localhost:1234/v1/chat/completions") 60
    (py "gemma-3-12b-it") posix Example.join0 Example.glob0 (fun _ _ => true)
    (fun _ => None).

Definition E_nul : env :=
  Env (fun _ _ => PostReturns 200 (Some (Example.content_reply [97%N; 0%N; 98%N])))
    (py "http://localhost:1234/v1/chat/completions") 60
    (py "gemma-3-12b-it") posix Example.join0 Example.glob0 (fun _ _ => true)
    (fun _ => None).

(** An environment whose PDF library refuses every box, and one whose
    glob finds nothing. *)
Definition E_refuse : env :=
  Env Example.server0 (py "http://localhost:1234/v1/chat/completions") 60
    (py "gemma-3-12b-it") posix Example.join0 Example.glob0 (fun _ _ => false)
    (fun _ => None).

Definition E_empty : env :=
  Env Example.server0 (py "http://localhost:1234/v1/chat/completions") 60
    (py "gemma-3-12b-it") posix Example.join0 (fun _ _ => []) (fun _ _ => true)
    (fun _ => None).

End Example3.

(** * Properties *)

(** ** Strings *)

Lemma lstrip_split (s : pystr) :
  exists l, s = l ++ Str.lstrip s /\ all_space l.
Proof.
  induction s as [|c r IH]; simpl.
  - exists []. split; reflexivity.
  - destruct (Str.isspace c) eqn:Hc.
    + destruct IH as [l [Hl Hs]]. exists (c :: l). split.
      * simpl. congruence.
      * unfold all_space in *. simpl. rewrite Hc, Hs. reflexivity.
    + exists []. split; reflexivity.
Qed.

Lemma lstrip_head (s : pystr) (c : N) (r : pystr) :
  Str.lstrip s = c :: r -> Str.isspace c = false.
Proof.
  induction s as [|x t IH]; simpl; [discriminate|].
  destruct (Str.isspace x) eqn:Hx; [exact IH|].
  intros [= <- _]. exact Hx.
Qed.

Lemma lstrip_keeps_last (s : pystr) (c : N) :
  Str.isspace c = false -> Str.lstrip (s ++ [c]) = Str.lstrip s ++ [c].
Proof.
  intros Hc. induction s as [|x t IH]; simpl.
  - rewrite Hc. reflexivity.
  - destruct (Str.isspace x); [exact IH|reflexivity].
Qed.

Lemma all_space_rev (s : pystr) : all_space s -> all_space (rev s).
Proof.
  unfold all_space. rewrite !forallb_forall. intros H x Hx.
  apply H. apply in_rev. exact Hx.
Qed.

Lemma rstrip_split (s : pystr) :
  exists r, s = Str.rstrip s ++ r /\ all_space r.
Proof.
  unfold Str.rstrip. destruct (lstrip_split (rev s)) as [l [Hl Hs]].
  exists (rev l). split.
  - rewrite <- rev_app_distr, <- Hl, rev_involutive. reflexivity.
  - apply all_space_rev. exact Hs.
Qed.

Lemma rstrip_last (s i : pystr) (c : N) :
  Str.rstrip s = i ++ [c] -> Str.isspace c = false.
Proof.
  unfold Str.rstrip. intros H.
  apply (f_equal (@rev N)) in H.
  rewrite rev_involutive, rev_app_distr in H. simpl in H.
  eapply lstrip_head. exact H.
Qed.

(** [rstrip] removes nothing from the front. *)
Lemma rstrip_head (s : pystr) (c : N) :
  Str.isspace c = false -> Str.rstrip (c :: s) = c :: Str.rstrip s.
Proof.
  intros Hc. unfold Str.rstrip. simpl.
  rewrite lstrip_keeps_last by exact Hc.
  rewrite rev_app_distr. reflexivity.
Qed.

Lemma strip_spec (s : pystr) :
  exists l r,
    s = l ++ Str.strip s ++ r /\ all_space l /\ all_space r
    /\ (forall c t, Str.strip s = c :: t -> Str.isspace c = false)
    /\ (forall i c, Str.strip s = i ++ [c] -> Str.isspace c = false).
Proof.
  unfold Str.strip.
  destruct (lstrip_split s) as [l [Hl Hsl]].
  destruct (rstrip_split (Str.lstrip s)) as [r [Hr Hsr]].
  exists l, r. repeat split; try assumption.
  - rewrite <- Hr. exact Hl.
  - intros c t Hct.
    destruct (Str.lstrip s) as [|x u] eqn:Hu.
    + discriminate Hct.
    + pose proof (lstrip_head s x u Hu) as Hx.
      rewrite (rstrip_head u x Hx) in Hct.
      injection Hct as <- _. exact Hx.
  - intros i c. apply rstrip_last.
Qed.

(** ** Base64 loses nothing *)

Module Base64Facts.
Import Base64.

Lemma sextet_in (i : N) : (i < 64)%N -> In i b64_sextets.
Proof.
  intros H. unfold b64_sextets. apply in_map_iff. exists (N.to_nat i). split.
  - apply N2Nat.id.
  - apply in_seq. lia.
Qed.

Lemma value_char (i : N) : (i < 64)%N -> value (char i) = Some i.
Proof.
  intros H.
  assert (Hall : forallb (fun i => bool_decide (value (char i) = Some i)) b64_sextets = true)
    by (vm_compute; reflexivity).
  rewrite forallb_forall in Hall.
  specialize (Hall i (sextet_in i H)).
  apply bool_decide_eq_true in Hall. exact Hall.
Qed.

Lemma char_not_pad (i : N) : (i < 64)%N -> (char i =? pad)%N = false.
Proof.
  intros H.
  assert (Hall : forallb (fun i => negb (char i =? pad)%N) b64_sextets = true)
    by (vm_compute; reflexivity).
  rewrite forallb_forall in Hall.
  specialize (Hall i (sextet_in i H)).
  apply negb_true_iff in Hall. exact Hall.
Qed.

Section Groups.
Variables a b c : N.
Hypothesis Ha : (a < 256)%N.
Hypothesis Hb : (b < 256)%N.
Hypothesis Hc : (c < 256)%N.

Local Ltac bounds :=
  pose proof (N.mod_lt a 4 ltac:(lia));
  pose proof (N.mod_lt b 16 ltac:(lia));
  pose proof (N.mod_lt c 64 ltac:(lia));
  assert (a / 4 < 64)%N by (apply N.Div0.div_lt_upper_bound; lia);
  assert (b / 16 < 16)%N by (apply N.Div0.div_lt_upper_bound; lia);
  assert (c / 64 < 4)%N by (apply N.Div0.div_lt_upper_bound; lia);
  pose proof (N.div_mod a 4 ltac:(lia));
  pose proof (N.div_mod b 16 ltac:(lia));
  pose proof (N.div_mod c 64 ltac:(lia)).

Lemma hi_sextet : (a / 4 * 4 + ((a mod 4) * 16 + b / 16) / 16 = a)%N.
Proof.
  bounds.
  replace (((a mod 4) * 16 + b / 16) / 16)%N with (a mod 4)%N; [lia|].
  apply N.div_unique with (r := (b / 16)%N); lia.
Qed.

Lemma mid_sextet :
  ((((a mod 4) * 16 + b / 16) mod 16) * 16 + ((b mod 16) * 4 + c / 64) / 4 = b)%N.
Proof.
  bounds.
  replace ((((a mod 4) * 16 + b / 16) mod 16))%N with (b / 16)%N.
  - replace (((b mod 16) * 4 + c / 64) / 4)%N with (b mod 16)%N; [lia|].
    apply N.div_unique with (r := (c / 64)%N); lia.
  - apply N.mod_unique with (q := (a mod 4)%N); lia.
Qed.

Lemma lo_sextet :
  ((((b mod 16) * 4 + c / 64) mod 4) * 64 + c mod 64 = c)%N.
Proof.
  bounds.
  replace (((b mod 16) * 4 + c / 64) mod 4)%N with (c / 64)%N; [lia|].
  apply N.mod_unique with (q := (b mod 16)%N); lia.
Qed.

Lemma dec4_enc3 :
  match enc3 a b c with
  | [c1; c2; c3; c4] => dec4 c1 c2 c3 c4 = Some [a; b; c]
  | _ => False
  end.
Proof.
  bounds. unfold enc3, dec4.
  rewrite !value_char by lia.
  rewrite !char_not_pad by lia.
  rewrite hi_sextet, mid_sextet, lo_sextet. reflexivity.
Qed.

End Groups.

Lemma dec4_enc2 (a b : N) :
  (a < 256)%N -> (b < 256)%N ->
  match enc2 a b with
  | [c1; c2; c3; c4] => dec4 c1 c2 c3 c4 = Some [a; b]
  | _ => False
  end.
Proof.
  intros Ha Hb.
  pose proof (hi_sextet a b 0%N Ha Hb ltac:(lia)) as H1.
  pose proof (mid_sextet a b 0%N Ha Hb ltac:(lia)) as H2.
  pose proof (N.mod_lt a 4 ltac:(lia)).
  pose proof (N.mod_lt b 16 ltac:(lia)).
  assert (a / 4 < 64)%N by (apply N.Div0.div_lt_upper_bound; lia).
  assert (b / 16 < 16)%N by (apply N.Div0.div_lt_upper_bound; lia).
  unfold enc2, dec4.
  rewrite !value_char by lia.
  rewrite !char_not_pad by lia.
  rewrite N.eqb_refl.
  change (0 / 64)%N with 0%N in H2. rewrite N.add_0_r in H2.
  rewrite H1, H2. reflexivity.
Qed.

Lemma dec4_enc1 (a : N) :
  (a < 256)%N ->
  match enc1 a with
  | [c1; c2; c3; c4] => dec4 c1 c2 c3 c4 = Some [a]
  | _ => False
  end.
Proof.
  intros Ha.
  pose proof (hi_sextet a 0%N 0%N Ha ltac:(lia) ltac:(lia)) as H1.
  pose proof (N.mod_lt a 4 ltac:(lia)).
  assert (a / 4 < 64)%N by (apply N.Div0.div_lt_upper_bound; lia).
  unfold enc1, dec4.
  rewrite !value_char by lia.
  rewrite !N.eqb_refl.
  change (0 / 16)%N with 0%N in H1. rewrite N.add_0_r in H1.
  rewrite H1. reflexivity.
Qed.

Lemma decodeN_encodeN (n : nat) (ns : list N) :
  (length ns <= n)%nat -> Forall (fun x => (x < 256)%N) ns ->
  decodeN (encodeN ns) = Some ns.
Proof.
  revert ns. induction n as [|n IH]; intros ns Hlen Hall.
  - destruct ns; [reflexivity | simpl in Hlen; lia].
  - destruct ns as [|a [|b [|c r]]].
    + reflexivity.
    + inversion Hall; subst.
      pose proof (dec4_enc1 a ltac:(assumption)) as Hd.
      simpl encodeN. unfold enc1 in *. simpl. rewrite Hd. reflexivity.
    + inversion Hall as [|? ? Ha Hall']; subst. inversion Hall'; subst.
      pose proof (dec4_enc2 a b ltac:(assumption) ltac:(assumption)) as Hd.
      simpl encodeN. unfold enc2 in *. simpl. rewrite Hd. reflexivity.
    + inversion Hall as [|? ? Ha H1]; subst.
      inversion H1 as [|? ? Hb H2]; subst.
      inversion H2 as [|? ? Hc H3]; subst.
      pose proof (dec4_enc3 a b c Ha Hb Hc) as Hd.
      simpl encodeN. unfold enc3 in *. simpl.
      rewrite Hd, IH; [reflexivity | simpl in Hlen; lia | exact H3].
Qed.

Lemma of_N_to_N (bs : pybytes) : mapM Byte.of_N (map Byte.to_N bs) = Some bs.
Proof.
  induction bs as [|b r IH]; [reflexivity|].
  simpl. rewrite Byte.of_to_N. simpl. rewrite IH. reflexivity.
Qed.

Lemma b64decode_b64encode (bs : pybytes) : b64decode (b64encode bs) = Some bs.
Proof.
  unfold b64decode, b64encode.
  rewrite (decodeN_encodeN (length (map Byte.to_N bs))).
  - apply of_N_to_N.
  - lia.
  - apply Forall_forall. intros x Hx. apply list_elem_of_In, in_map_iff in Hx.
    destruct Hx as [b [<- _]]. pose proof (Byte.to_N_bounded b). lia.
Qed.

End Base64Facts.

(** ** The captioning client *)

Section Client.

Variable E : env.

Lemma generate_alt_text_eq (image_bytes : pybytes) (w : world) :
  generate_alt_text E image_bytes w =
    (Ok (caption E (length (posts w)) image_bytes),
     World (fs w)
       (log w ++ caption_log E (length (posts w)) image_bytes)
       (posts w ++ [request_for E image_bytes])).
Proof.
  unfold generate_alt_text, caption, caption_log, try_except, bind.
  unfold requests_post, raise_for_status, response_json.
  fold (request_for E image_bytes).
  destruct (server E (length (posts w)) (request_for E image_bytes))
    as [e|status_code body]; cbn [reply_text fst snd].
  - reflexivity.
  - destruct ((400 <=? status_code) && (status_code <? 600)); cbn.
    + reflexivity.
    + destruct body as [data|]; cbn; [|reflexivity].
      unfold lift.
      destruct (getitem data (KStr (py "choices"))) as [choices|]; [|reflexivity].
      destruct (getitem choices (KInt 0)) as [choice|]; [|reflexivity].
      destruct (getitem choice (KStr (py "message"))) as [message|]; [|reflexivity].
      destruct (getitem message (KStr (py "content"))) as [content|]; [|reflexivity].
      destruct content; cbn; rewrite ?app_nil_r; reflexivity.
Qed.

(** The client never raises, and leaves the files alone. *)
Lemma generate_alt_text_returns (image_bytes : pybytes) (w : world) :
  exists s w', generate_alt_text E image_bytes w = (Ok s, w') /\ fs w' = fs w.
Proof.
  rewrite generate_alt_text_eq. eexists _, _. split; reflexivity.
Qed.

End Client.

Lemma status_ok_test (status_code : Z) :
  status_ok status_code ->
  (400 <=? status_code) && (status_code <? 600) = false.
Proof. unfold status_ok. intros H. apply andb_false_iff. lia. Qed.

Lemma getitem_first (x : json) (rest : list json) :
  getitem (JArr (x :: rest)) (KInt 0) = Ok x.
Proof. reflexivity. Qed.

Lemma reply_text_content (status_code : Z) (data : json) (content : pystr) :
  status_ok status_code -> has_content data content ->
  reply_text (PostReturns status_code (Some data)) = Ok (Str.strip content).
Proof.
  intros Hs (members & cm & rest & mm & -> & Hc & Hm & Ht).
  unfold reply_text. rewrite (status_ok_test _ Hs).
  cbn [getitem]. rewrite Hc. rewrite getitem_first.
  cbn [getitem]. rewrite Hm. cbn [getitem]. rewrite Ht. reflexivity.
Qed.

Lemma reply_text_inv (status_code : Z) (data : json) (s : pystr) :
  reply_text (PostReturns status_code (Some data)) = Ok s ->
  status_ok status_code
  /\ exists content, has_content data content /\ s = Str.strip content.
Proof.
  unfold reply_text.
  destruct ((400 <=? status_code) && (status_code <? 600)) eqn:Hst; [discriminate|].
  intros H. split.
  { unfold status_ok. apply andb_false_iff in Hst. lia. }
  destruct data as [| | | | |items|members]; cbn [getitem] in H;
    try discriminate H.
  destruct (assoc (py "choices") members) as [choices|] eqn:Hc; [|discriminate H].
  destruct choices as [| | | |t|items|cm0]; cbn [getitem] in H;
    try discriminate H.
  - (* a string: its first character has no member "message" *)
    destruct (seq_index (length t) 0); [|discriminate H].
    destruct (t !! n); discriminate H.
  - destruct items as [|choice rest]; [discriminate H|].
    change (seq_index (length (choice :: rest)) 0) with (Some 0%nat) in H.
    cbn [lookup list_lookup] in H.
    destruct choice as [| | | | | |cm]; cbn [getitem] in H; try discriminate H.
    destruct (assoc (py "message") cm) as [message|] eqn:Hm; [|discriminate H].
    destruct message as [| | | | | |mm]; cbn [getitem] in H; try discriminate H.
    destruct (assoc (py "content") mm) as [content|] eqn:Ht; [|discriminate H].
    destruct content as [| | | |t| |]; try discriminate H.
    injection H as <-. exists t. split; [|reflexivity].
    exists members, cm, rest, mm. repeat split; assumption.
Qed.

Lemma reply_text_fails (o : http_outcome) :
  call_fails o -> exists e, reply_text o = Raise e.
Proof.
  destruct o as [e|status_code body]; intros H.
  - exists e. reflexivity.
  - destruct (reply_text (PostReturns status_code body)) as [s|e] eqn:Hr;
      [|exists e; reflexivity].
    exfalso. destruct body as [data|].
    + apply reply_text_inv in Hr. destruct Hr as [Hs [content [Hc _]]].
      destruct H as [H|[H|[data' [[= <-] H]]]].
      * apply Hs. exact H.
      * discriminate H.
      * exact (H content Hc).
    + unfold reply_text in Hr.
      destruct ((400 <=? status_code) && (status_code <? 600)); discriminate Hr.
Qed.

(** ** The loops *)

Lemma after_run_nil (w : world) : after_run w [] [] = w.
Proof. destruct w. unfold after_run. simpl. rewrite !app_nil_r. reflexivity. Qed.

Lemma after_run_twice (w : world) (l1 l2 : list log_record)
    (p1 p2 : list http_request) :
  after_run (after_run w l1 p1) l2 p2 = after_run w (l1 ++ l2) (p1 ++ p2).
Proof. unfold after_run. simpl. rewrite !app_assoc. reflexivity. Qed.

Lemma after_run_posts (w : world) (lg : list log_record) (ps : list http_request) :
  length (posts (after_run w lg ps)) = (length (posts w) + length ps)%nat.
Proof. simpl. apply length_app. Qed.

Lemma after_run_posts_nil (w : world) (lg : list log_record) :
  posts (after_run w lg []) = posts w.
Proof. simpl. apply app_nil_r. Qed.

Lemma logging_eq (l : level) (msg : list frag) (w : world) :
  logging l msg w = (Ok tt, after_run w [(l, msg)] []).
Proof. unfold logging, after_run. rewrite app_nil_r. reflexivity. Qed.

Section Loops.

Context {A St : Type}.
Variable calls : A -> nat.
Variable reqs : A -> list http_request.
Variable good : A -> Prop.
Hypothesis reqs_calls : forall x, length (reqs x) = calls x.

Lemma for_mut_eq (body : A -> St -> M (A * St)) (step : nat -> A -> St -> A * St) :
  (forall x st w, good x ->
     exists lg, body x st w
                = (Ok (step (length (posts w)) x st), after_run w lg (reqs x))) ->
  forall xs st w, Forall good xs ->
    exists lg,
      for_mut body xs st w
      = (Ok (for_mut_pure calls step (length (posts w)) xs st),
         after_run w lg (flat_map reqs xs)).
Proof.
  intros Hbody xs. induction xs as [|x r IH]; intros st w Hgood.
  - exists []. simpl. unfold ret. rewrite after_run_nil. reflexivity.
  - inversion Hgood as [|? ? Hx Hr]; subst.
    destruct (Hbody x st w Hx) as [lg1 H1].
    simpl. unfold bind at 1. rewrite H1.
    destruct (step (length (posts w)) x st) as [x' st1].
    destruct (IH st1 (after_run w lg1 (reqs x)) Hr) as [lg2 H2].
    unfold bind at 1. rewrite H2.
    rewrite after_run_posts, reqs_calls.
    destruct (for_mut_pure calls step (length (posts w) + calls x) r st1) as [r' st2].
    exists (lg1 ++ lg2). unfold ret. rewrite after_run_twice. reflexivity.
Qed.

Lemma for_in_eq (body : A -> St -> M St) (next : nat -> A -> St -> St) :
  (forall x st w, good x ->
     exists lg, body x st w
                = (Ok (next (length (posts w)) x st), after_run w lg (reqs x))) ->
  forall xs st w, Forall good xs ->
    exists lg,
      for_in body xs st w
      = (Ok (for_in_pure calls next (length (posts w)) xs st),
         after_run w lg (flat_map reqs xs)).
Proof.
  intros Hbody xs. induction xs as [|x r IH]; intros st w Hgood.
  - exists []. simpl. unfold ret. rewrite after_run_nil. reflexivity.
  - inversion Hgood as [|? ? Hx Hr]; subst.
    destruct (Hbody x st w Hx) as [lg1 H1].
    simpl. unfold bind at 1. rewrite H1.
    destruct (IH (next (length (posts w)) x st) (after_run w lg1 (reqs x)) Hr)
      as [lg2 H2].
    rewrite H2. rewrite after_run_posts, reqs_calls.
    exists (lg1 ++ lg2). rewrite after_run_twice. reflexivity.
Qed.

Lemma flat_map_calls (xs : list A) :
  length (flat_map reqs xs) = total_calls calls xs.
Proof.
  induction xs as [|x r IH]; [reflexivity|].
  simpl. rewrite length_app, reqs_calls, IH. reflexivity.
Qed.

End Loops.

(** ** The bodies of the loops *)

Ltac run_step :=
  unfold try_except, bind, ret, raise, lift;
  rewrite ?logging_eq, ?after_run_twice; cbn [app].

Section Bodies.

Variable E : env.

Lemma generate_alt_text_run (image_bytes : pybytes) (w : world) :
  generate_alt_text E image_bytes w =
    (Ok (caption E (length (posts w)) image_bytes),
     after_run w (caption_log E (length (posts w)) image_bytes)
       [request_for E image_bytes]).
Proof. apply generate_alt_text_eq. Qed.

Lemma pptx_shape_eq (sh : shape) (updated : bool) (w : world) :
  recognised sh ->
  exists lg,
    pptx_shape E sh updated w
    = (Ok (shape_step E (length (posts w)) sh updated),
       after_run w lg (shape_requests E sh)).
Proof.
  intros [ty Hty].
  unfold pptx_shape, shape_step, shape_requests, shape_image.
  unfold shape_image_blob, shape_set_descr.
  rewrite Hty. unfold lift at 1, bind at 1.
  destruct (is_picture ty).
  - destruct (image_blob sh) as [bs|].
    + run_step. rewrite generate_alt_text_run.
      destruct (xml_compatible (caption E (length (posts w)) bs));
        run_step; eexists; reflexivity.
    + run_step. eexists. reflexivity.
  - exists []. unfold ret. rewrite after_run_nil. reflexivity.
Qed.

Lemma shape_requests_calls (sh : shape) :
  length (shape_requests E sh) = shape_calls sh.
Proof. unfold shape_requests, shape_calls. destruct (shape_image sh); reflexivity. Qed.

Lemma pptx_slide_eq (sl : slide) (updated : bool) (w : world) :
  Forall recognised sl ->
  exists lg,
    for_mut (pptx_shape E) sl updated w
    = (Ok (slide_step E (length (posts w)) sl updated),
       after_run w lg (flat_map (shape_requests E) sl)).
Proof.
  apply (for_mut_eq shape_calls (shape_requests E) recognised
           shape_requests_calls).
  intros x st w' Hx. apply pptx_shape_eq. exact Hx.
Qed.

Lemma slide_requests_calls (sl : slide) :
  length (slide_requests E sl) = slide_calls sl.
Proof. apply flat_map_calls, shape_requests_calls. Qed.

Lemma pptx_slides_eq (prs : presentation) (updated : bool) (w : world) :
  recognised_slides prs ->
  exists lg,
    pptx_slides E prs updated w
    = (Ok (pptx_pure E (length (posts w)) prs updated),
       after_run w lg (flat_map (slide_requests E) prs)).
Proof.
  apply (for_mut_eq slide_calls (slide_requests E) (Forall recognised)
           slide_requests_calls).
  intros x st w' Hx. apply pptx_slide_eq. exact Hx.
Qed.

Lemma docx_shape_eq (doc : document) (sh : inline_shape) (updated : bool)
    (w : world) :
  exists lg,
    docx_shape E doc sh updated w
    = (Ok (inline_step E doc (length (posts w)) sh updated),
       after_run w lg (inline_requests E doc sh)).
Proof.
  unfold docx_shape, inline_step, inline_requests, inline_image, inline_embed.
  unfold inline_set_descr.
  destruct (graphic sh) as [|[rId|]].
  - run_step. eexists. reflexivity.
  - run_step. unfold related_part_blob.
    destruct (related_parts doc !! rId) as [bs|].
    + run_step. rewrite generate_alt_text_run, after_run_posts_nil. run_step.
      destruct (xml_compatible (caption E (length (posts w)) bs));
        run_step; eexists; reflexivity.
    + run_step. eexists. reflexivity.
  - run_step. unfold related_part_blob. run_step. eexists. reflexivity.
Qed.

Lemma inline_requests_calls (doc : document) (sh : inline_shape) :
  length (inline_requests E doc sh) = inline_calls doc sh.
Proof.
  unfold inline_requests, inline_calls. destruct (inline_image doc sh); reflexivity.
Qed.

Lemma docx_shapes_eq (doc : document) (updated : bool) (w : world) :
  exists lg,
    for_mut (docx_shape E doc) (inline_shapes doc) updated w
    = (Ok (docx_pure E (length (posts w)) doc updated),
       after_run w lg (flat_map (inline_requests E doc) (inline_shapes doc))).
Proof.
  apply (for_mut_eq (inline_calls doc) (inline_requests E doc) (fun _ => True)
           (inline_requests_calls doc)).
  - intros x st w' _. apply docx_shape_eq.
  - apply Forall_forall. intros; exact I.
Qed.

End Bodies.

Section PdfBodies.

Variable E : env.

Lemma either_below_cases (x y : pdfval) (n : Z) (w : world) :
  ((at_least x n && at_least y n) = true
   /\ either_below x y n w = (Ok false, w))
  \/ ((at_least x n && at_least y n) = false
      /\ (either_below x y n w = (Ok true, w)
          \/ either_below x y n w = (Raise TypeError, w))).
Proof.
  unfold either_below, val_lt_int, at_least, bind, ret, raise.
  destruct x as [a| | |]; try (right; split; [reflexivity|right; reflexivity]).
  destruct (a <? n) eqn:Ha.
  - right. split; [|left; reflexivity].
    apply andb_false_iff. left. apply Z.leb_gt. apply Z.ltb_lt. exact Ha.
  - assert ((n <=? a) = true) as -> by (apply Z.leb_le; apply Z.ltb_ge; exact Ha).
    destruct y as [b| | |];
      try (right; split; [reflexivity|right; reflexivity]).
    destruct (b <? n) eqn:Hb.
    + right. split; [|left; reflexivity].
      apply Z.leb_gt. apply Z.ltb_lt. exact Hb.
    + left. split; [|reflexivity].
      apply Z.leb_le. apply Z.ltb_ge. exact Hb.
Qed.

Lemma pdf_block_eq (page_num : Z) (b : block) (st : page * bool) (w : world) :
  typed b ->
  exists lg,
    pdf_block E true page_num b st w
    = (Ok (block_next E (length (posts w)) b st),
       after_run w lg (block_requests E b)).
Proof.
  intros [ty Hty]. destruct st as [pg updated].
  unfold pdf_block, block_next, block_requests, block_target, is_image_block.
  unfold block_getitem at 1. rewrite Hty. unfold bind at 1, ret at 1.
  destruct (val_eq_int ty 1); cbn [andb];
    [|exists []; unfold ret; rewrite after_run_nil; reflexivity].
  unfold block_passes.
  set (width := block_get b "width" (PInt 0)).
  set (height := block_get b "height" (PInt 0)).
  set (xres := block_get b "xres" (PInt 0)).
  set (yres := block_get b "yres" (PInt 0)).
  run_step.
  match goal with
  | |- context [either_below width height 20 ?w1] =>
      destruct (either_below_cases width height 20 w1) as [[Hs ->]|[Hs [-> | ->]]]
  end; rewrite Hs; cbn [andb];
    try (run_step; eexists; reflexivity).
  match goal with
  | |- context [either_below xres yres 36 ?w1] =>
      destruct (either_below_cases xres yres 36 w1) as [[Hr ->]|[Hr [-> | ->]]]
  end; rewrite Hr;
    try (run_step; eexists; reflexivity).
  unfold block_image, block_getitem.
  destruct (b !! "image") as [image|]; [|run_step; eexists; reflexivity].
  destruct (b !! "bbox") as [bbox|];
    [|destruct image; run_step; eexists; reflexivity].
  unfold fitz_Rect.
  destruct bbox as [| | |[|c0 [|c1 [|c2 [|c3 [|c4 cs]]]]]];
    try (destruct image; run_step; eexists; reflexivity).
  unfold bytes_like.
  destruct image as [| |bs|]; try (run_step; eexists; reflexivity).
  unfold ret, raise. cbv beta iota.
  rewrite generate_alt_text_run, after_run_posts_nil.
  unfold insert_htmlbox. cbn [andb]. fold (block_html E (length (posts w)) bs).
  destruct (htmlbox_accepts E (MkRect c0 c1 c2 c3) (block_html E (length (posts w)) bs));
    run_step; eexists; reflexivity.
Qed.

Lemma block_requests_calls (b : block) :
  length (block_requests E b) = block_calls b.
Proof.
  unfold block_requests, block_calls.
  destruct (block_target b) as [[bs bbox]|]; reflexivity.
Qed.

Lemma page_requests_calls (pg : page) :
  length (page_requests E pg) = page_calls pg.
Proof. apply flat_map_calls, block_requests_calls. Qed.

Lemma pdf_page_eq (pg : page) (st : Z * bool) (w : world) :
  typed_page pg ->
  exists lg,
    pdf_page E true pg st w
    = (Ok (page_step E (length (posts w)) pg st),
       after_run w lg (page_requests E pg)).
Proof.
  intros Hpg. destruct st as [page_num updated].
  unfold pdf_page, page_step. run_step.
  destruct (for_in_eq block_calls (block_requests E) typed block_requests_calls
              (pdf_block E true page_num) (block_next E)
              (fun x st w' H => pdf_block_eq page_num x st w' H)
              (blocks pg) (pg, updated)
              (after_run w
                 [(DEBUG,
                   [Lit "Page "; FInt (page_num + 1); Lit ": Found ";
                    FInt (Z.of_nat (length (blocks pg))); Lit " blocks."])] [])
              Hpg) as [lg Hlg].
  rewrite Hlg, after_run_posts_nil. cbn [fst snd].
  destruct (for_in_pure block_calls (block_next E) (length (posts w))
              (blocks pg) (pg, updated)) as [pg' updated'].
  rewrite after_run_twice. eexists. reflexivity.
Qed.

Lemma pdf_pages_eq (doc : pdf) (st : Z * bool) (w : world) :
  Forall typed_page doc ->
  exists lg,
    for_mut (pdf_page E true) doc st w
    = (Ok (pdf_pure E (length (posts w)) doc st),
       after_run w lg (flat_map (page_requests E) doc)).
Proof.
  apply (for_mut_eq page_calls (page_requests E) typed_page page_requests_calls).
  intros x st' w' H. apply pdf_page_eq. exact H.
Qed.

End PdfBodies.

(** ** The adapters *)

Section Adapters.

Variable E : env.

Lemma process_pptx_eq (file_path : pystr) (w : world) (prs : presentation) :
  fs w !! file_path = Some (PptxFile prs) ->
  recognised_slides prs ->
  let n := length (posts w) in
  let prs' := fst (pptx_pure E n prs false) in
  let updated := snd (pptx_pure E n prs false) in
  exists lg,
    process_pptx E file_path w
    = (Ok (returned updated (output_path E file_path)),
       World (files_after updated (output_path E file_path) (PptxFile prs') (fs w))
         (log w ++ lg)
         (posts w ++ flat_map (slide_requests E) prs)).
Proof.
  intros Hopen Hrec n prs' updated. subst n prs' updated.
  unfold process_pptx, output_path. run_step.
  unfold Presentation. cbn [fs after_run]. rewrite Hopen.
  destruct (pptx_slides_eq E prs false
              (after_run w [(INFO, [Lit "Processing PPTX: "; FStr file_path])] [])
              Hrec)
    as [lg Hlg].
  rewrite Hlg, after_run_posts_nil.
  destruct (pptx_pure E (length (posts w)) prs false) as [prs' updated].
  cbn [fst snd]. destruct updated; cbn [returned files_after].
  - destruct (splitext E file_path) as [base ext]. run_step.
    unfold save. run_step. cbn [fst snd]. eexists (_ :: lg ++ [_]).
    unfold after_run. cbn [fs log posts].
    rewrite <- !app_assoc, !app_nil_r. reflexivity.
  - rewrite after_run_twice. eexists. reflexivity.
Qed.

Lemma process_pptx_open_fails (file_path : pystr) (w : world) :
  (forall prs, fs w !! file_path <> Some (PptxFile prs)) ->
  process_pptx E file_path w
  = (Raise PackageNotFoundError,
     after_run w [(INFO, [Lit "Processing PPTX: "; FStr file_path])] []).
Proof.
  intros Hno. unfold process_pptx. run_step.
  unfold Presentation. cbn [fs after_run].
  destruct (fs w !! file_path) as [[prs| | |]|] eqn:Hf; try reflexivity.
  exfalso. exact (Hno prs eq_refl).
Qed.

Lemma process_docx_eq (file_path : pystr) (w : world) (doc : document) :
  fs w !! file_path = Some (DocxFile doc) ->
  let n := length (posts w) in
  let shapes' := fst (docx_pure E n doc false) in
  let updated := snd (docx_pure E n doc false) in
  exists lg,
    process_docx E file_path w
    = (Ok (returned updated (output_path E file_path)),
       World (files_after updated (output_path E file_path)
                (DocxFile (Document shapes' (related_parts doc))) (fs w))
         (log w ++ lg)
         (posts w ++ flat_map (inline_requests E doc) (inline_shapes doc))).
Proof.
  intros Hopen n shapes' updated. subst n shapes' updated.
  unfold process_docx, output_path. run_step.
  unfold Document_open. cbn [fs after_run]. rewrite Hopen.
  destruct (docx_shapes_eq E doc false
              (after_run w [(INFO, [Lit "Processing DOCX: "; FStr file_path])] []))
    as [lg Hlg].
  rewrite Hlg, after_run_posts_nil.
  destruct (docx_pure E (length (posts w)) doc false) as [shapes' updated].
  cbn [fst snd]. destruct updated; cbn [returned files_after].
  - destruct (splitext E file_path) as [base ext]. run_step.
    unfold save. run_step. cbn [fst snd]. eexists (_ :: lg ++ [_]).
    unfold after_run. cbn [fs log posts].
    rewrite <- !app_assoc, !app_nil_r. reflexivity.
  - rewrite after_run_twice. eexists. reflexivity.
Qed.

Lemma process_docx_open_fails (file_path : pystr) (w : world) :
  (forall doc, fs w !! file_path <> Some (DocxFile doc)) ->
  process_docx E file_path w
  = (Raise PackageNotFoundError,
     after_run w [(INFO, [Lit "Processing DOCX: "; FStr file_path])] []).
Proof.
  intros Hno. unfold process_docx. run_step.
  unfold Document_open. cbn [fs after_run].
  destruct (fs w !! file_path) as [[|doc| |]|] eqn:Hf; try reflexivity.
  exfalso. exact (Hno doc eq_refl).
Qed.

Lemma process_pdf_eq (file_path : pystr) (w : world) (doc : pdf) :
  fs w !! file_path = Some (PdfFile doc) ->
  Forall typed_page doc ->
  let n := length (posts w) in
  let doc' := fst (pdf_pure E n doc (0, false)) in
  let updated := snd (snd (pdf_pure E n doc (0, false))) in
  exists lg,
    process_pdf E file_path w
    = (Ok (returned updated (output_path E file_path)),
       World (files_after updated (output_path E file_path) (PdfFile doc') (fs w))
         (log w ++ lg)
         (posts w ++ flat_map (page_requests E) doc)).
Proof.
  intros Hopen Htyped n doc' updated. subst n doc' updated.
  unfold process_pdf, output_path. run_step.
  unfold fitz_open. cbn [fs after_run]. rewrite Hopen.
  destruct (pdf_pages_eq E doc (0, false)
              (after_run w [(INFO, [Lit "Processing PDF: "; FStr file_path])] [])
              Htyped)
    as [lg Hlg].
  rewrite Hlg, after_run_posts_nil.
  destruct (pdf_pure E (length (posts w)) doc (0, false))
    as [doc' [page_num updated]].
  cbn [fst snd]. destruct updated; cbn [returned files_after].
  - destruct (splitext E file_path) as [base ext]. run_step.
    unfold fitz_save, save. run_step. cbn [fst snd]. eexists (_ :: lg ++ [_]).
    unfold after_run. cbn [fs log posts].
    rewrite <- !app_assoc, !app_nil_r. reflexivity.
  - rewrite after_run_twice. eexists. reflexivity.
Qed.

Lemma process_pdf_open_fails (file_path : pystr) (w : world) :
  open_fails E PDF (fs w !! file_path) ->
  process_pdf E file_path w
  = (Raise (match fs w !! file_path with
            | Some _ => FileDataError
            | None => FileNotFoundError
            end),
     after_run w [(INFO, [Lit "Processing PDF: "; FStr file_path])] []).
Proof.
  intros Hno. unfold process_pdf. run_step.
  unfold fitz_open. cbn [fs after_run].
  destruct (fs w !! file_path) as [[prs|dx|doc|data]|] eqn:Hf;
    cbn [open_fails] in Hno; try contradiction;
    try (rewrite Hno); reflexivity.
Qed.

End Adapters.

(** ** The loops as functions: general facts *)

Section PureFacts.

Context {A St : Type}.
Variable calls : A -> nat.
Variable step : nat -> A -> St -> A * St.

Lemma for_mut_pure_cons (n : nat) (x : A) (r : list A) (st : St) :
  for_mut_pure calls step n (x :: r) st
  = (fst (step n x st)
       :: fst (for_mut_pure calls step (n + calls x) r (snd (step n x st))),
     snd (for_mut_pure calls step (n + calls x) r (snd (step n x st)))).
Proof.
  simpl. destruct (step n x st) as [x' st1]. simpl.
  destruct (for_mut_pure calls step (n + calls x) r st1). reflexivity.
Qed.

Lemma for_mut_pure_length (xs : list A) (n : nat) (st : St) :
  length (fst (for_mut_pure calls step n xs st)) = length xs.
Proof.
  revert n st. induction xs as [|x r IH]; intros n st; [reflexivity|].
  rewrite for_mut_pure_cons. simpl. rewrite IH. reflexivity.
Qed.

(** Each element is stepped once, at the number of POSTs its
    predecessors have made. *)
Lemma for_mut_pure_lookup (xs : list A) (n : nat) (st : St) (j : nat) (x : A) :
  xs !! j = Some x ->
  exists st_j,
    fst (for_mut_pure calls step n xs st) !! j
    = Some (fst (step (n + total_calls calls (take j xs)) x st_j)).
Proof.
  revert n st j. induction xs as [|y r IH]; intros n st j Hj; [discriminate|].
  rewrite for_mut_pure_cons. destruct j as [|j].
  - injection Hj as ->. exists st. simpl. rewrite Nat.add_0_r. reflexivity.
  - simpl in Hj. destruct (IH (n + calls y)%nat (snd (step n y st)) j Hj)
      as [st_j H].
    exists st_j. simpl. rewrite H. unfold total_calls. simpl.
    rewrite Nat.add_assoc. reflexivity.
Qed.

Variable flag : St -> bool.

(** A flag that no step lowers stays up. *)
Hypothesis flag_kept :
  forall n x st, flag st = true -> flag (snd (step n x st)) = true.

Lemma for_mut_pure_flag_kept (xs : list A) (n : nat) (st : St) :
  flag st = true -> flag (snd (for_mut_pure calls step n xs st)) = true.
Proof.
  revert n st. induction xs as [|x r IH]; intros n st H; [exact H|].
  rewrite for_mut_pure_cons. simpl. apply IH, flag_kept, H.
Qed.

Lemma for_mut_pure_flag_raised (xs : list A) (n : nat) (st : St) (j : nat) (x : A) :
  xs !! j = Some x ->
  (forall st', flag (snd (step (n + total_calls calls (take j xs)) x st')) = true) ->
  flag (snd (for_mut_pure calls step n xs st)) = true.
Proof.
  revert n st j. induction xs as [|y r IH]; intros n st j Hj Hup; [discriminate|].
  rewrite for_mut_pure_cons. simpl. destruct j as [|j].
  - injection Hj as ->. apply for_mut_pure_flag_kept.
    specialize (Hup st). simpl in Hup. rewrite Nat.add_0_r in Hup. exact Hup.
  - simpl in Hj. apply (IH _ _ j Hj). intros st'.
    specialize (Hup st'). unfold total_calls in *. simpl in Hup.
    rewrite Nat.add_assoc in Hup. exact Hup.
Qed.

(** Counting the changes. *)
Variable R : A -> A -> nat -> Prop.

Hypothesis step_counts :
  forall n x st, exists k,
    R x (fst (step n x st)) k
    /\ flag (snd (step n x st)) = flag st || (0 <? k)%nat.

Lemma for_mut_pure_updates (xs : list A) (n : nat) (st : St) :
  exists k,
    updates R xs (fst (for_mut_pure calls step n xs st)) k
    /\ flag (snd (for_mut_pure calls step n xs st)) = flag st || (0 <? k)%nat.
Proof.
  revert n st. induction xs as [|x r IH]; intros n st.
  - exists 0%nat. split; [constructor|]. simpl. rewrite orb_false_r. reflexivity.
  - rewrite for_mut_pure_cons. simpl.
    destruct (step_counts n x st) as [k1 [HR Hf]].
    destruct (IH (n + calls x)%nat (snd (step n x st))) as [k2 [Hu Hf2]].
    exists (k1 + k2)%nat. split; [constructor; assumption|].
    rewrite Hf2, Hf, <- orb_assoc. f_equal.
    destruct k1, k2; reflexivity.
Qed.

End PureFacts.

Lemma updates_length {A : Type} (R : A -> A -> nat -> Prop) (xs xs' : list A)
    (k : nat) :
  updates R xs xs' k -> length xs' = length xs.
Proof. induction 1; simpl; congruence. Qed.

(** Where nothing changed, the list is the same. *)
Lemma updates_none {A : Type} (R : A -> A -> nat -> Prop) (xs xs' : list A) :
  (forall x x', R x x' 0%nat -> x' = x) ->
  updates R xs xs' 0%nat -> xs' = xs.
Proof.
  intros HR H.
  assert (Hgen : forall k, updates R xs xs' k -> k = 0%nat -> xs' = xs).
  { clear H. intros k H. induction H as [|x x' k xs xs' n Hx Hxs IH]; intros Hk.
    - reflexivity.
    - assert (k = 0%nat) by lia. assert (n = 0%nat) by lia. subst k n.
      rewrite (HR _ _ Hx), IH; reflexivity. }
  exact (Hgen _ H eq_refl).
Qed.

(** ** What the adapters change *)

Lemma is_picture_true (t : option MSO_SHAPE_TYPE) :
  is_picture t = true -> t = Some PICTURE.
Proof. destruct t as [[]|]; (reflexivity || discriminate). Qed.

Lemma is_picture_false (t : option MSO_SHAPE_TYPE) :
  is_picture t = false -> t <> Some PICTURE.
Proof. intros H ->. discriminate H. Qed.

(** The image of a shape, by the type and the bytes of the shape. *)
Lemma shape_image_picture (sh : shape) :
  shape_type sh = Ok (Some PICTURE) -> shape_image sh = image_blob sh.
Proof. unfold shape_image. intros ->. reflexivity. Qed.

Lemma shape_image_other (sh : shape) :
  shape_type sh <> Ok (Some PICTURE) -> shape_image sh = None.
Proof.
  unfold shape_image. intros H.
  destruct (shape_type sh) as [ty|e]; [|reflexivity].
  destruct (is_picture ty) eqn:Hp; [|reflexivity].
  apply is_picture_true in Hp. subst ty. contradiction.
Qed.

Lemma shape_image_cases (sh : shape) :
  (shape_type sh = Ok (Some PICTURE) /\ shape_image sh = image_blob sh)
  \/ (shape_type sh <> Ok (Some PICTURE) /\ shape_image sh = None).
Proof.
  destruct (decide (shape_type sh = Ok (Some PICTURE))) as [H|H].
  - left. split; [exact H|apply shape_image_picture, H].
  - right. split; [exact H|apply shape_image_other, H].
Qed.

Lemma caption_error_text_xml : xml_compatible caption_error_text = true.
Proof. vm_compute. reflexivity. Qed.

Section Changes.

Variable E : env.

Lemma shape_step_counts (n : nat) (sh : shape) (updated : bool) :
  exists k,
    shape_update sh (fst (shape_step E n sh updated)) k
    /\ snd (shape_step E n sh updated) = updated || (0 <? k)%nat.
Proof.
  unfold shape_step.
  destruct (shape_image_cases sh) as [[Hp ->]|[Hp ->]].
  - destruct (image_blob sh) as [bs|] eqn:Hb.
    + destruct (xml_compatible (caption E n bs)).
      * exists 1%nat. split; [|simpl; rewrite orb_true_r; reflexivity].
        right. split; [reflexivity|].
        split; [exact Hp|]. simpl. rewrite Hp, ?Hb. eexists. reflexivity.
      * exists 0%nat. split; [left; split; reflexivity|].
        simpl. rewrite orb_false_r. reflexivity.
    + exists 0%nat. split; [left; split; reflexivity|].
      simpl. rewrite orb_false_r. reflexivity.
  - exists 0%nat. split; [left; split; reflexivity|].
    simpl. rewrite orb_false_r. reflexivity.
Qed.

Lemma slide_step_counts (n : nat) (sl : slide) (updated : bool) :
  exists k,
    updates shape_update sl (fst (slide_step E n sl updated)) k
    /\ snd (slide_step E n sl updated) = updated || (0 <? k)%nat.
Proof.
  exact (for_mut_pure_updates shape_calls (shape_step E) (fun b => b)
           shape_update shape_step_counts sl n updated).
Qed.

Lemma pptx_pure_counts (n : nat) (prs : presentation) (updated : bool) :
  exists k,
    updates (updates shape_update) prs (fst (pptx_pure E n prs updated)) k
    /\ snd (pptx_pure E n prs updated) = updated || (0 <? k)%nat.
Proof.
  exact (for_mut_pure_updates slide_calls (slide_step E) (fun b => b)
           (updates shape_update) slide_step_counts prs n updated).
Qed.

Lemma inline_step_counts (doc : document) (n : nat) (sh : inline_shape)
    (updated : bool) :
  exists k,
    inline_update sh (fst (inline_step E doc n sh updated)) k
    /\ snd (inline_step E doc n sh updated) = updated || (0 <? k)%nat.
Proof.
  unfold inline_step.
  destruct (inline_image doc sh) as [bs|].
  - destruct (xml_compatible (caption E n bs)).
    + exists 1%nat. split; [|simpl; rewrite orb_true_r; reflexivity].
      right. split; [reflexivity|]. eexists. reflexivity.
    + exists 0%nat. split; [left; split; reflexivity|].
      simpl. rewrite orb_false_r. reflexivity.
  - exists 0%nat. split; [left; split; reflexivity|].
    simpl. rewrite orb_false_r. reflexivity.
Qed.

Lemma docx_pure_counts (n : nat) (doc : document) (updated : bool) :
  exists k,
    updates inline_update (inline_shapes doc) (fst (docx_pure E n doc updated)) k
    /\ snd (docx_pure E n doc updated) = updated || (0 <? k)%nat.
Proof.
  exact (for_mut_pure_updates (inline_calls doc) (inline_step E doc) (fun b => b)
           inline_update (inline_step_counts doc) (inline_shapes doc) n updated).
Qed.

Lemma block_next_counts (n : nat) (b : block) (st : page * bool) :
  exists boxes,
    blocks (fst (block_next E n b st)) = blocks (fst st)
    /\ htmlboxes (fst (block_next E n b st)) = htmlboxes (fst st) ++ boxes
    /\ snd (block_next E n b st) = snd st || (0 <? length boxes)%nat.
Proof.
  unfold block_next.
  destruct (block_target b) as [[bs bbox]|].
  - destruct (htmlbox_accepts E bbox (block_html E n bs)).
    + eexists [_]. simpl. rewrite orb_true_r. repeat split.
    + exists []. rewrite app_nil_r, orb_false_r. repeat split.
  - exists []. rewrite app_nil_r, orb_false_r. repeat split.
Qed.

Lemma blocks_pure_counts (bs : list block) (n : nat) (st : page * bool) :
  exists boxes,
    blocks (fst (for_in_pure block_calls (block_next E) n bs st)) = blocks (fst st)
    /\ htmlboxes (fst (for_in_pure block_calls (block_next E) n bs st))
       = htmlboxes (fst st) ++ boxes
    /\ snd (for_in_pure block_calls (block_next E) n bs st)
       = snd st || (0 <? length boxes)%nat.
Proof.
  revert n st. induction bs as [|b r IH]; intros n st.
  - exists []. simpl. rewrite app_nil_r, orb_false_r. repeat split.
  - simpl. destruct (block_next_counts n b st) as [b1 (H1 & H2 & H3)].
    destruct (IH (n + block_calls b)%nat (block_next E n b st))
      as [b2 (G1 & G2 & G3)].
    exists (b1 ++ b2). rewrite G1, G2, G3, H1, H2, H3.
    rewrite length_app, <- orb_assoc, app_assoc. repeat split.
    f_equal. destruct (length b1), (length b2); reflexivity.
Qed.

Lemma page_step_counts (n : nat) (pg : page) (st : Z * bool) :
  exists k,
    page_update pg (fst (page_step E n pg st)) k
    /\ snd (snd (page_step E n pg st)) = snd st || (0 <? k)%nat.
Proof.
  unfold page_step.
  destruct (blocks_pure_counts (blocks pg) n (pg, snd st)) as [boxes (H1 & H2 & H3)].
  destruct (for_in_pure block_calls (block_next E) n (blocks pg) (pg, snd st))
    as [pg' updated].
  simpl in *. exists (length boxes). split; [|exact H3].
  split; [exact H1|]. exists boxes. split; [exact H2|reflexivity].
Qed.

Lemma pdf_pure_counts (n : nat) (doc : pdf) (st : Z * bool) :
  exists k,
    updates page_update doc (fst (pdf_pure E n doc st)) k
    /\ snd (snd (pdf_pure E n doc st)) = snd st || (0 <? k)%nat.
Proof.
  exact (for_mut_pure_updates page_calls (page_step E) snd
           page_update page_step_counts doc n st).
Qed.

(** The three adapters at once. *)
Lemma adapter_eq (fmt : format) (file_path : pystr) (w : world) (f : file) :
  fs w !! file_path = Some f -> readable_as fmt f ->
  let f' := fst (adapter_pure E fmt (length (posts w)) f) in
  let updated := snd (adapter_pure E fmt (length (posts w)) f) in
  exists lg,
    adapter E fmt file_path w
    = (Ok (returned updated (output_path E file_path)),
       World (files_after updated (output_path E file_path) f' (fs w))
         (log w ++ lg)
         (posts w ++ adapter_requests E fmt f)).
Proof.
  intros Hf Hr.
  destruct fmt, f as [prs|doc|doc|data]; try contradiction; cbn -[output_path].
  - exact (process_pptx_eq E file_path w prs Hf Hr).
  - exact (process_docx_eq E file_path w doc Hf).
  - exact (process_pdf_eq E file_path w doc Hf Hr).
Qed.

Lemma adapter_pure_counts (fmt : format) (n : nat) (f : file) :
  readable_as fmt f ->
  exists k,
    file_updates fmt f (fst (adapter_pure E fmt n f)) k
    /\ snd (adapter_pure E fmt n f) = (0 <? k)%nat.
Proof.
  intros Hr.
  destruct fmt, f as [prs|doc|doc|data]; try contradiction; cbn.
  - exact (pptx_pure_counts n prs false).
  - destruct (docx_pure_counts n doc false) as [k [H1 H2]].
    exists k. repeat split; assumption.
  - exact (pdf_pure_counts n doc (0, false)).
Qed.

End Changes.

(** ** Counting the images that are updated *)

Lemma captioned_from_app (E : env) (l1 l2 : list (pybytes * (pystr -> bool)))
    (n : nat) :
  captioned_from E n (l1 ++ l2)
  = (captioned_from E n l1 + captioned_from E (n + length l1) l2)%nat.
Proof.
  revert n. induction l1 as [|[bs accepts] r IH]; intros n.
  - simpl. rewrite Nat.add_0_r. reflexivity.
  - simpl. rewrite IH, Nat.add_succ_r, Nat.add_assoc. reflexivity.
Qed.

Lemma flat_map_concat {A B : Type} (f : A -> list B) (ls : list (list A)) :
  flat_map (flat_map f) ls = flat_map f (concat ls).
Proof.
  induction ls as [|l r IH]; [reflexivity|].
  simpl. rewrite flat_map_app, IH. reflexivity.
Qed.

Section Counting.

Context {A St : Type}.
Variable E : env.
Variable calls : A -> nat.
Variable step : nat -> A -> St -> A * St.
Variable flag : St -> bool.
Variable R : A -> A -> nat -> Prop.
Variable images : A -> list (pybytes * (pystr -> bool)).

Hypothesis images_calls : forall x, length (images x) = calls x.

Hypothesis step_captioned :
  forall n x st,
    R x (fst (step n x st)) (captioned_from E n (images x))
    /\ flag (snd (step n x st))
       = flag st || (0 <? captioned_from E n (images x))%nat.

Lemma for_mut_pure_captioned (xs : list A) (n : nat) (st : St) :
  updates R xs (fst (for_mut_pure calls step n xs st))
    (captioned_from E n (flat_map images xs))
  /\ flag (snd (for_mut_pure calls step n xs st))
     = flag st || (0 <? captioned_from E n (flat_map images xs))%nat.
Proof.
  revert n st. induction xs as [|x r IH]; intros n st.
  - split; [constructor|]. simpl. rewrite orb_false_r. reflexivity.
  - rewrite for_mut_pure_cons. cbn [fst snd flat_map].
    rewrite captioned_from_app, images_calls.
    destruct (step_captioned n x st) as [HR Hf].
    destruct (IH (n + calls x)%nat (snd (step n x st))) as [Hu Hf2].
    split; [constructor; assumption|].
    rewrite Hf2, Hf, <- orb_assoc. f_equal.
    destruct (captioned_from E n (images x)),
      (captioned_from E (n + calls x) (flat_map images r)); reflexivity.
Qed.

End Counting.

Section Captioned.

Variable E : env.

Lemma shape_images_calls (sh : shape) : length (shape_images sh) = shape_calls sh.
Proof. unfold shape_images, shape_calls. destruct (shape_image sh); reflexivity. Qed.

Lemma shape_step_captioned (n : nat) (sh : shape) (updated : bool) :
  shape_update sh (fst (shape_step E n sh updated))
    (captioned_from E n (shape_images sh))
  /\ snd (shape_step E n sh updated)
     = updated || (0 <? captioned_from E n (shape_images sh))%nat.
Proof.
  unfold shape_step, shape_images.
  destruct (shape_image_cases sh) as [[Hp ->]|[Hp ->]].
  - destruct (image_blob sh) as [bs|] eqn:Hb.
    + cbn [captioned_from]. destruct (xml_compatible (caption E n bs)).
      * split; [|simpl; rewrite orb_true_r; reflexivity].
        right. split; [reflexivity|].
        split; [exact Hp|]. simpl. rewrite Hp, ?Hb. eexists. reflexivity.
      * split; [left; split; reflexivity|].
        simpl. rewrite orb_false_r. reflexivity.
    + split; [left; split; reflexivity|].
      simpl. rewrite orb_false_r. reflexivity.
  - split; [left; split; reflexivity|].
    simpl. rewrite orb_false_r. reflexivity.
Qed.

Lemma slide_images_calls (sl : slide) :
  length (flat_map shape_images sl) = slide_calls sl.
Proof.
  unfold slide_calls, total_calls.
  induction sl as [|sh r IH]; [reflexivity|].
  simpl. rewrite length_app, shape_images_calls, IH. reflexivity.
Qed.

Lemma slide_step_captioned (n : nat) (sl : slide) (updated : bool) :
  updates shape_update sl (fst (slide_step E n sl updated))
    (captioned_from E n (flat_map shape_images sl))
  /\ snd (slide_step E n sl updated)
     = updated || (0 <? captioned_from E n (flat_map shape_images sl))%nat.
Proof.
  exact (for_mut_pure_captioned E shape_calls (shape_step E) (fun b => b)
           shape_update shape_images shape_images_calls shape_step_captioned
           sl n updated).
Qed.

(** The images of the shapes are the bytes of the pictures. *)
Lemma shape_images_pictures (l : list shape) :
  flat_map shape_images l
  = map (fun bs => (bs, xml_compatible))
      (omap image_blob (filter (fun sh => shape_type sh = Ok (Some PICTURE)) l)).
Proof.
  induction l as [|sh r IH]; [reflexivity|].
  simpl. rewrite filter_cons, IH. unfold shape_images.
  destruct (decide (shape_type sh = Ok (Some PICTURE))) as [Hp|Hp].
  - rewrite (shape_image_picture sh Hp). simpl.
    destruct (image_blob sh); reflexivity.
  - rewrite (shape_image_other sh Hp). reflexivity.
Qed.

Lemma pptx_pure_captioned (n : nat) (prs : presentation) (updated : bool) :
  updates (updates shape_update) prs (fst (pptx_pure E n prs updated))
    (captioned E PPTX n (PptxFile prs))
  /\ snd (pptx_pure E n prs updated)
     = updated || (0 <? captioned E PPTX n (PptxFile prs))%nat.
Proof.
  unfold captioned, adapter_images, pictures.
  rewrite <- shape_images_pictures, <- flat_map_concat.
  exact (for_mut_pure_captioned E slide_calls (slide_step E) (fun b => b)
           (updates shape_update) (flat_map shape_images) slide_images_calls
           slide_step_captioned prs n updated).
Qed.

Lemma inline_images_calls (doc : document) (sh : inline_shape) :
  length (inline_images doc sh) = inline_calls doc sh.
Proof.
  unfold inline_images, inline_calls. destruct (inline_image doc sh); reflexivity.
Qed.

Lemma inline_step_captioned (doc : document) (n : nat) (sh : inline_shape)
    (updated : bool) :
  inline_update sh (fst (inline_step E doc n sh updated))
    (captioned_from E n (inline_images doc sh))
  /\ snd (inline_step E doc n sh updated)
     = updated || (0 <? captioned_from E n (inline_images doc sh))%nat.
Proof.
  unfold inline_step, inline_images.
  destruct (inline_image doc sh) as [bs|].
  - cbn [captioned_from]. destruct (xml_compatible (caption E n bs)).
    + split; [|simpl; rewrite orb_true_r; reflexivity].
      right. split; [reflexivity|]. eexists. reflexivity.
    + split; [left; split; reflexivity|].
      simpl. rewrite orb_false_r. reflexivity.
  - split; [left; split; reflexivity|].
    simpl. rewrite orb_false_r. reflexivity.
Qed.

Lemma inline_images_omap (doc : document) (l : list inline_shape) :
  flat_map (inline_images doc) l
  = map (fun bs => (bs, xml_compatible)) (omap (inline_image doc) l).
Proof.
  induction l as [|sh r IH]; [reflexivity|].
  simpl. rewrite IH. unfold inline_images.
  destruct (inline_image doc sh); reflexivity.
Qed.

Lemma docx_pure_captioned (n : nat) (doc : document) (updated : bool) :
  updates inline_update (inline_shapes doc) (fst (docx_pure E n doc updated))
    (captioned E DOCX n (DocxFile doc))
  /\ snd (docx_pure E n doc updated)
     = updated || (0 <? captioned E DOCX n (DocxFile doc))%nat.
Proof.
  unfold captioned, adapter_images. rewrite <- inline_images_omap.
  exact (for_mut_pure_captioned E (inline_calls doc) (inline_step E doc)
           (fun b => b) inline_update (inline_images doc)
           (inline_images_calls doc) (inline_step_captioned doc)
           (inline_shapes doc) n updated).
Qed.

Lemma block_images_calls (b : block) : length (block_images E b) = block_calls b.
Proof.
  unfold block_images, block_calls.
  destruct (block_target b) as [[bs bbox]|]; reflexivity.
Qed.

Lemma block_next_captioned (n : nat) (b : block) (st : page * bool) :
  exists boxes,
    blocks (fst (block_next E n b st)) = blocks (fst st)
    /\ htmlboxes (fst (block_next E n b st)) = htmlboxes (fst st) ++ boxes
    /\ length boxes = captioned_from E n (block_images E b)
    /\ snd (block_next E n b st) = snd st || (0 <? length boxes)%nat.
Proof.
  unfold block_next, block_images.
  destruct (block_target b) as [[bs bbox]|].
  - cbn [captioned_from]. unfold box_test. fold (block_html E n bs).
    destruct (htmlbox_accepts E bbox (block_html E n bs)).
    + eexists [_]. simpl. rewrite orb_true_r. repeat split.
    + exists []. rewrite app_nil_r, orb_false_r. repeat split.
  - exists []. rewrite app_nil_r, orb_false_r. repeat split.
Qed.

Lemma blocks_pure_captioned (bs : list block) (n : nat) (st : page * bool) :
  exists boxes,
    blocks (fst (for_in_pure block_calls (block_next E) n bs st)) = blocks (fst st)
    /\ htmlboxes (fst (for_in_pure block_calls (block_next E) n bs st))
       = htmlboxes (fst st) ++ boxes
    /\ length boxes = captioned_from E n (flat_map (block_images E) bs)
    /\ snd (for_in_pure block_calls (block_next E) n bs st)
       = snd st || (0 <? length boxes)%nat.
Proof.
  revert n st. induction bs as [|b r IH]; intros n st.
  - exists []. simpl. rewrite app_nil_r, orb_false_r. repeat split.
  - cbn [for_in_pure flat_map].
    destruct (block_next_captioned n b st) as [b1 (H1 & H2 & H3 & H4)].
    destruct (IH (n + block_calls b)%nat (block_next E n b st))
      as [b2 (G1 & G2 & G3 & G4)].
    exists (b1 ++ b2). rewrite G1, G2, G4, H1, H2, H4.
    rewrite captioned_from_app, block_images_calls, <- H3, <- G3.
    rewrite length_app, <- orb_assoc, app_assoc. repeat split.
    f_equal. destruct (length b1), (length b2); reflexivity.
Qed.

Lemma page_images_calls (pg : page) :
  length (flat_map (block_images E) (blocks pg)) = page_calls pg.
Proof.
  unfold page_calls, total_calls.
  induction (blocks pg) as [|b r IH]; [reflexivity|].
  simpl. rewrite length_app, block_images_calls, IH. reflexivity.
Qed.

Lemma page_step_captioned (n : nat) (pg : page) (st : Z * bool) :
  page_update pg (fst (page_step E n pg st))
    (captioned_from E n (flat_map (block_images E) (blocks pg)))
  /\ snd (snd (page_step E n pg st))
     = snd st || (0 <? captioned_from E n (flat_map (block_images E) (blocks pg)))%nat.
Proof.
  unfold page_step.
  destruct (blocks_pure_captioned (blocks pg) n (pg, snd st))
    as [boxes (H1 & H2 & H3 & H4)].
  destruct (for_in_pure block_calls (block_next E) n (blocks pg) (pg, snd st))
    as [pg' updated].
  simpl in *. rewrite <- H3. split; [|exact H4].
  split; [exact H1|]. exists boxes. split; [exact H2|reflexivity].
Qed.

Lemma block_images_targets (l : list block) :
  flat_map (block_images E) l
  = map (fun t : pybytes * Rect => (fst t, box_test E (snd t))) (omap block_target l).
Proof.
  induction l as [|b r IH]; [reflexivity|].
  simpl. rewrite IH. unfold block_images.
  destruct (block_target b) as [[bs bbox]|]; reflexivity.
Qed.

Lemma pdf_pure_captioned (n : nat) (doc : pdf) (st : Z * bool) :
  updates page_update doc (fst (pdf_pure E n doc st))
    (captioned E PDF n (PdfFile doc))
  /\ snd (snd (pdf_pure E n doc st))
     = snd st || (0 <? captioned E PDF n (PdfFile doc))%nat.
Proof.
  unfold captioned, adapter_images.
  rewrite <- block_images_targets.
  assert (flat_map (block_images E) (flat_map blocks doc)
          = flat_map (fun pg => flat_map (block_images E) (blocks pg)) doc) as ->.
  { induction doc as [|pg r IH]; [reflexivity|].
    simpl. rewrite flat_map_app, IH. reflexivity. }
  exact (for_mut_pure_captioned E page_calls (page_step E) snd page_update
           (fun pg => flat_map (block_images E) (blocks pg)) page_images_calls
           page_step_captioned doc n st).
Qed.

(** The three adapters at once: the document an adapter holds after its
    loop has the descriptions of [captioned] images set, and the adapter
    saves exactly when that number is not zero. *)
Lemma adapter_pure_captioned (fmt : format) (n : nat) (f : file) :
  readable_as fmt f ->
  file_updates fmt f (fst (adapter_pure E fmt n f)) (captioned E fmt n f)
  /\ snd (adapter_pure E fmt n f) = (0 <? captioned E fmt n f)%nat.
Proof.
  intros Hr.
  destruct fmt, f as [prs|doc|doc|data]; try contradiction;
    cbn [adapter_pure file_updates fst snd].
  - exact (pptx_pure_captioned n prs false).
  - destruct (docx_pure_captioned n doc false) as [H1 H2].
    repeat split; assumption.
  - exact (pdf_pure_captioned n doc (0, false)).
Qed.

End Captioned.

(** ** A loop whose body raises *)

Section Raising.

Context {A St : Type}.
Variable good : A -> Prop.
Context `{forall x, Decision (good x)}.
Variable raised : exn -> Prop.

Lemma for_in_raises (body : A -> St -> M St) :
  (forall x st w, good x ->
     exists st' w', body x st w = (Ok st', w') /\ fs w' = fs w) ->
  (forall x st w, ~ good x ->
     exists e w', body x st w = (Raise e, w') /\ raised e /\ fs w' = fs w) ->
  forall xs st w, ~ Forall good xs ->
    exists e w', for_in body xs st w = (Raise e, w') /\ raised e /\ fs w' = fs w.
Proof.
  intros Hgood Hbad xs. induction xs as [|x r IH]; intros st w Hnot.
  - exfalso. apply Hnot. constructor.
  - cbn [for_in]. unfold bind at 1.
    destruct (decide (good x)) as [Hx|Hx].
    + destruct (Hgood x st w Hx) as (st' & w1 & -> & Hfs).
      destruct (IH st' w1) as (e & w' & -> & He & Hfs').
      { intros Hr. apply Hnot. constructor; assumption. }
      exists e, w'. split; [reflexivity|]. split; [exact He|congruence].
    + destruct (Hbad x st w Hx) as (e & w' & -> & He & Hfs).
      exists e, w'. split; [reflexivity|]. split; assumption.
Qed.

Lemma for_mut_raises (body : A -> St -> M (A * St)) :
  (forall x st w, good x ->
     exists r w', body x st w = (Ok r, w') /\ fs w' = fs w) ->
  (forall x st w, ~ good x ->
     exists e w', body x st w = (Raise e, w') /\ raised e /\ fs w' = fs w) ->
  forall xs st w, ~ Forall good xs ->
    exists e w', for_mut body xs st w = (Raise e, w') /\ raised e /\ fs w' = fs w.
Proof.
  intros Hgood Hbad xs. induction xs as [|x r IH]; intros st w Hnot.
  - exfalso. apply Hnot. constructor.
  - cbn [for_mut]. unfold bind at 1.
    destruct (decide (good x)) as [Hx|Hx].
    + destruct (Hgood x st w Hx) as ([x' st'] & w1 & -> & Hfs).
      unfold bind at 1.
      destruct (IH st' w1) as (e & w' & -> & He & Hfs').
      { intros Hr. apply Hnot. constructor; assumption. }
      exists e, w'. split; [reflexivity|]. split; [exact He|congruence].
    + destruct (Hbad x st w Hx) as (e & w' & -> & He & Hfs).
      exists e, w'. split; [reflexivity|]. split; assumption.
Qed.

End Raising.

(** ** A presentation with a shape whose type cannot be read

    The exception the walk leaves with is that of the first such shape,
    whatever the server answered for the pictures before it. *)

Section PptxRaises.

Variable E : env.

Lemma pptx_shape_unrecognised (sh : shape) (updated : bool) (w : world) (e : exn) :
  shape_type sh = Raise e -> pptx_shape E sh updated w = (Raise e, w).
Proof. intros He. unfold pptx_shape. rewrite He. reflexivity. Qed.

Lemma pptx_slide_unrecognised (sl : slide) :
  ~ Forall recognised sl ->
  exists e,
    (exists sh, sh ∈ sl /\ shape_type sh = Raise e)
    /\ forall updated w,
         exists w',
           for_mut (pptx_shape E) sl updated w = (Raise e, w') /\ fs w' = fs w.
Proof.
  induction sl as [|x r IH]; intros Hnot.
  - exfalso. apply Hnot. constructor.
  - destruct (decide (recognised x)) as [Hx|Hx].
    + destruct IH as (e & (sh & Hin & Hsh) & Hrun).
      { intros Hr. apply Hnot. constructor; assumption. }
      exists e. split; [exists sh; split; [right; exact Hin|exact Hsh]|].
      intros updated w. cbn [for_mut]. unfold bind at 1.
      destruct (pptx_shape_eq E x updated w Hx) as [lg ->].
      destruct (shape_step E (length (posts w)) x updated) as [x' st'].
      unfold bind at 1.
      destruct (Hrun st' (after_run w lg (shape_requests E x))) as (w' & -> & Hfs).
      exists w'. split; [reflexivity|exact Hfs].
    + destruct (shape_type x) as [ty|e] eqn:Hty.
      { exfalso. apply Hx. exists ty. exact Hty. }
      exists e. split; [exists x; split; [left|exact Hty]|].
      intros updated w. cbn [for_mut]. unfold bind at 1.
      rewrite (pptx_shape_unrecognised x updated w e Hty).
      exists w. split; reflexivity.
Qed.

Lemma pptx_slides_unrecognised (prs : presentation) :
  ~ recognised_slides prs ->
  exists e,
    (exists sh, sh ∈ concat prs /\ shape_type sh = Raise e)
    /\ forall updated w,
         exists w', pptx_slides E prs updated w = (Raise e, w') /\ fs w' = fs w.
Proof.
  unfold pptx_slides, recognised_slides.
  induction prs as [|sl r IH]; intros Hnot.
  - exfalso. apply Hnot. constructor.
  - destruct (decide (Forall recognised sl)) as [Hx|Hx].
    + destruct IH as (e & (sh & Hin & Hsh) & Hrun).
      { intros Hr. apply Hnot. constructor; assumption. }
      exists e. split.
      { exists sh. split; [|exact Hsh]. cbn [concat]. apply elem_of_app.
        right. exact Hin. }
      intros updated w. cbn [for_mut]. unfold bind at 1.
      destruct (pptx_slide_eq E sl updated w Hx) as [lg ->].
      destruct (slide_step E (length (posts w)) sl updated) as [sl' st'].
      unfold bind at 1.
      destruct (Hrun st' (after_run w lg (flat_map (shape_requests E) sl)))
        as (w' & -> & Hfs).
      exists w'. split; [reflexivity|exact Hfs].
    + destruct (pptx_slide_unrecognised sl Hx) as (e & (sh & Hin & Hsh) & Hrun).
      exists e. split.
      { exists sh. split; [|exact Hsh]. cbn [concat]. apply elem_of_app.
        left. exact Hin. }
      intros updated w. cbn [for_mut]. unfold bind at 1.
      destruct (Hrun updated w) as (w' & -> & Hfs).
      exists w'. split; [reflexivity|exact Hfs].
Qed.

Lemma process_pptx_unrecognised (file_path : pystr) (prs : presentation) :
  ~ recognised_slides prs ->
  exists e,
    (exists sh, sh ∈ concat prs /\ shape_type sh = Raise e)
    /\ forall w,
         fs w !! file_path = Some (PptxFile prs) ->
         exists w', process_pptx E file_path w = (Raise e, w') /\ fs w' = fs w.
Proof.
  intros Hno.
  destruct (pptx_slides_unrecognised prs Hno) as (e & Hsh & Hrun).
  exists e. split; [exact Hsh|]. intros w Hf.
  unfold process_pptx. run_step.
  unfold Presentation. cbn [fs after_run]. rewrite Hf.
  destruct (Hrun false
              (after_run w [(INFO, [Lit "Processing PPTX: "; FStr file_path])] []))
    as (w' & -> & Hfs).
  exists w'. split; [reflexivity|exact Hfs].
Qed.

End PptxRaises.

(** ** A PDF with a block that lacks its type; a document that is not a PDF *)

Section PdfRaises.

Variable E : env.

Lemma pdf_block_untyped (is_pdf : bool) (page_num : Z) (b : block)
    (st : page * bool) (w : world) :
  ~ typed b -> pdf_block E is_pdf page_num b st w = (Raise KeyError, w).
Proof.
  intros Hno. destruct st as [pg updated]. unfold pdf_block, block_getitem.
  destruct (b !! "type") as [ty|] eqn:Hty.
  - exfalso. apply Hno. exists ty. exact Hty.
  - reflexivity.
Qed.

(** On a page of a document that is not a PDF the body of the block loop
    does what it does on a page no box can be inserted in. *)
Lemma pdf_block_no_htmlbox (page_num : Z) (b : block) (st : page * bool) :
  pdf_block E false page_num b st = pdf_block (no_htmlbox E) true page_num b st.
Proof. destruct st as [pg updated]. reflexivity. Qed.

Lemma block_next_no_htmlbox (n : nat) (b : block) (st : page * bool) :
  block_next (no_htmlbox E) n b st = st.
Proof.
  unfold block_next. destruct (block_target b) as [[bs bbox]|]; reflexivity.
Qed.

Lemma pdf_block_not_pdf (page_num : Z) (b : block) (st : page * bool) (w : world) :
  typed b ->
  exists lg,
    pdf_block E false page_num b st w = (Ok st, after_run w lg (block_requests E b)).
Proof.
  intros Hb. rewrite pdf_block_no_htmlbox.
  destruct (pdf_block_eq (no_htmlbox E) page_num b st w Hb) as [lg ->].
  rewrite block_next_no_htmlbox. exists lg. reflexivity.
Qed.

Lemma pdf_block_good (is_pdf : bool) (page_num : Z) (b : block) (st : page * bool)
    (w : world) :
  typed b ->
  exists st' w', pdf_block E is_pdf page_num b st w = (Ok st', w') /\ fs w' = fs w.
Proof.
  intros Hb. destruct is_pdf.
  - destruct (pdf_block_eq E page_num b st w Hb) as [lg ->].
    eexists _, _. split; reflexivity.
  - destruct (pdf_block_not_pdf page_num b st w Hb) as [lg ->].
    eexists _, _. split; reflexivity.
Qed.

Lemma pdf_page_untyped (is_pdf : bool) (pg : page) (st : Z * bool) (w : world) :
  ~ typed_page pg ->
  exists w', pdf_page E is_pdf pg st w = (Raise KeyError, w') /\ fs w' = fs w.
Proof.
  intros Hno. destruct st as [page_num updated]. unfold pdf_page. run_step.
  destruct (for_in_raises typed (fun e => e = KeyError)
              (pdf_block E is_pdf page_num)) with
    (xs := blocks pg) (st := (pg, updated))
    (w := after_run w
            [(DEBUG,
              [Lit "Page "; FInt (page_num + 1); Lit ": Found ";
               FInt (Z.of_nat (length (blocks pg))); Lit " blocks."])] [])
    as (e & w' & -> & -> & Hfs).
  - intros x st w0 Hx. apply pdf_block_good, Hx.
  - intros x st w0 Hx. exists KeyError, w0.
    split; [apply pdf_block_untyped, Hx|]. split; reflexivity.
  - exact Hno.
  - exists w'. split; [reflexivity|exact Hfs].
Qed.

(** A page of a document that is not a PDF: its blocks are captioned,
    nothing is inserted. *)
Lemma pdf_page_not_pdf (pg : page) (st : Z * bool) (w : world) :
  typed_page pg ->
  exists lg,
    pdf_page E false pg st w
    = (Ok (pg, (fst st + 1, snd st)), after_run w lg (page_requests E pg)).
Proof.
  intros Hpg. destruct st as [page_num updated]. unfold pdf_page. run_step.
  assert (Hloop : forall bs st0 w0, Forall typed bs ->
            exists lg,
              for_in (pdf_block E false page_num) bs st0 w0
              = (Ok st0, after_run w0 lg (flat_map (block_requests E) bs))).
  { clear. intros bs. induction bs as [|b r IH]; intros st0 w0 Hbs.
    - exists []. cbn. unfold ret. rewrite after_run_nil. reflexivity.
    - inversion Hbs as [|? ? Hb Hr]; subst.
      cbn [for_in flat_map]. unfold bind at 1.
      destruct (pdf_block_not_pdf page_num b st0 w0 Hb) as [lg1 ->].
      destruct (IH st0 (after_run w0 lg1 (block_requests E b)) Hr) as [lg2 ->].
      rewrite after_run_twice. eexists. reflexivity. }
  destruct (Hloop (blocks pg) (pg, updated)
              (after_run w
                 [(DEBUG,
                   [Lit "Page "; FInt (page_num + 1); Lit ": Found ";
                    FInt (Z.of_nat (length (blocks pg))); Lit " blocks."])] [])
              Hpg) as [lg ->].
  rewrite after_run_twice. cbn [fst snd]. eexists. reflexivity.
Qed.

Lemma pdf_page_good (is_pdf : bool) (pg : page) (st : Z * bool) (w : world) :
  typed_page pg ->
  exists r w', pdf_page E is_pdf pg st w = (Ok r, w') /\ fs w' = fs w.
Proof.
  intros Hpg. destruct is_pdf.
  - destruct (pdf_page_eq E pg st w Hpg) as [lg ->].
    eexists _, _. split; reflexivity.
  - destruct (pdf_page_not_pdf pg st w Hpg) as [lg ->].
    eexists _, _. split; reflexivity.
Qed.

Lemma pdf_pages_untyped (is_pdf : bool) (doc : pdf) (st : Z * bool) (w : world) :
  ~ Forall typed_page doc ->
  exists w',
    for_mut (pdf_page E is_pdf) doc st w = (Raise KeyError, w') /\ fs w' = fs w.
Proof.
  intros Hno.
  destruct (for_mut_raises typed_page (fun e => e = KeyError)
              (pdf_page E is_pdf)) with (xs := doc) (st := st) (w := w)
    as (e & w' & -> & -> & Hfs).
  - intros x st0 w0 Hx. apply pdf_page_good, Hx.
  - intros x st0 w0 Hx.
    destruct (pdf_page_untyped is_pdf x st0 w0 Hx) as (w' & -> & Hfs).
    exists KeyError, w'. repeat split. exact Hfs.
  - exact Hno.
  - exists w'. split; [reflexivity|exact Hfs].
Qed.

Lemma pdf_pages_not_pdf (doc : pdf) (st : Z * bool) (w : world) :
  Forall typed_page doc ->
  exists lg page_num,
    for_mut (pdf_page E false) doc st w
    = (Ok (doc, (page_num, snd st)), after_run w lg (flat_map (page_requests E) doc)).
Proof.
  revert st w. induction doc as [|pg r IH]; intros st w Hdoc.
  - exists [], (fst st). cbn. unfold ret. rewrite after_run_nil.
    destruct st; reflexivity.
  - inversion Hdoc as [|? ? Hpg Hr]; subst.
    cbn [for_mut flat_map]. unfold bind at 1.
    destruct (pdf_page_not_pdf pg st w Hpg) as [lg1 ->].
    unfold bind at 1.
    destruct (IH (fst st + 1, snd st) (after_run w lg1 (page_requests E pg)) Hr)
      as (lg2 & page_num & ->).
    unfold ret. rewrite after_run_twice. cbn [snd]. eexists _, _. reflexivity.
Qed.

Lemma process_pdf_untyped (file_path : pystr) (w : world) (doc : pdf) :
  fs w !! file_path = Some (PdfFile doc) ->
  ~ Forall typed_page doc ->
  exists w', process_pdf E file_path w = (Raise KeyError, w') /\ fs w' = fs w.
Proof.
  intros Hf Hno. unfold process_pdf. run_step.
  unfold fitz_open. cbn [fs after_run]. rewrite Hf.
  destruct (pdf_pages_untyped true doc (0, false)
              (after_run w [(INFO, [Lit "Processing PDF: "; FStr file_path])] [])
              Hno) as (w' & -> & Hfs).
  exists w'. split; [reflexivity|exact Hfs].
Qed.

(** A file that is not a PDF and that PyMuPDF opens all the same: the
    image blocks of its pages are captioned, no box is inserted, and
    [process_pdf] returns nothing and saves nothing. *)
Lemma process_pdf_not_pdf (file_path : pystr) (w : world) (f : file) (doc : pdf) :
  fs w !! file_path = Some f ->
  (forall d, f <> PdfFile d) ->
  fitz_other E f = Some doc ->
  (Forall typed_page doc ->
   exists lg,
     process_pdf E file_path w
     = (Ok None, after_run w lg (flat_map (page_requests E) doc)))
  /\ (~ Forall typed_page doc ->
      exists w', process_pdf E file_path w = (Raise KeyError, w') /\ fs w' = fs w).
Proof.
  intros Hf Hnot Hother.
  assert (Hopen : forall w0, fs w0 = fs w ->
            fitz_open E file_path w0 = (Ok (false, doc), w0)).
  { intros w0 Hw0. unfold fitz_open. rewrite Hw0, Hf.
    destruct f as [prs|dx|d|data]; try (rewrite Hother; reflexivity).
    exfalso. exact (Hnot d eq_refl). }
  split; intros Hdoc; unfold process_pdf; run_step; rewrite Hopen by reflexivity.
  - destruct (pdf_pages_not_pdf doc (0, false)
                (after_run w [(INFO, [Lit "Processing PDF: "; FStr file_path])] [])
                Hdoc) as (lg & page_num & ->).
    cbn [snd]. rewrite after_run_twice. eexists. reflexivity.
  - destruct (pdf_pages_untyped false doc (0, false)
                (after_run w [(INFO, [Lit "Processing PDF: "; FStr file_path])] [])
                Hdoc) as (w' & -> & Hfs).
    exists w'. split; [reflexivity|exact Hfs].
Qed.

End PdfRaises.

(** ** What one call of an adapter can do *)

Lemma readable_as_dec (fmt : format) (f : file) :
  readable_as fmt f \/ ~ readable_as fmt f.
Proof.
  destruct fmt, f as [prs|doc|doc|data]; cbn [readable_as];
    try (left; exact I); try (right; intros H; exact H).
  - unfold recognised_slides.
    destruct (decide (Forall (Forall recognised) prs)); [left|right]; assumption.
  - destruct (decide (Forall typed_page doc)); [left|right]; assumption.
Qed.

Section OneFile.

Variable E : env.

Lemma adapter_open_fails (fmt : format) (file_path : pystr) (w : world) :
  open_fails E fmt (fs w !! file_path) ->
  adapter E fmt file_path w
  = (Raise (match fmt, fs w !! file_path with
            | PDF, Some _ => FileDataError
            | PDF, None => FileNotFoundError
            | _, _ => PackageNotFoundError
            end),
     after_run w
       [(INFO, [Lit (match fmt with
                     | PPTX => "Processing PPTX: "
                     | DOCX => "Processing DOCX: "
                     | PDF => "Processing PDF: "
                     end); FStr file_path])] []).
Proof.
  intros Hbad. destruct fmt; cbn [adapter].
  - rewrite process_pptx_open_fails; [reflexivity|].
    intros prs Hf. rewrite Hf in Hbad. exact Hbad.
  - rewrite process_docx_open_fails; [reflexivity|].
    intros doc Hf. rewrite Hf in Hbad. exact Hbad.
  - apply process_pdf_open_fails, Hbad.
Qed.

(** A file the adapter does not walk through: what the adapter returns or
    raises depends on the file alone, and no file is written. *)
Lemma adapter_unreadable (fmt : format) (file_path : pystr) (f : file) :
  ~ readable_as fmt f ->
  exists r,
    (r = Ok None \/ exists e, r = Raise e)
    /\ forall w,
         fs w !! file_path = Some f ->
         exists w', adapter E fmt file_path w = (r, w') /\ fs w' = fs w.
Proof.
  intros Hr.
  assert (Hfails :
    open_fails E fmt (Some f) ->
    exists r,
      (r = Ok None \/ exists e, r = Raise e)
      /\ forall w,
           fs w !! file_path = Some f ->
           exists w', adapter E fmt file_path w = (r, w') /\ fs w' = fs w).
  { intros Hbad.
    exists (Raise (match fmt with PDF => FileDataError | _ => PackageNotFoundError end)).
    split; [right; eexists; reflexivity|]. intros w Hf.
    rewrite adapter_open_fails by (rewrite Hf; exact Hbad).
    rewrite Hf. destruct fmt; (eexists; split; [reflexivity|reflexivity]). }
  destruct fmt.
  - destruct f as [prs|doc|doc|data]; try (apply Hfails; exact I).
    destruct (process_pptx_unrecognised E file_path prs Hr) as (e & _ & Hrun).
    exists (Raise e). split; [right; eexists; reflexivity|exact Hrun].
  - destruct f as [prs|doc|doc|data]; try (apply Hfails; exact I).
    exfalso. apply Hr. exact I.
  - assert (Hother : (forall d, f <> PdfFile d) ->
              exists r,
                (r = Ok None \/ exists e, r = Raise e)
                /\ forall w,
                     fs w !! file_path = Some f ->
                     exists w', process_pdf E file_path w = (r, w') /\ fs w' = fs w).
    { intros Hnot.
      destruct (fitz_other E f) as [doc|] eqn:Ho.
      - destruct (decide (Forall typed_page doc)) as [Hd|Hd].
        + exists (Ok None). split; [left; reflexivity|]. intros w Hf.
          destruct (proj1 (process_pdf_not_pdf E file_path w f doc Hf Hnot Ho) Hd)
            as [lg ->].
          eexists. split; reflexivity.
        + exists (Raise KeyError). split; [right; eexists; reflexivity|].
          intros w Hf.
          exact (proj2 (process_pdf_not_pdf E file_path w f doc Hf Hnot Ho) Hd).
      - apply Hfails. destruct f as [prs|dx|d|data]; cbn [open_fails];
          try exact Ho. exfalso. exact (Hnot d eq_refl). }
    destruct f as [prs|dx|doc|data];
      try (apply Hother; intros d; discriminate).
    exists (Raise KeyError). split; [right; eexists; reflexivity|].
    intros w Hf. exact (process_pdf_untyped E file_path w doc Hf Hr).
Qed.

(** An adapter opens the document and runs through it, or it returns
    nothing or raises with the files as they were. *)
Lemma adapter_cases (fmt : format) (file_path : pystr) (w : world) :
  (exists f lg,
     fs w !! file_path = Some f /\ readable_as fmt f
     /\ adapter E fmt file_path w
        = (Ok (returned (snd (adapter_pure E fmt (length (posts w)) f))
                 (output_path E file_path)),
           World (files_after (snd (adapter_pure E fmt (length (posts w)) f))
                    (output_path E file_path)
                    (fst (adapter_pure E fmt (length (posts w)) f)) (fs w))
             (log w ++ lg) (posts w ++ adapter_requests E fmt f)))
  \/ (exists r w',
        adapter E fmt file_path w = (r, w')
        /\ (r = Ok None \/ exists e, r = Raise e)
        /\ fs w' = fs w).
Proof.
  destruct (fs w !! file_path) as [f|] eqn:Hf.
  - destruct (readable_as_dec fmt f) as [Hr|Hr].
    + left. destruct (adapter_eq E fmt file_path w f Hf Hr) as [lg H].
      exists f, lg. split; [reflexivity|]. split; [exact Hr|exact H].
    + right. destruct (adapter_unreadable fmt file_path f Hr) as (r & Hres & Hrun).
      destruct (Hrun w Hf) as (w' & H & Hfs).
      exists r, w'. split; [exact H|]. split; [exact Hres|exact Hfs].
  - right. rewrite adapter_open_fails by (rewrite Hf; destruct fmt; exact I).
    eexists _, _. split; [reflexivity|].
    split; [right; eexists; reflexivity|reflexivity].
Qed.

End OneFile.

(** ** Paths *)

Lemma skip_leading_dots_concat (n : nat) (p : pystr) (filenameIndex dotIndex : Z) :
  fst (OsPath.skip_leading_dots n p filenameIndex dotIndex)
  ++ snd (OsPath.skip_leading_dots n p filenameIndex dotIndex) = p.
Proof.
  revert filenameIndex. induction n as [|n IH]; intros filenameIndex; simpl.
  - apply app_nil_r.
  - destruct (filenameIndex <? dotIndex); [|apply app_nil_r].
    destruct (negb _); [apply take_drop|apply IH].
Qed.

Lemma splitext_concat (E : env) (p : pystr) :
  fst (splitext E p) ++ snd (splitext E p) = p.
Proof.
  unfold splitext, OsPath._splitext.
  destruct (_ <? _); [apply skip_leading_dots_concat|apply app_nil_r].
Qed.

Lemma output_path_length (E : env) (p : pystr) :
  length (output_path E p) = (length p + 4)%nat.
Proof.
  unfold output_path. rewrite <- (splitext_concat E p) at 3.
  rewrite !length_app. change (length (py "_alt")) with 4%nat. lia.
Qed.

(** The adapter never saves over the file it read. *)
Lemma output_path_fresh (E : env) (p : pystr) : output_path E p <> p.
Proof.
  intros H. apply (f_equal (@length N)) in H.
  rewrite output_path_length in H. lia.
Qed.

(** ** The properties of the specification *)




(** C6.  [process_file] looks at the lowercased extension of the path only:
    a path whose extension is that of a format goes to the adapter of that
    format, and the three extensions are distinct, so to one adapter only;
    for any other extension the call returns nothing without raising, and
    all that happened is one WARNING record in the log: no file is opened
    or written and no request is posted. *)
Theorem process_file_dispatch (E : env) (file_path : pystr) (w : world) :
  (forall fmt,
     Str.lower (snd (splitext E file_path)) = extension fmt ->
     process_file E file_path w = adapter E fmt file_path w)
  /\ (forall fmt1 fmt2, extension fmt1 = extension fmt2 -> fmt1 = fmt2)
  /\ ((forall fmt, Str.lower (snd (splitext E file_path)) <> extension fmt) ->
      process_file E file_path w
      = (Ok None,
         World (fs w)
           (log w ++ [(WARNING, [Lit "Unsupported file type: "; FStr file_path])])
           (posts w))).
Proof.
  unfold process_file, Str.eqb. repeat split.
  - intros fmt Hext. rewrite Hext. destruct fmt; reflexivity.
  - intros [] []; (reflexivity || (intros H; vm_compute in H; discriminate H)).
  - intros Hnone.
    rewrite !bool_decide_eq_false_2.
    + reflexivity.
    + exact (Hnone PDF).
    + exact (Hnone DOCX).
    + exact (Hnone PPTX).
Qed.

Lemma process_file_dispatch_witness :
  process_file Example.E0 (py "d/notes.TXT") Example.w0
  = (Ok None,
     World (fs Example.w0)
       (log Example.w0
        ++ [(WARNING, [Lit "Unsupported file type: "; FStr (py "d/notes.TXT")])])
       (posts Example.w0))
  /\ process_file Example.E0 (py "d/a.PPTX") Example.w0
     = adapter Example.E0 PPTX (py "d/a.PPTX") Example.w0.
Proof.
  split.
  - apply (proj2 (proj2 (process_file_dispatch Example.E0 (py "d/notes.TXT")
                           Example.w0))).
    intros []; vm_compute; discriminate.
  - apply (proj1 (process_file_dispatch Example.E0 (py "d/a.PPTX") Example.w0) PPTX).
    vm_compute. reflexivity.
Defined.

(** C7.  The one request [generate_alt_text] posts has the JSON body
    [{model, messages:[{role:"user", content:[{type:"image_url",
    image_url:{url}}, {type:"text", text}]}], temperature, max_tokens,
    stream:false}], where [url] is "data:image/png;base64," followed by a
    Base64 text that decodes to the image bytes and [text] is the fixed
    instruction; when the response has a success status and a body with
    a string at [choices[0].message.content], the caption returned is
    taken from that string. *)
Theorem generate_alt_text_wire (E : env) (image_bytes : pybytes) (w : world) :
  exists r w' base64_image req,
    generate_alt_text E image_bytes w = (r, w')
    /\ posts w' = posts w ++ [req]
    /\ req_json req =
       JObj [
         (py "model", JStr (MODEL_NAME E));
         (py "messages", JArr [
           JObj [
             (py "role", JStr (py "user"));
             (py "content", JArr [
               JObj [
                 (py "type", JStr (py "image_url"));
                 (py "image_url",
                   JObj [(py "url",
                          JStr (py "data:image/png;base64," ++ base64_image))])
               ];
               JObj [
                 (py "type", JStr (py "text"));
                 (py "text", JStr instruction_text)
               ]
             ])
           ]
         ]);
         (py "temperature", JFloat 7 (-1));
         (py "max_tokens", JInt 4096);
         (py "stream", JBool false)
       ]
    /\ Base64.b64decode base64_image = Some image_bytes
    /\ (forall status_code data content,
          server E (length (posts w)) req = PostReturns status_code (Some data) ->
          status_ok status_code ->
          has_content data content ->
          r = Ok (Str.strip content)).
Proof.
  exists (Ok (caption E (length (posts w)) image_bytes)).
  eexists. exists (Base64.b64encode image_bytes), (request_for E image_bytes).
  split; [apply generate_alt_text_eq|].
  split; [reflexivity|]. split; [reflexivity|].
  split; [apply Base64Facts.b64decode_b64encode|].
  intros status_code data content Hsrv Hok Hcontent.
  unfold caption. rewrite Hsrv.
  rewrite (reply_text_content status_code data content Hok Hcontent).
  reflexivity.
Qed.

(** C10.  On a successful response the string [generate_alt_text] returns
    is the content field stripped: the content is that string between two
    runs of whitespace, and the string neither starts nor ends with a
    whitespace character. *)
Theorem caption_is_stripped (E : env) (image_bytes : pybytes) (w : world)
    (status_code : Z) (data : json) (content : pystr) :
  server E (length (posts w)) (request_for E image_bytes)
  = PostReturns status_code (Some data) ->
  status_ok status_code ->
  has_content data content ->
  exists alt_text w' l r,
    generate_alt_text E image_bytes w = (Ok alt_text, w')
    /\ alt_text = Str.strip content
    /\ content = l ++ alt_text ++ r
    /\ all_space l /\ all_space r
    /\ (forall c t, alt_text = c :: t -> Str.isspace c = false)
    /\ (forall i c, alt_text = i ++ [c] -> Str.isspace c = false).
Proof.
  intros Hsrv Hok Hcontent.
  destruct (strip_spec content) as (l & r & Hsplit & Hl & Hr & Hhead & Hlast).
  exists (Str.strip content). eexists. exists l, r.
  split.
  - rewrite generate_alt_text_eq. unfold caption. rewrite Hsrv.
    rewrite (reply_text_content status_code data content Hok Hcontent).
    reflexivity.
  - repeat split; assumption.
Qed.

Lemma caption_is_stripped_witness :
  exists alt_text w' l r,
    generate_alt_text Example.E0 Example.png1
      (World ∅ [] [request_for Example.E0 Example.png2])
    = (Ok alt_text, w')
    /\ alt_text = Str.strip (py "  a cat on a mat
")
    /\ py "  a cat on a mat
" = l ++ alt_text ++ r
    /\ all_space l /\ all_space r
    /\ (forall c t, alt_text = c :: t -> Str.isspace c = false)
    /\ (forall i c, alt_text = i ++ [c] -> Str.isspace c = false).
Proof.
  apply (caption_is_stripped Example.E0 Example.png1
           (World ∅ [] [request_for Example.E0 Example.png2]) 200
           (Example.content_reply (py "  a cat on a mat
"))).
  - reflexivity.
  - unfold status_ok. lia.
  - unfold has_content, Example.content_reply.
    eexists _, _, _, _. repeat split; reflexivity.
Defined.

Lemma generate_alt_text_wire_witness :
  fst (generate_alt_text Example.E0 Example.png1
         (World ∅ [] [request_for Example.E0 Example.png2]))
  = Ok (py "a cat on a mat").
Proof.
  destruct (generate_alt_text_wire Example.E0 Example.png1
              (World ∅ [] [request_for Example.E0 Example.png2]))
    as (r & w' & b64 & req & Hrun & Hposts & Hjson & Hdec & Hok).
  rewrite Hrun. cbn [fst].
  assert (Hreq : req = request_for Example.E0 Example.png1).
  { rewrite generate_alt_text_eq in Hrun. injection Hrun as _ <-.
    cbn [posts app] in Hposts. injection Hposts as Hq.
    symmetry. exact Hq. }
  rewrite (Hok 200 (Example.content_reply (py "  a cat on a mat
")) (py "  a cat on a mat
")).
  - vm_compute. reflexivity.
  - rewrite Hreq. reflexivity.
  - unfold status_ok. lia.
  - unfold has_content, Example.content_reply.
    eexists _, _, _, _. repeat split; reflexivity.
Defined.

Lemma block_target_of_ints (b : block) (width height xres yres : Z)
    (bs : pybytes) (c0 c1 c2 c3 : Q) :
  b !! "type" = Some (PInt 1) ->
  b !! "width" = Some (PInt width) ->
  b !! "height" = Some (PInt height) ->
  b !! "xres" = Some (PInt xres) ->
  b !! "yres" = Some (PInt yres) ->
  b !! "image" = Some (PBytes bs) ->
  b !! "bbox" = Some (PSeq [c0; c1; c2; c3]) ->
  block_target b
  = if (20 <=? width) && (20 <=? height) && (36 <=? xres) && (36 <=? yres)
    then Some (bs, MkRect c0 c1 c2 c3) else None.
Proof.
  intros Ht Hw Hh Hx Hy Hi Hb.
  unfold block_target, is_image_block, block_passes, block_get, block_image.
  rewrite Ht, Hw, Hh, Hx, Hy, Hi, Hb. reflexivity.
Qed.

(** C2.  An image block of a page of a PDF, with integer width, height and
    resolutions, its image bytes and its box, at a box the library accepts
    text for: if
    width >= 20, height >= 20, xres >= 36 and yres >= 36 the body of the
    block loop posts one caption request for the bytes, inserts one text
    box "<p>caption</p>" at the box of the block and marks the document
    updated; otherwise it posts nothing, inserts nothing and leaves the
    mark as it was.  Both bounds are inclusive. *)
Theorem pdf_block_thresholds (E : env) (page_num : Z) (b : block) (pg : page)
    (updated : bool) (w : world) (width height xres yres : Z) (bs : pybytes)
    (c0 c1 c2 c3 : Q) :
  b !! "type" = Some (PInt 1) ->
  b !! "width" = Some (PInt width) ->
  b !! "height" = Some (PInt height) ->
  b !! "xres" = Some (PInt xres) ->
  b !! "yres" = Some (PInt yres) ->
  b !! "image" = Some (PBytes bs) ->
  b !! "bbox" = Some (PSeq [c0; c1; c2; c3]) ->
  (forall html_text, htmlbox_accepts E (MkRect c0 c1 c2 c3) html_text = true) ->
  exists pg' updated' w',
    pdf_block E true page_num b (pg, updated) w = (Ok (pg', updated'), w')
    /\ (20 <= width /\ 20 <= height /\ 36 <= xres /\ 36 <= yres ->
        posts w' = posts w ++ [request_for E bs]
        /\ (exists alt_text w1,
              generate_alt_text E bs w = (Ok alt_text, w1)
              /\ pg' = Page (blocks pg)
                         (htmlboxes pg
                          ++ [(MkRect c0 c1 c2 c3, py "<p>" ++ alt_text ++ py "</p>")]))
        /\ updated' = true)
    /\ (~ (20 <= width /\ 20 <= height /\ 36 <= xres /\ 36 <= yres) ->
        posts w' = posts w /\ pg' = pg /\ updated' = updated).
Proof.
  intros Ht Hw Hh Hx Hy Hi Hb Hacc.
  destruct (pdf_block_eq E page_num b (pg, updated) w (ex_intro _ _ Ht)) as [lg Hrun].
  pose proof (block_target_of_ints b width height xres yres bs c0 c1 c2 c3
                Ht Hw Hh Hx Hy Hi Hb) as Htarget.
  unfold block_next, block_requests in Hrun. rewrite Htarget in Hrun.
  destruct ((20 <=? width) && (20 <=? height) && (36 <=? xres) && (36 <=? yres))
    eqn:Hpass.
  - rewrite Hacc in Hrun. cbn [fst] in Hrun.
    eexists _, _, _. split; [exact Hrun|]. split.
    + intros _. split; [reflexivity|]. split; [|reflexivity].
      exists (caption E (length (posts w)) bs). eexists.
      split; [apply generate_alt_text_eq|reflexivity].
    + intros Hno. exfalso. apply Hno.
      rewrite !andb_true_iff, !Z.leb_le in Hpass. tauto.
  - eexists _, _, _. split; [exact Hrun|]. split.
    + intros Hyes. exfalso.
      assert ((20 <=? width) && (20 <=? height) && (36 <=? xres) && (36 <=? yres)
              = true) as Htrue
        by (rewrite !andb_true_iff, !Z.leb_le; tauto).
      congruence.
    + intros _. split; [apply app_nil_r|]. split; reflexivity.
Qed.

Lemma pdf_block_thresholds_witness :
  exists pg' updated' w',
    pdf_block Example.E0 true 0 (Example.image_block 20 20 36 36)
      (Example.page0, false) Example.w0
    = (Ok (pg', updated'), w')
    /\ length (posts w') = 1%nat
    /\ length (htmlboxes pg') = 1%nat
    /\ updated' = true.
Proof.
  destruct (pdf_block_thresholds Example.E0 0 (Example.image_block 20 20 36 36)
              Example.page0 false Example.w0 20 20 36 36 Example.png1
              (0#1)%Q (0#1)%Q (72#1)%Q (72#1)%Q
              eq_refl eq_refl eq_refl eq_refl eq_refl eq_refl eq_refl
              (fun _ => eq_refl))
    as (pg' & updated' & w' & Hrun & Hyes & _).
  destruct (Hyes ltac:(lia)) as (Hposts & (alt_text & w1 & _ & Hpg) & Hup).
  exists pg', updated', w'. split; [exact Hrun|].
  rewrite Hposts, Hpg. repeat split. exact Hup.
Defined.

(** The blocks the specification names: 19 by 40 pixels, and 35 by 40
    dpi. *)
Example pdf_block_19_by_40 :
  let out := pdf_block Example.E0 true 0 (Example.image_block 19 40 72 72)
               (Example.page0, false) Example.w0 in
  fst out = Ok (Example.page0, false) /\ posts (snd out) = [].
Proof. vm_compute. split; reflexivity. Qed.

Example pdf_block_35_by_40_dpi :
  let out := pdf_block Example.E0 true 0 (Example.image_block 40 40 35 40)
               (Example.page0, false) Example.w0 in
  fst out = Ok (Example.page0, false) /\ posts (snd out) = [].
Proof. vm_compute. split; reflexivity. Qed.

Lemma at_least_default (n : Z) : 0 < n -> at_least (PInt 0) n = false.
Proof. intros H. unfold at_least. apply Z.leb_gt. exact H. Qed.

(** C9.  An image block whose dictionary lacks "width", "height", "xres"
    or "yres": [get] gives 0 for the missing key, and the body of the
    block loop skips the block: it posts no request, inserts nothing and
    leaves the page and the updated mark as they were, in a PDF as in any
    other document PyMuPDF opens. *)
Theorem pdf_block_missing_key (E : env) (is_pdf : bool) (page_num : Z) (b : block)
    (pg : page) (updated : bool) (w : world) :
  b !! "type" = Some (PInt 1) ->
  b !! "width" = None \/ b !! "height" = None
  \/ b !! "xres" = None \/ b !! "yres" = None ->
  (forall key, b !! key = None -> block_get b key (PInt 0) = PInt 0)
  /\ exists w',
       pdf_block E is_pdf page_num b (pg, updated) w = (Ok (pg, updated), w')
       /\ posts w' = posts w
       /\ fs w' = fs w.
Proof.
  intros Ht Hmiss. split.
  { intros key Hkey. unfold block_get. rewrite Hkey. reflexivity. }
  assert (Hrun : exists lg,
            pdf_block E is_pdf page_num b (pg, updated) w
            = (Ok (block_next E (length (posts w)) b (pg, updated)),
               after_run w lg (block_requests E b))
            \/ pdf_block E is_pdf page_num b (pg, updated) w
               = (Ok (pg, updated), after_run w lg (block_requests E b))).
  { destruct is_pdf.
    - destruct (pdf_block_eq E page_num b (pg, updated) w (ex_intro _ _ Ht))
        as [lg H].
      exists lg. left. exact H.
    - destruct (pdf_block_not_pdf E page_num b (pg, updated) w (ex_intro _ _ Ht))
        as [lg H].
      exists lg. right. exact H. }
  destruct Hrun as [lg Hrun].
  assert (Htarget : block_target b = None).
  { unfold block_target.
    assert (block_passes b = false) as ->; [|rewrite andb_false_r; reflexivity].
    unfold block_passes, block_get.
    destruct Hmiss as [H|[H|[H|H]]]; rewrite H;
      rewrite at_least_default by lia;
      rewrite ?andb_false_r; reflexivity. }
  unfold block_next, block_requests in Hrun. rewrite Htarget in Hrun.
  eexists. split; [destruct Hrun as [Hrun|Hrun]; exact Hrun|].
  split; [apply app_nil_r|reflexivity].
Qed.

Lemma pdf_block_missing_key_witness :
  exists w',
    pdf_block Example.E0 true 0 (delete "xres" (Example.image_block 40 40 72 72))
      (Example.page0, false) Example.w0
    = (Ok (Example.page0, false), w')
    /\ posts w' = posts Example.w0
    /\ fs w' = fs Example.w0.
Proof.
  apply (pdf_block_missing_key Example.E0 true 0
           (delete "xres" (Example.image_block 40 40 72 72))
           Example.page0 false Example.w0).
  - vm_compute. reflexivity.
  - right. right. left. vm_compute. reflexivity.
Defined.

(** ** Pictures and the calls made for them *)

Lemma updates_Forall2 {A : Type} (R : A -> A -> nat -> Prop) (Q : A -> A -> Prop)
    (xs xs' : list A) (k : nat) :
  (forall x x' n, R x x' n -> Q x x') ->
  updates R xs xs' k -> Forall2 Q xs xs'.
Proof. intros HQ H. induction H; constructor; eauto. Qed.

Lemma shape_requests_pictures (E : env) (l : list shape) :
  flat_map (shape_requests E) l
  = map (request_for E)
      (omap image_blob (filter (fun sh => shape_type sh = Ok (Some PICTURE)) l)).
Proof.
  induction l as [|sh r IH]; [reflexivity|].
  simpl. rewrite filter_cons, IH. unfold shape_requests.
  destruct (decide (shape_type sh = Ok (Some PICTURE))) as [Hp|Hp].
  - rewrite (shape_image_picture sh Hp). simpl.
    destruct (image_blob sh); reflexivity.
  - rewrite (shape_image_other sh Hp). reflexivity.
Qed.

(** Every shape is a picture or is not. *)
Lemma pictures_and_others (prs : presentation) :
  (length (pictures prs) + length (other_shapes prs))%nat = length (concat prs).
Proof.
  unfold pictures, other_shapes.
  induction (concat prs) as [|sh r IH]; [reflexivity|].
  rewrite !filter_cons.
  destruct (decide (shape_type sh = Ok (Some PICTURE))) as [Hp|Hp].
  - rewrite decide_False by (intros Hn; exact (Hn Hp)). simpl. lia.
  - rewrite decide_True by exact Hp. simpl. lia.
Qed.

Lemma omap_length_all {A B : Type} (f : A -> option B) (l : list A) :
  (forall x, x ∈ l -> is_Some (f x)) -> length (omap f l) = length l.
Proof.
  induction l as [|x r IH]; intros H; [reflexivity|].
  simpl. destruct (H x) as [y Hy]; [left|].
  rewrite Hy. simpl. f_equal. apply IH.
  intros z Hz. apply H. right. exact Hz.
Qed.

Lemma shape_update_others (sh sh' : shape) (k : nat) :
  shape_update sh sh' k -> shape_type sh <> Ok (Some PICTURE) -> sh' = sh.
Proof. intros [[_ ->]|[_ [Hpic _]]] Hnot; [reflexivity|contradiction]. Qed.

(** C5, as the code has it.  A presentation all of whose shapes have a
    type that can be read, with its N shapes whose type is PICTURE and its
    M shapes of another type (or of none), the bytes of every picture
    readable: [process_pptx] returns, it posts exactly N requests, those of
    the bytes of the pictures in slide order, and in the presentation it
    then holds (and saves, if it saves) every shape that is not a picture
    is as it was.  The requests are a function of the pictures alone. *)
Theorem process_pptx_calls (E : env) (file_path : pystr) (w : world)
    (prs : presentation) :
  fs w !! file_path = Some (PptxFile prs) ->
  recognised_slides prs ->
  (forall sh, sh ∈ pictures prs -> is_Some (image_blob sh)) ->
  exists r w' prs',
    process_pptx E file_path w = (Ok r, w')
    /\ posts w' = posts w ++ map (request_for E) (omap image_blob (pictures prs))
    /\ length (posts w') = (length (posts w) + length (pictures prs))%nat
    /\ (length (pictures prs) + length (other_shapes prs))%nat = length (concat prs)
    /\ Forall2
         (Forall2 (fun sh sh' => shape_type sh <> Ok (Some PICTURE) -> sh' = sh))
         prs prs'
    /\ (r = None -> fs w' = fs w)
    /\ (forall output_file,
          r = Some output_file -> fs w' = <[output_file := PptxFile prs']> (fs w)).
Proof.
  intros Hf Hrec Hread.
  destruct (process_pptx_eq E file_path w prs Hf Hrec) as [lg Hrun].
  destruct (pptx_pure_counts E (length (posts w)) prs false) as [k [Hk _]].
  assert (Hreq : flat_map (slide_requests E) prs
                 = map (request_for E) (omap image_blob (pictures prs))).
  { unfold slide_requests, pictures.
    rewrite flat_map_concat. apply shape_requests_pictures. }
  eexists _, _, (fst (pptx_pure E (length (posts w)) prs false)).
  split; [exact Hrun|]. cbn [posts fs]. rewrite Hreq.
  split; [reflexivity|]. split.
  { rewrite length_app, length_map, omap_length_all by exact Hread. reflexivity. }
  split; [apply pictures_and_others|].
  split.
  { eapply updates_Forall2; [|exact Hk].
    intros sl sl' n H. eapply updates_Forall2; [|exact H].
    exact shape_update_others. }
  destruct (snd (pptx_pure E (length (posts w)) prs false));
    cbn [returned files_after]; split; try discriminate; try reflexivity.
  intros output_file [= <-]. reflexivity.
Qed.

Lemma process_pptx_calls_witness :
  length (pictures Example3.prs_kinds) = 2%nat
  /\ length (other_shapes Example3.prs_kinds) = 3%nat
  /\ exists r w' prs',
       process_pptx Example.E0 (py "d/a.pptx") Example3.w_kinds = (Ok r, w')
       /\ posts w' = [request_for Example.E0 Example.png1;
                      request_for Example.E0 Example.png2]
       /\ Forall2
            (Forall2 (fun sh sh' => shape_type sh <> Ok (Some PICTURE) -> sh' = sh))
            Example3.prs_kinds prs'.
Proof.
  split; [vm_compute; reflexivity|]. split; [vm_compute; reflexivity|].
  destruct (process_pptx_calls Example.E0 (py "d/a.pptx") Example3.w_kinds
              Example3.prs_kinds) as (r & w' & prs' & Hrun & Hposts & _ & _ & Hsame & _).
  - vm_compute. reflexivity.
  - apply (bool_decide_unpack _). vm_compute. exact I.
  - intros sh Hsh. vm_compute in Hsh.
    apply list_elem_of_In in Hsh. simpl in Hsh.
    destruct Hsh as [<-|[<-|[]]]; eexists; reflexivity.
  - exists r, w', prs'. split; [exact Hrun|]. split; [|exact Hsame].
    rewrite Hposts. vm_compute. reflexivity.
Defined.

(** C5, as the specification has it, fails: a slide whose first shape has a
    type python-pptx cannot give and whose second shape is a picture with
    readable bytes.  N is 1, and no call is made: reading the type of the
    first shape raises outside the [try], and [process_pptx] leaves with
    the exception before it comes to the picture. *)
Lemma process_pptx_stops_at_unrecognised_shape :
  length (pictures Example3.prs_unrecognised_first) = 1%nat
  /\ omap image_blob (pictures Example3.prs_unrecognised_first) = [Example.png1]
  /\ fst (process_pptx Example.E0 (py "d/a.pptx") Example3.w_unrecognised_first)
     = Raise NotImplementedError
  /\ posts (snd (process_pptx Example.E0 (py "d/a.pptx")
                   Example3.w_unrecognised_first)) = [].
Proof. vm_compute. repeat split; reflexivity. Qed.

(** ** A caption call that fails *)

Section Failure.

Variable E : env.

Lemma caption_of_failure (n : nat) (bs : pybytes) :
  call_fails (server E n (request_for E bs)) -> caption E n bs = caption_error_text.
Proof.
  intros H. unfold caption.
  destruct (reply_text_fails _ H) as [e ->]. reflexivity.
Qed.

Lemma shape_step_kept (n : nat) (sh : shape) (updated : bool) :
  updated = true -> snd (shape_step E n sh updated) = true.
Proof.
  intros ->. destruct (shape_step_counts E n sh true) as [k [_ ->]]. reflexivity.
Qed.

Lemma slide_step_kept (n : nat) (sl : slide) (updated : bool) :
  updated = true -> snd (slide_step E n sl updated) = true.
Proof.
  exact (for_mut_pure_flag_kept shape_calls (shape_step E) (fun b => b)
           shape_step_kept sl n updated).
Qed.

Lemma shape_step_failure (n : nat) (sh : shape) (updated : bool) (bs : pybytes) :
  shape_type sh = Ok (Some PICTURE) -> image_blob sh = Some bs ->
  call_fails (server E n (request_for E bs)) ->
  shape_step E n sh updated
  = (Shape (Ok (Some PICTURE)) (Some bs) (Some caption_error_text), true).
Proof.
  intros Ht Hb Hfail. unfold shape_step.
  rewrite (shape_image_picture sh Ht), Ht, Hb.
  rewrite (caption_of_failure n bs Hfail), caption_error_text_xml. reflexivity.
Qed.

Lemma inline_step_kept (doc : document) (n : nat) (sh : inline_shape)
    (updated : bool) :
  updated = true -> snd (inline_step E doc n sh updated) = true.
Proof.
  intros ->. destruct (inline_step_counts E doc n sh true) as [k [_ ->]].
  reflexivity.
Qed.

Lemma inline_step_failure (doc : document) (n : nat) (sh : inline_shape)
    (updated : bool) (rId : pystr) (bs : pybytes) :
  graphic sh = Blip (Some rId) -> related_parts doc !! rId = Some bs ->
  call_fails (server E n (request_for E bs)) ->
  inline_step E doc n sh updated
  = (InlineShape (Blip (Some rId)) (Some caption_error_text), true).
Proof.
  intros Hg Hp Hfail. unfold inline_step, inline_image.
  rewrite Hg, Hp.
  rewrite (caption_of_failure n bs Hfail), caption_error_text_xml. reflexivity.
Qed.

(** The picture [j] of slide [i] whose call fails. *)
Lemma process_pptx_failure (file_path : pystr) (w : world) (prs : presentation)
    (i j : nat) (sl : slide) (sh : shape) (bs : pybytes) :
  fs w !! file_path = Some (PptxFile prs) ->
  recognised_slides prs ->
  prs !! i = Some sl -> sl !! j = Some sh ->
  shape_type sh = Ok (Some PICTURE) -> image_blob sh = Some bs ->
  call_fails
    (server E
       (length (posts w) + total_calls slide_calls (take i prs)
        + total_calls shape_calls (take j sl))
       (request_for E bs)) ->
  exists w' prs' sl',
    process_pptx E file_path w = (Ok (Some (output_path E file_path)), w')
    /\ fs w' !! output_path E file_path = Some (PptxFile prs')
    /\ prs' !! i = Some sl'
    /\ sl' !! j = Some (Shape (Ok (Some PICTURE)) (Some bs) (Some caption_error_text)).
Proof.
  intros Hf Hrec Hi Hj Ht Hb Hfail.
  destruct (process_pptx_eq E file_path w prs Hf Hrec) as [lg Hrun].
  set (n := length (posts w)) in *.
  set (m := (n + total_calls slide_calls (take i prs))%nat) in *.
  assert (Hup : snd (pptx_pure E n prs false) = true).
  { apply (for_mut_pure_flag_raised slide_calls (slide_step E) (fun b => b)
             slide_step_kept prs n false i sl Hi).
    intros st'. fold m.
    apply (for_mut_pure_flag_raised shape_calls (shape_step E) (fun b => b)
             shape_step_kept sl m st' j sh Hj).
    intros st''. rewrite (shape_step_failure _ sh st'' bs Ht Hb Hfail).
    reflexivity. }
  rewrite Hup in Hrun. cbn [returned files_after] in Hrun.
  destruct (for_mut_pure_lookup slide_calls (slide_step E) prs n false i sl Hi)
    as [st_i Hsl]. fold m in Hsl.
  destruct (for_mut_pure_lookup shape_calls (shape_step E) sl m st_i j sh Hj)
    as [st_j Hsh].
  rewrite (shape_step_failure _ sh st_j bs Ht Hb Hfail) in Hsh.
  eexists _, _, _. split; [exact Hrun|]. cbn [fs].
  split; [apply lookup_insert_eq|]. split; [exact Hsl|exact Hsh].
Qed.

(** The inline picture [j] whose call fails. *)
Lemma process_docx_failure (file_path : pystr) (w : world) (doc : document)
    (j : nat) (sh : inline_shape) (rId : pystr) (bs : pybytes) :
  fs w !! file_path = Some (DocxFile doc) ->
  inline_shapes doc !! j = Some sh ->
  graphic sh = Blip (Some rId) -> related_parts doc !! rId = Some bs ->
  call_fails
    (server E
       (length (posts w)
        + total_calls (inline_calls doc) (take j (inline_shapes doc)))
       (request_for E bs)) ->
  exists w' doc',
    process_docx E file_path w = (Ok (Some (output_path E file_path)), w')
    /\ fs w' !! output_path E file_path = Some (DocxFile doc')
    /\ inline_shapes doc' !! j
       = Some (InlineShape (Blip (Some rId)) (Some caption_error_text)).
Proof.
  intros Hf Hj Hg Hp Hfail.
  destruct (process_docx_eq E file_path w doc Hf) as [lg Hrun].
  set (n := length (posts w)) in *.
  assert (Hup : snd (docx_pure E n doc false) = true).
  { apply (for_mut_pure_flag_raised (inline_calls doc) (inline_step E doc)
             (fun b => b) (inline_step_kept doc) (inline_shapes doc) n false j sh Hj).
    intros st'. rewrite (inline_step_failure doc _ sh st' rId bs Hg Hp Hfail).
    reflexivity. }
  rewrite Hup in Hrun. cbn [returned files_after] in Hrun.
  destruct (for_mut_pure_lookup (inline_calls doc) (inline_step E doc)
              (inline_shapes doc) n false j sh Hj) as [st_j Hsh].
  rewrite (inline_step_failure doc _ sh st_j rId bs Hg Hp Hfail) in Hsh.
  eexists _, _. split; [exact Hrun|]. cbn [fs].
  split; [apply lookup_insert_eq|]. exact Hsh.
Qed.

End Failure.




(** ** The extension of the output path *)

Module PathFacts.
Import Str OsPath.

Lemma rfind_from_app (c : N) (s t : pystr) (i last : Z) :
  rfind_from c (s ++ t) i last
  = rfind_from c t (i + Z.of_nat (length s)) (rfind_from c s i last).
Proof.
  revert i last. induction s as [|x r IH]; intros i last.
  - simpl. rewrite Z.add_0_r. reflexivity.
  - cbn [app rfind_from length]. rewrite IH. f_equal. lia.
Qed.

Lemma rfind_from_notin (c : N) (t : pystr) (i last : Z) :
  c ∉ t -> rfind_from c t i last = last.
Proof.
  revert i last. induction t as [|x r IH]; intros i last H; [reflexivity|].
  apply not_elem_of_cons in H. destruct H as [Hne Hnot].
  cbn [rfind_from].
  destruct (x =? c)%N eqn:He; [apply N.eqb_eq in He; congruence|].
  apply IH. exact Hnot.
Qed.

Lemma rfind_from_split (c : N) (s : pystr) (i last : Z) :
  (rfind_from c s i last = last /\ c ∉ s)
  \/ (exists pre post,
        s = pre ++ c :: post
        /\ rfind_from c s i last = i + Z.of_nat (length pre)
        /\ c ∉ post).
Proof.
  revert i last. induction s as [|x r IH]; intros i last.
  - left. split; [reflexivity|apply not_elem_of_nil].
  - cbn [rfind_from]. destruct (x =? c)%N eqn:He.
    + apply N.eqb_eq in He. subst x.
      destruct (IH (i + 1) i) as [[Hr Hn]|(pre & post & -> & Hr & Hn)].
      * right. exists [], r. repeat split; [|exact Hn].
        rewrite Hr. simpl. lia.
      * right. exists (c :: pre), post. repeat split; [|exact Hn].
        rewrite Hr. simpl. lia.
    + apply N.eqb_neq in He.
      destruct (IH (i + 1) last) as [[Hr Hn]|(pre & post & -> & Hr & Hn)].
      * left. split; [exact Hr|].
        apply not_elem_of_cons. split; [congruence|exact Hn].
      * right. exists (x :: pre), post. repeat split; [|exact Hn].
        rewrite Hr. simpl. lia.
Qed.

Lemma rfind_split (p : pystr) (c : N) :
  (rfind p c = -1 /\ c ∉ p)
  \/ (exists pre post,
        p = pre ++ c :: post /\ rfind p c = Z.of_nat (length pre) /\ c ∉ post).
Proof.
  unfold rfind.
  destruct (rfind_from_split c p 0 (-1)) as [H|(pre & post & H1 & H2 & H3)].
  - left. exact H.
  - right. exists pre, post. repeat split; assumption.
Qed.

Lemma rfind_of_split (pre post : pystr) (c : N) :
  c ∉ post -> rfind (pre ++ c :: post) c = Z.of_nat (length pre).
Proof.
  intros H. unfold rfind. rewrite rfind_from_app. cbn [rfind_from].
  rewrite N.eqb_refl, rfind_from_notin by exact H. lia.
Qed.

Lemma rfind_app_notin (p t : pystr) (c : N) :
  c ∉ t -> rfind (p ++ t) c = rfind p c.
Proof.
  intros H. unfold rfind. rewrite rfind_from_app. apply rfind_from_notin, H.
Qed.

Lemma rfind_ge_of_in (pre t : pystr) (c : N) :
  c ∈ t -> Z.of_nat (length pre) <= rfind (pre ++ t) c.
Proof.
  intros Hin.
  destruct (rfind_split t c) as [[_ Hn]|(t1 & t2 & -> & _ & Hn)];
    [contradiction|].
  rewrite app_assoc, rfind_of_split by exact Hn.
  rewrite length_app. lia.
Qed.

Lemma rfind_lower (p : pystr) (c : N) : -1 <= rfind p c.
Proof.
  destruct (rfind_split p c) as [[-> _]|(pre & post & _ & -> & _)]; lia.
Qed.

Lemma slice_app_l (s t : pystr) (i : Z) :
  0 <= i -> (Z.to_nat i < length s)%nat ->
  slice (s ++ t) i (i + 1) = slice s i (i + 1).
Proof.
  intros Hi Hlt. unfold slice.
  replace (Z.to_nat (i + 1 - i)) with 1%nat by lia.
  rewrite drop_app_le by lia.
  apply take_app_le. rewrite length_drop. lia.
Qed.

Lemma skip_all_dots (n : nat) (p : pystr) (f d : Z) :
  (forall i, f <= i < d -> dot_at p i) ->
  skip_leading_dots n p f d = (p, []).
Proof.
  revert f. induction n as [|n IH]; intros f Hall; [reflexivity|].
  cbn [skip_leading_dots]. destruct (f <? d) eqn:Hfd; [|reflexivity].
  apply Z.ltb_lt in Hfd. unfold Str.eqb.
  rewrite bool_decide_eq_true_2 by (apply Hall; lia).
  cbn [negb]. apply IH. intros i Hi. apply Hall. lia.
Qed.

Lemma skip_found (k n : nat) (p : pystr) (f d : Z) :
  (k < n)%nat -> f + Z.of_nat k < d ->
  (forall i, f <= i < f + Z.of_nat k -> dot_at p i) ->
  ~ dot_at p (f + Z.of_nat k) ->
  skip_leading_dots n p f d = (take (Z.to_nat d) p, drop (Z.to_nat d) p).
Proof.
  revert n f. induction k as [|k IH]; intros n f Hkn Hlt Hdots Hnot;
    (destruct n as [|n]; [lia|]); cbn [skip_leading_dots];
    (assert ((f <? d) = true) as -> by (apply Z.ltb_lt; lia)); unfold Str.eqb.
  - rewrite Z.add_0_r in Hnot.
    rewrite bool_decide_eq_false_2 by exact Hnot. reflexivity.
  - rewrite bool_decide_eq_true_2 by (apply Hdots; lia).
    cbn [negb]. apply IH.
    + lia.
    + lia.
    + intros i Hi. apply Hdots. lia.
    + replace (f + 1 + Z.of_nat k) with (f + Z.of_nat (S k)) by lia. exact Hnot.
Qed.

Lemma skip_cases (n : nat) (p : pystr) (f d : Z) :
  (Z.to_nat (d - f) <= n)%nat ->
  (forall i, f <= i < d -> dot_at p i)
  \/ (exists k, (k < n)%nat /\ f + Z.of_nat k < d
                /\ (forall i, f <= i < f + Z.of_nat k -> dot_at p i)
                /\ ~ dot_at p (f + Z.of_nat k)).
Proof.
  revert f. induction n as [|n IH]; intros f Hn.
  - left. intros i Hi. lia.
  - destruct (Z_lt_dec f d) as [Hfd|Hfd]; [|left; intros i Hi; lia].
    destruct (decide (slice p f (f + 1) = [extsep])) as [Hdot|Hdot].
    + destruct (IH (f + 1) ltac:(lia)) as [Hall|(k & Hk & Hlt & Hdots & Hnot)].
      * left. intros i Hi. destruct (Z.eq_dec i f) as [->|]; [exact Hdot|].
        apply Hall. lia.
      * right. exists (S k). split; [lia|]. split; [lia|]. split.
        -- intros i Hi. destruct (Z.eq_dec i f) as [->|]; [exact Hdot|].
           apply Hdots. lia.
        -- replace (f + Z.of_nat (S k)) with (f + 1 + Z.of_nat k) by lia.
           exact Hnot.
    + right. exists 0%nat. split; [lia|]. split; [lia|]. split.
      * intros i Hi. lia.
      * rewrite Z.add_0_r. exact Hdot.
Qed.

Lemma splitext_unfold (p : pystr) (sep : N) (altsep : option N) :
  _splitext p sep altsep
  = if sep_index p sep altsep <? rfind p extsep
    then skip_leading_dots (length p) p (sep_index p sep altsep + 1) (rfind p extsep)
    else (p, []).
Proof. unfold _splitext, sep_index. destruct altsep; reflexivity. Qed.

Lemma sep_index_lower (p : pystr) (sep : N) (altsep : option N) :
  -1 <= sep_index p sep altsep.
Proof.
  unfold sep_index. pose proof (rfind_lower p sep).
  destruct altsep as [a|]; [pose proof (rfind_lower p a)|]; lia.
Qed.

Section Suffix.

Variable sep : N.
Variable altsep : option N.
Variable suffix : pystr.
Hypothesis suffix_sep : sep ∉ suffix.
Hypothesis suffix_altsep : forall a, altsep = Some a -> a ∉ suffix.
Hypothesis suffix_dot : extsep ∉ suffix.

Lemma sep_index_app (p : pystr) :
  sep_index (p ++ suffix) sep altsep = sep_index p sep altsep.
Proof.
  unfold sep_index. rewrite (rfind_app_notin p suffix sep suffix_sep).
  destruct altsep as [a|]; [|reflexivity].
  rewrite (rfind_app_notin p suffix a (suffix_altsep a eq_refl)). reflexivity.
Qed.

(** Separators lie before the last dot when the index says so. *)
Lemma sep_index_insert (pre post : pystr) :
  sep_index (pre ++ extsep :: post) sep altsep < Z.of_nat (length pre) ->
  sep_index (pre ++ suffix ++ extsep :: post) sep altsep
  = sep_index (pre ++ extsep :: post) sep altsep.
Proof.
  assert (Hone : forall c, c ∉ suffix ->
            rfind (pre ++ extsep :: post) c < Z.of_nat (length pre) ->
            rfind (pre ++ suffix ++ extsep :: post) c
            = rfind (pre ++ extsep :: post) c).
  { intros c Hc Hlt.
    assert (Hnot : c ∉ extsep :: post).
    { intros Hin. pose proof (rfind_ge_of_in pre _ c Hin). lia. }
    rewrite !rfind_app_notin; [reflexivity|exact Hnot|].
    apply not_elem_of_app. split; assumption. }
  unfold sep_index. destruct altsep as [a|]; intros Hlt.
  - rewrite (Hone sep suffix_sep) by lia.
    rewrite (Hone a (suffix_altsep a eq_refl)) by lia. reflexivity.
  - apply (Hone sep suffix_sep). exact Hlt.
Qed.

Lemma splitext_insert (p : pystr) :
  _splitext (fst (_splitext p sep altsep) ++ suffix ++ snd (_splitext p sep altsep))
    sep altsep
  = (fst (_splitext p sep altsep) ++ suffix, snd (_splitext p sep altsep)).
Proof.
  assert (Hplain : _splitext p sep altsep = (p, []) ->
            _splitext (p ++ suffix ++ []) sep altsep = (p ++ suffix, [])).
  { intros Hp. rewrite app_nil_r. rewrite splitext_unfold in *.
    rewrite sep_index_app, (rfind_app_notin p suffix extsep suffix_dot).
    destruct (sep_index p sep altsep <? rfind p extsep) eqn:Hlt; [|reflexivity].
    apply Z.ltb_lt in Hlt.
    pose proof (sep_index_lower p sep altsep) as Hlow.
    destruct (rfind_split p extsep) as [[Hd _]|(pre & post & Hpre & Hd & Hn)];
      [lia|].
    assert (Hlenp : (length pre < length p)%nat)
      by (rewrite Hpre, length_app; simpl; lia).
    destruct (skip_cases (length p) p (sep_index p sep altsep + 1)
                (rfind p extsep)) as [Hall|(k & Hk & Hkd & Hdots & Hnot)];
      [lia| |].
    - rewrite (skip_all_dots _ (p ++ suffix)); [reflexivity|].
      intros i Hi. unfold dot_at. rewrite slice_app_l; [|lia|lia].
      apply Hall. exact Hi.
    - exfalso.
      rewrite (skip_found k _ p _ _ Hk Hkd Hdots Hnot) in Hp.
      injection Hp as Hp1 Hp2.
      rewrite Hd, Nat2Z.id, Hpre, drop_app_length in Hp2. discriminate Hp2. }
  rewrite (splitext_unfold p).
  destruct (sep_index p sep altsep <? rfind p extsep) eqn:Hlt.
  2:{ cbn [fst snd]. apply Hplain. rewrite splitext_unfold, Hlt. reflexivity. }
  apply Z.ltb_lt in Hlt.
  pose proof (sep_index_lower p sep altsep) as Hlow.
  destruct (rfind_split p extsep) as [[Hd _]|(pre & post & Hpre & Hd & Hn)];
    [lia|].
  assert (Hlenp : (length pre < length p)%nat)
    by (rewrite Hpre, length_app; simpl; lia).
  destruct (skip_cases (length p) p (sep_index p sep altsep + 1)
              (rfind p extsep)) as [Hall|(k & Hk & Hkd & Hdots & Hnot)];
    [lia| |].
  - rewrite (skip_all_dots _ p _ _ Hall). cbn [fst snd]. apply Hplain.
    rewrite splitext_unfold.
    assert ((sep_index p sep altsep <? rfind p extsep) = true) as ->
      by (apply Z.ltb_lt; exact Hlt).
    apply skip_all_dots, Hall.
  - rewrite (skip_found k _ p _ _ Hk Hkd Hdots Hnot).
    assert (Htake : take (length pre) p = pre)
      by (rewrite Hpre; apply take_app_length).
    assert (Hdrop : drop (length pre) p = extsep :: post)
      by (rewrite Hpre; apply drop_app_length).
    rewrite Hd, Nat2Z.id, Htake, Hdrop. cbn [fst snd].
    rewrite splitext_unfold.
    assert (Hslice : forall i, 0 <= i -> (Z.to_nat i < length pre)%nat ->
              slice p i (i + 1) = slice pre i (i + 1))
      by (intros i H0 H1; rewrite Hpre; apply slice_app_l; assumption).
    assert (Hdot' : rfind (pre ++ suffix ++ extsep :: post) extsep
                    = Z.of_nat (length (pre ++ suffix))).
    { rewrite app_assoc. apply rfind_of_split, Hn. }
    assert (Hsep' : sep_index (pre ++ suffix ++ extsep :: post) sep altsep
                    = sep_index p sep altsep).
    { rewrite Hpre. apply sep_index_insert. rewrite <- Hpre. lia. }
    rewrite Hdot', Hsep'.
    assert ((sep_index p sep altsep <? Z.of_nat (length (pre ++ suffix))) = true)
      as -> by (apply Z.ltb_lt; rewrite length_app; lia).
    rewrite (skip_found k).
    + rewrite Nat2Z.id, app_assoc.
      rewrite take_app_length, drop_app_length. reflexivity.
    + rewrite !length_app. rewrite Hpre, length_app in Hk. simpl in *. lia.
    + rewrite length_app. lia.
    + intros i Hi. unfold dot_at. rewrite slice_app_l; [|lia|lia].
      rewrite <- Hslice by lia. apply Hdots. exact Hi.
    + unfold dot_at. rewrite slice_app_l; [|lia|lia].
      rewrite <- Hslice by lia. exact Hnot.
Qed.

End Suffix.

End PathFacts.

Lemma not_in_alt (c : N) :
  c <> 95%N -> c <> 97%N -> c <> 108%N -> c <> 116%N -> c ∉ py "_alt".
Proof.
  intros H1 H2 H3 H4 Hin. apply list_elem_of_In in Hin. vm_compute in Hin.
  destruct Hin as [<-|[<-|[<-|[<-|[]]]]]; congruence.
Qed.

(** The output path splits into the stem with "_alt" and the extension of
    the input path. *)
Lemma splitext_output_path (E : env) (p : pystr) :
  splitext E (output_path E p)
  = (fst (splitext E p) ++ py "_alt", snd (splitext E p)).
Proof.
  unfold splitext, output_path. apply PathFacts.splitext_insert.
  - destruct (os E); apply not_in_alt; discriminate.
  - destruct (os E); intros a [= <-]. apply not_in_alt; discriminate.
  - apply not_in_alt; discriminate.
Qed.

(** ** Running an adapter again *)

Lemma same_responses_split (E : env) (n1 n2 a b : nat) :
  same_responses E n1 n2 (a + b) ->
  same_responses E n1 n2 a /\ same_responses E (n1 + a) (n2 + a) b.
Proof.
  intros H. split.
  - intros i req Hi. apply H. lia.
  - intros i req Hi. rewrite <- !Nat.add_assoc. apply H. lia.
Qed.

Section Same.

Variable E : env.

Lemma caption_same (n1 n2 : nat) (bs : pybytes) :
  same_responses E n1 n2 1 -> caption E n1 bs = caption E n2 bs.
Proof.
  intros H. unfold caption.
  pose proof (H 0%nat (request_for E bs) ltac:(lia)) as H0.
  rewrite !Nat.add_0_r in H0. rewrite H0. reflexivity.
Qed.

Section Generic.

Context {A St : Type}.
Variable calls : A -> nat.

Lemma for_mut_pure_same (step : nat -> A -> St -> A * St) :
  (forall m1 m2 x st,
     same_responses E m1 m2 (calls x) -> step m1 x st = step m2 x st) ->
  forall xs n1 n2 st,
    same_responses E n1 n2 (total_calls calls xs) ->
    for_mut_pure calls step n1 xs st = for_mut_pure calls step n2 xs st.
Proof.
  intros Hstep xs. induction xs as [|x r IH]; intros n1 n2 st H; [reflexivity|].
  unfold total_calls in H. simpl in H.
  apply same_responses_split in H. destruct H as [Hx Hr].
  rewrite !for_mut_pure_cons.
  rewrite (Hstep n1 n2 x st Hx).
  rewrite (IH (n1 + calls x)%nat (n2 + calls x)%nat _ Hr). reflexivity.
Qed.

Lemma for_in_pure_same (next : nat -> A -> St -> St) :
  (forall m1 m2 x st,
     same_responses E m1 m2 (calls x) -> next m1 x st = next m2 x st) ->
  forall xs n1 n2 st,
    same_responses E n1 n2 (total_calls calls xs) ->
    for_in_pure calls next n1 xs st = for_in_pure calls next n2 xs st.
Proof.
  intros Hnext xs. induction xs as [|x r IH]; intros n1 n2 st H; [reflexivity|].
  unfold total_calls in H. simpl in H.
  apply same_responses_split in H. destruct H as [Hx Hr].
  simpl. rewrite (Hnext n1 n2 x st Hx).
  apply IH. exact Hr.
Qed.

End Generic.

Lemma shape_step_same (m1 m2 : nat) (sh : shape) (updated : bool) :
  same_responses E m1 m2 (shape_calls sh) ->
  shape_step E m1 sh updated = shape_step E m2 sh updated.
Proof.
  unfold shape_calls, shape_step. destruct (shape_image sh) as [bs|];
    [|reflexivity].
  intros H. rewrite (caption_same m1 m2 bs H). reflexivity.
Qed.

Lemma slide_step_same (m1 m2 : nat) (sl : slide) (updated : bool) :
  same_responses E m1 m2 (slide_calls sl) ->
  slide_step E m1 sl updated = slide_step E m2 sl updated.
Proof. apply (for_mut_pure_same shape_calls (shape_step E) shape_step_same). Qed.

Lemma inline_step_same (doc : document) (m1 m2 : nat) (sh : inline_shape)
    (updated : bool) :
  same_responses E m1 m2 (inline_calls doc sh) ->
  inline_step E doc m1 sh updated = inline_step E doc m2 sh updated.
Proof.
  unfold inline_calls, inline_step. destruct (inline_image doc sh) as [bs|];
    [|reflexivity].
  intros H. rewrite (caption_same m1 m2 bs H). reflexivity.
Qed.

Lemma block_next_same (m1 m2 : nat) (b : block) (st : page * bool) :
  same_responses E m1 m2 (block_calls b) ->
  block_next E m1 b st = block_next E m2 b st.
Proof.
  unfold block_calls, block_next, block_html.
  destruct (block_target b) as [[bs bbox]|]; [|reflexivity].
  intros H. rewrite (caption_same m1 m2 bs H). reflexivity.
Qed.

Lemma page_step_same (m1 m2 : nat) (pg : page) (st : Z * bool) :
  same_responses E m1 m2 (page_calls pg) ->
  page_step E m1 pg st = page_step E m2 pg st.
Proof.
  intros H. unfold page_step.
  rewrite (for_in_pure_same block_calls (block_next E) block_next_same
             (blocks pg) m1 m2 (pg, snd st) H).
  reflexivity.
Qed.

Lemma adapter_requests_length (fmt : format) (f : file) :
  length (adapter_requests E fmt f)
  = match fmt, f with
    | PPTX, PptxFile prs => total_calls slide_calls prs
    | DOCX, DocxFile doc => total_calls (inline_calls doc) (inline_shapes doc)
    | PDF, PdfFile doc => total_calls page_calls doc
    | _, _ => 0%nat
    end.
Proof.
  destruct fmt, f as [prs|doc|doc|data]; try reflexivity; cbn [adapter_requests].
  - apply (flat_map_calls slide_calls (slide_requests E)
             (slide_requests_calls E)).
  - apply (flat_map_calls (inline_calls doc) (inline_requests E doc)
             (inline_requests_calls E doc)).
  - apply (flat_map_calls page_calls (page_requests E) (page_requests_calls E)).
Qed.

Lemma adapter_pure_same (fmt : format) (n1 n2 : nat) (f : file) :
  same_responses E n1 n2 (length (adapter_requests E fmt f)) ->
  adapter_pure E fmt n1 f = adapter_pure E fmt n2 f.
Proof.
  rewrite adapter_requests_length.
  destruct fmt, f as [prs|doc|doc|data]; try reflexivity; intros H;
    cbn [adapter_pure].
  - unfold pptx_pure.
    rewrite (for_mut_pure_same slide_calls (slide_step E) slide_step_same
               prs n1 n2 false H). reflexivity.
  - unfold docx_pure.
    rewrite (for_mut_pure_same (inline_calls doc) (inline_step E doc)
               (inline_step_same doc) (inline_shapes doc) n1 n2 false H).
    reflexivity.
  - unfold pdf_pure.
    rewrite (for_mut_pure_same page_calls (page_step E) page_step_same
               doc n1 n2 (0, false) H). reflexivity.
Qed.

(** The document an adapter leaves has the images of the document it
    read: the same requests are posted for it, and it is readable. *)
Lemma updates_flat_map {A B : Type} (R : A -> A -> nat -> Prop)
    (g : A -> list B) (xs xs' : list A) (k : nat) :
  (forall x x' n, R x x' n -> g x' = g x) ->
  updates R xs xs' k -> flat_map g xs' = flat_map g xs.
Proof.
  intros Hg H. induction H as [|x x' n xs xs' m Hx Hxs IH]; [reflexivity|].
  simpl. rewrite (Hg _ _ _ Hx), IH. reflexivity.
Qed.

Lemma shape_update_requests (sh sh' : shape) (k : nat) :
  shape_update sh sh' k -> shape_requests E sh' = shape_requests E sh.
Proof.
  intros [[_ ->]|[_ [Ht [alt_text ->]]]]; [reflexivity|].
  unfold shape_requests, shape_image. cbn. rewrite Ht. reflexivity.
Qed.

Lemma inline_update_requests (doc doc' : document) (sh sh' : inline_shape)
    (k : nat) :
  related_parts doc' = related_parts doc ->
  inline_update sh sh' k ->
  inline_requests E doc' sh' = inline_requests E doc sh.
Proof.
  intros Hparts [[_ ->]|[_ [alt_text ->]]];
    unfold inline_requests, inline_image; cbn; rewrite Hparts; reflexivity.
Qed.

Lemma page_update_requests (pg pg' : page) (k : nat) :
  page_update pg pg' k -> page_requests E pg' = page_requests E pg.
Proof. intros [Hb _]. unfold page_requests. rewrite Hb. reflexivity. Qed.

Lemma updates_typed (doc doc' : pdf) (k : nat) :
  updates page_update doc doc' k -> Forall typed_page doc -> Forall typed_page doc'.
Proof.
  intros H. induction H as [|pg pg' n doc doc' m [Hb _] Hdoc IH]; intros Ht.
  - constructor.
  - inversion Ht; subst. constructor; [|apply IH; assumption].
    unfold typed_page in *. rewrite Hb. assumption.
Qed.

Lemma updates_Forall {A : Type} (R : A -> A -> nat -> Prop) (P : A -> Prop)
    (xs xs' : list A) (k : nat) :
  (forall x x' n, R x x' n -> P x -> P x') ->
  updates R xs xs' k -> Forall P xs -> Forall P xs'.
Proof.
  intros HP H. induction H as [|x x' n xs xs' m Hx Hxs IH]; intros Hall.
  - constructor.
  - inversion Hall; subst. constructor; [eapply HP; eassumption|apply IH; assumption].
Qed.

Lemma shape_update_recognised (sh sh' : shape) (k : nat) :
  shape_update sh sh' k -> recognised sh -> recognised sh'.
Proof.
  intros [[_ ->]|[_ [_ [alt_text ->]]]] Hrec; [exact Hrec|].
  eexists. reflexivity.
Qed.

Lemma updates_recognised (prs prs' : presentation) (k : nat) :
  updates (updates shape_update) prs prs' k ->
  recognised_slides prs -> recognised_slides prs'.
Proof.
  apply updates_Forall. intros sl sl' n Hsl.
  exact (updates_Forall shape_update recognised sl sl' n shape_update_recognised Hsl).
Qed.

Lemma file_updates_same_images (fmt : format) (f f' : file) (k : nat) :
  readable_as fmt f -> file_updates fmt f f' k ->
  readable_as fmt f' /\ adapter_requests E fmt f' = adapter_requests E fmt f.
Proof.
  destruct fmt, f as [prs|doc|doc|data], f' as [prs'|doc'|doc'|data'];
    try contradiction; cbn [readable_as file_updates adapter_requests].
  - intros Hrec H. split; [exact (updates_recognised prs prs' k H Hrec)|].
    apply (updates_flat_map (updates shape_update) _ _ _ _
             (fun sl sl' n Hs =>
                updates_flat_map shape_update (shape_requests E) sl sl' n
                  shape_update_requests Hs) H).
  - intros _ [Hparts H]. split; [exact I|].
    induction H as [|sh sh' n shs shs' m Hsh Hshs IH]; [reflexivity|].
    simpl. rewrite (inline_update_requests doc doc' sh sh' n Hparts Hsh), IH.
    reflexivity.
  - intros Ht H. split; [exact (updates_typed doc doc' k H Ht)|].
    apply (updates_flat_map page_update (page_requests E) doc doc' k
             page_update_requests H).
Qed.

End Same.

(** Two runs on a document the adapter walks through. *)
Lemma adapter_rerun_readable (E : env) (fmt : format) (file_path : pystr)
    (w0 : world) (f : file) (r1 r2 : result (option pystr)) (w1 w2 : world) :
  fs w0 !! file_path = Some f ->
  readable_as fmt f ->
  adapter E fmt file_path w0 = (r1, w1) ->
  adapter E fmt file_path w1 = (r2, w2) ->
  same_responses E (length (posts w0)) (length (posts w1))
    (length (posts w1) - length (posts w0)) ->
  r2 = r1
  /\ fs w2 = fs w1
  /\ posts w1 = posts w0 ++ adapter_requests E fmt f
  /\ posts w2 = posts w1 ++ adapter_requests E fmt f
  /\ (forall output_file,
        r1 = Ok (Some output_file) ->
        exists f' r3 w3,
          fs w1 !! output_file = Some f'
          /\ adapter E fmt output_file w1 = (Ok r3, w3)
          /\ posts w3 = posts w1 ++ adapter_requests E fmt f
          /\ splitext E output_file
             = (fst (splitext E file_path) ++ py "_alt", snd (splitext E file_path))
          /\ (r3 = None
              \/ r3 = Some (fst (splitext E file_path) ++ py "_alt" ++ py "_alt"
                            ++ snd (splitext E file_path)))).
Proof.
  intros Hf Hr Hrun1 Hrun2 Hsame.
  destruct (adapter_eq E fmt file_path w0 f Hf Hr) as [lg1 H1].
  rewrite H1 in Hrun1. injection Hrun1 as <- <-.
  cbn [posts] in Hsame. rewrite length_app in Hsame.
  replace (length (posts w0) + length (adapter_requests E fmt f) - length (posts w0))%nat
    with (length (adapter_requests E fmt f)) in Hsame by lia.
  pose proof (adapter_pure_same E fmt _ _ f Hsame) as Hpure.
  set (n := length (posts w0)) in *.
  set (updated := snd (adapter_pure E fmt n f)) in *.
  set (f' := fst (adapter_pure E fmt n f)) in *.
  set (out := output_path E file_path) in *.
  assert (Hf1 : files_after updated out f' (fs w0) !! file_path = Some f).
  { unfold files_after. destruct updated; [|exact Hf].
    rewrite lookup_insert_ne by apply output_path_fresh. exact Hf. }
  match type of Hrun2 with
  | adapter E fmt file_path ?w = _ =>
      destruct (adapter_eq E fmt file_path w f Hf1 Hr) as [lg2 H2]
  end.
  rewrite H2 in Hrun2. injection Hrun2 as <- <-.
  cbn [posts fs] in *. rewrite length_app. fold n. rewrite <- Hpure.
  fold updated f'.
  split; [reflexivity|]. split.
  { unfold files_after. destruct updated; [|reflexivity].
    apply insert_insert_eq. }
  split; [reflexivity|]. split; [reflexivity|].
  intros output_file Hout.
  destruct (adapter_pure_counts E fmt n f Hr) as [k [Hk Hup]].
  fold f' updated in Hk, Hup.
  destruct (file_updates_same_images E fmt f f' k Hr Hk) as [Hr' Hreq'].
  destruct updated eqn:Hupd; [|discriminate Hout].
  cbn [returned] in Hout. injection Hout as <-.
  cbn [files_after] in *.
  match goal with
  | |- context [adapter E fmt out ?w] =>
      destruct (adapter_eq E fmt out w f' (lookup_insert_eq _ _ _) Hr') as [lg3 H3]
  end.
  eexists f', _, _. split; [apply lookup_insert_eq|].
  split; [exact H3|]. cbn [posts]. rewrite Hreq'.
  split; [reflexivity|]. split; [apply splitext_output_path|].
  match goal with
  | |- context [returned ?u _] => destruct u
  end; [right|left; reflexivity].
  cbn [returned]. f_equal. unfold output_path at 1.
  unfold out. rewrite splitext_output_path. cbn [fst snd].
  rewrite <- !app_assoc. reflexivity.
Qed.




(** ** The batch driver *)

Lemma extension_inj (fmt1 fmt2 : format) :
  extension fmt1 = extension fmt2 -> fmt1 = fmt2.
Proof.
  destruct fmt1, fmt2; intros H; try reflexivity; vm_compute in H; discriminate H.
Qed.

Section Driver.

Variable E : env.

Lemma process_file_cases (file_path : pystr) (w : world) :
  (exists fmt,
     Str.lower (snd (splitext E file_path)) = extension fmt
     /\ process_file E file_path w = adapter E fmt file_path w)
  \/ ((forall fmt, Str.lower (snd (splitext E file_path)) <> extension fmt)
      /\ process_file E file_path w
         = (Ok None,
            after_run w
              [(WARNING, [Lit "Unsupported file type: "; FStr file_path])] [])).
Proof.
  unfold process_file, Str.eqb.
  destruct (decide (Str.lower (snd (splitext E file_path)) = py ".pptx")) as [H1|H1].
  { left. exists PPTX. split; [exact H1|].
    rewrite bool_decide_eq_true_2 by exact H1. reflexivity. }
  destruct (decide (Str.lower (snd (splitext E file_path)) = py ".docx")) as [H2|H2].
  { left. exists DOCX. split; [exact H2|].
    rewrite bool_decide_eq_false_2 by exact H1.
    rewrite bool_decide_eq_true_2 by exact H2. reflexivity. }
  destruct (decide (Str.lower (snd (splitext E file_path)) = py ".pdf")) as [H3|H3].
  { left. exists PDF. split; [exact H3|].
    rewrite bool_decide_eq_false_2 by exact H1.
    rewrite bool_decide_eq_false_2 by exact H2.
    rewrite bool_decide_eq_true_2 by exact H3. reflexivity. }
  right. split.
  - intros []; assumption.
  - rewrite !bool_decide_eq_false_2 by assumption.
    run_step. reflexivity.
Qed.

(** Saving an "_alt" file leaves the files in order. *)
Lemma sound_files_after (fmt : format) (file_path : pystr)
    (files : gmap pystr file) (f' : file) (updated : bool) :
  Str.lower (snd (splitext E file_path)) = extension fmt ->
  readable_as fmt f' ->
  sound_files E files ->
  sound_files E (files_after updated (output_path E file_path) f' files).
Proof.
  intros Hext Hr Hsound. unfold files_after. destruct updated; [|exact Hsound].
  intros q f fmtq Hq Hfq.
  destruct (decide (q = output_path E file_path)) as [->|Hne].
  - rewrite lookup_insert_eq in Hq. injection Hq as <-.
    rewrite splitext_output_path in Hfq. cbn [snd] in Hfq.
    rewrite Hext in Hfq. apply extension_inj in Hfq. subst fmtq. exact Hr.
  - rewrite lookup_insert_ne in Hq by congruence. exact (Hsound q f fmtq Hq Hfq).
Qed.

Lemma files_after_keeps (updated : bool) (output_file : pystr) (f' : file)
    (files : gmap pystr file) (q : pystr) :
  is_Some (files !! q) ->
  is_Some (files_after updated output_file f' files !! q).
Proof.
  intros Hq. unfold files_after. destruct updated; [|exact Hq].
  rewrite lookup_insert_is_Some.
  destruct (decide (output_file = q)); auto.
Qed.

(** With the files in order, [process_file] returns for a file that is
    there, and leaves the files in order. *)
Lemma process_file_sound (file_path : pystr) (w : world) :
  sound_files E (fs w) ->
  is_Some (fs w !! file_path) ->
  exists r w',
    process_file E file_path w = (Ok r, w')
    /\ sound_files E (fs w')
    /\ (forall q, is_Some (fs w !! q) -> is_Some (fs w' !! q)).
Proof.
  intros Hsound [f Hf].
  destruct (process_file_cases file_path w) as [(fmt & Hext & ->)|[_ ->]].
  - pose proof (Hsound file_path f fmt Hf Hext) as Hr.
    destruct (adapter_eq E fmt file_path w f Hf Hr) as [lg ->].
    destruct (adapter_pure_counts E fmt (length (posts w)) f Hr) as [k [Hk _]].
    destruct (file_updates_same_images E fmt f _ k Hr Hk) as [Hr' _].
    eexists _, _. split; [reflexivity|]. cbn [fs]. split.
    + apply (sound_files_after fmt); assumption.
    + intros q Hq. apply files_after_keeps, Hq.
  - eexists _, _. split; [reflexivity|]. split; [exact Hsound|auto].
Qed.

Lemma folder_loop_sound (found : list pystr) (acc : list pystr) (w : world) :
  sound_files E (fs w) ->
  (forall p, p ∈ found -> is_Some (fs w !! p)) ->
  exists outs w',
    for_in (folder_file E) found acc w = (Ok outs, w')
    /\ sound_files E (fs w').
Proof.
  revert acc w. induction found as [|p rest IH]; intros acc w Hsound Hall.
  - eexists _, _. split; [reflexivity|exact Hsound].
  - destruct (process_file_sound p w Hsound (Hall p ltac:(left)))
      as (r & w1 & Hrun & Hsound1 & Hkeep).
    cbn [for_in]. unfold bind at 1, folder_file at 1, bind at 1.
    rewrite Hrun.
    assert (Hrest : forall q, q ∈ rest -> is_Some (fs w1 !! q)).
    { intros q Hq. apply Hkeep, Hall. right. exact Hq. }
    destruct (truthy r); unfold ret; apply IH; assumption.
Qed.

(** An exception of [process_file] ends the loop over the files. *)
Lemma folder_loop_raises (p : pystr) (rest acc : list pystr) (w w' : world)
    (e : exn) :
  process_file E p w = (Raise e, w') ->
  for_in (folder_file E) (p :: rest) acc w = (Raise e, w').
Proof.
  intros H. cbn [for_in]. unfold bind at 1, folder_file at 1, bind at 1.
  rewrite H. reflexivity.
Qed.

Lemma process_file_open_fails (file_path : pystr) (w : world) (fmt : format) :
  Str.lower (snd (splitext E file_path)) = extension fmt ->
  open_fails E fmt (fs w !! file_path) ->
  exists e w',
    process_file E file_path w = (Raise e, w')
    /\ fs w' = fs w /\ posts w' = posts w.
Proof.
  intros Hext Hbad.
  destruct (process_file_cases file_path w) as [(fmt' & Hext' & ->)|[Hno _]];
    [|exfalso; exact (Hno fmt Hext)].
  rewrite Hext in Hext'. apply extension_inj in Hext'. subst fmt'.
  rewrite (adapter_open_fails E fmt file_path w Hbad).
  eexists _, _. split; [reflexivity|]. split; [reflexivity|apply app_nil_r].
Qed.

Lemma process_file_unrecognised (file_path : pystr) (w : world) (prs : presentation) :
  Str.lower (snd (splitext E file_path)) = extension PPTX ->
  fs w !! file_path = Some (PptxFile prs) ->
  ~ recognised_slides prs ->
  exists e w',
    process_file E file_path w = (Raise e, w')
    /\ (exists sh, sh ∈ concat prs /\ shape_type sh = Raise e)
    /\ fs w' = fs w.
Proof.
  intros Hext Hf Hno.
  destruct (process_file_cases file_path w) as [(fmt' & Hext' & ->)|[Hnone _]];
    [|exfalso; exact (Hnone PPTX Hext)].
  rewrite Hext in Hext'. apply extension_inj in Hext'. subst fmt'.
  destruct (process_pptx_unrecognised E file_path prs Hno) as (e & Hsh & Hrun).
  destruct (Hrun w Hf) as (w' & H & Hfs).
  exists e, w'. split; [exact H|]. split; [exact Hsh|exact Hfs].
Qed.

(** [process_file] returns nothing or raises with the files as they
    were, or returns the output path having written that one file. *)
Lemma process_file_effect (file_path : pystr) (w : world) :
  (fs (snd (process_file E file_path w)) = fs w
   /\ (fst (process_file E file_path w) = Ok None
       \/ exists e, fst (process_file E file_path w) = Raise e))
  \/ (exists fmt f f',
        Str.lower (snd (splitext E file_path)) = extension fmt
        /\ fs w !! file_path = Some f /\ readable_as fmt f /\ readable_as fmt f'
        /\ fst (process_file E file_path w) = Ok (Some (output_path E file_path))
        /\ fs (snd (process_file E file_path w))
           = <[output_path E file_path := f']> (fs w)).
Proof.
  destruct (process_file_cases file_path w) as [(fmt & Hext & ->)|[_ ->]];
    [|left; split; [reflexivity|left; reflexivity]].
  destruct (adapter_cases E fmt file_path w)
    as [(f & lg & Hf & Hr & ->)|(r & w' & -> & Hres & Hfs)];
    [|left; split; [exact Hfs|exact Hres]].
  cbn [fst snd fs].
  destruct (adapter_pure_counts E fmt (length (posts w)) f Hr) as [k [Hk _]].
  destruct (file_updates_same_images E fmt f _ k Hr Hk) as [Hr' _].
  destruct (snd (adapter_pure E fmt (length (posts w)) f));
    cbn [returned files_after].
  - right. exists fmt, f, (fst (adapter_pure E fmt (length (posts w)) f)).
    repeat split; first [assumption|reflexivity].
  - left. split; [reflexivity|left; reflexivity].
Qed.

Section Found.

Hypothesis glob_exists : glob_lists_files E.

Lemma folder_pattern_sound (pattern : pystr) (acc : list pystr) (w : world) :
  sound_files E (fs w) ->
  exists outs w',
    bind (glob E pattern) (fun found => for_in (folder_file E) found acc) w
    = (Ok outs, w')
    /\ sound_files E (fs w').
Proof.
  intros Hsound. unfold bind, glob. apply folder_loop_sound; [exact Hsound|].
  intros p Hp. exact (glob_exists _ _ _ Hp).
Qed.

Lemma process_folder_sound (folder_path : pystr) (w : world) :
  sound_files E (fs w) ->
  exists outs w', process_folder E folder_path w = (Ok outs, w').
Proof.
  intros Hsound.
  unfold process_folder, SUPPORTED_EXTENSIONS. cbn [for_in].
  unfold bind at 1. cbv beta.
  match goal with
  | |- context [bind (glob E ?pat) _ ?w0] =>
      destruct (folder_pattern_sound pat [] w0 Hsound) as (o1 & w1 & -> & Hs1)
  end.
  unfold bind at 1. cbv beta.
  match goal with
  | |- context [bind (glob E ?pat) _ ?w0] =>
      destruct (folder_pattern_sound pat o1 w0 Hs1) as (o2 & w2 & -> & Hs2)
  end.
  unfold bind at 1. cbv beta.
  match goal with
  | |- context [bind (glob E ?pat) _ ?w0] =>
      destruct (folder_pattern_sound pat o2 w0 Hs2) as (o3 & w3 & -> & Hs3)
  end.
  eexists _, _. reflexivity.
Qed.

End Found.

End Driver.


Lemma glob_names_lists_files : glob_lists_files Example3.E_names.
Proof.
  intros files pattern p. cbn [glob_glob Example3.E_names].
  unfold Example3.glob_names. intros Hin.
  apply list_elem_of_filter in Hin. destruct Hin as [_ Hin].
  apply list_elem_of_fmap in Hin. destruct Hin as ([q f] & -> & Hin).
  apply elem_of_map_to_list in Hin. cbn [fst]. exists f. exact Hin.
Qed.

Lemma w_folder_sound : sound_files Example3.E_names (fs Example.w_folder).
Proof.
  intros p f fmt Hp Hext. cbn [fs Example.w_folder] in Hp.
  apply lookup_insert_Some in Hp. destruct Hp as [[<- <-]|[_ Hp]].
  - destruct fmt; try (vm_compute in Hext; discriminate Hext).
    apply (bool_decide_unpack _). vm_compute. exact I.
  - apply lookup_singleton_Some in Hp. destruct Hp as [<- <-].
    destruct fmt; try (vm_compute in Hext; discriminate Hext). exact I.
Qed.


(** * Further properties *)

(** ** What one call of [process_file] can do *)

Lemma output_path_truthy (E : env) (file_path : pystr) :
  truthy (Some (output_path E file_path)) = true.
Proof.
  pose proof (output_path_length E file_path) as Hlen.
  destruct (output_path E file_path); [simpl in Hlen; lia|reflexivity].
Qed.

(** X1.  Whatever the file and the server: one call of [process_file]
    leaves the input file and every file other than the output path as
    they were.  Either it returns the output path (never an empty string)
    and that path then holds a document, or it returns nothing or raises
    and no file at all was written. *)
Theorem process_file_writes_one_file (E : env) (file_path : pystr) (w : world) :
  let out := process_file E file_path w in
  fs (snd out) !! file_path = fs w !! file_path
  /\ (forall q, q <> output_path E file_path -> fs (snd out) !! q = fs w !! q)
  /\ ((fst out = Ok (Some (output_path E file_path))
       /\ truthy (Some (output_path E file_path)) = true
       /\ is_Some (fs (snd out) !! output_path E file_path))
      \/ ((fst out = Ok None \/ exists e, fst out = Raise e)
          /\ fs (snd out) = fs w)).
Proof.
  intros out. subst out.
  destruct (process_file_effect E file_path w)
    as [[Hfs Hr]|(fmt & f & f' & _ & _ & _ & _ & Hr & Hfs)]; rewrite Hfs.
  - split; [reflexivity|]. split; [reflexivity|]. right.
    split; [exact Hr|reflexivity].
  - split; [apply lookup_insert_ne, output_path_fresh|].
    split; [intros q Hq; apply lookup_insert_ne; congruence|].
    left. split; [exact Hr|]. split; [apply output_path_truthy|].
    rewrite lookup_insert_eq. eexists. reflexivity.
Qed.


(** ** What a folder run reports *)

Section Reports.

Variable E : env.

Lemma folder_file_reports (file_path : pystr) (acc : list pystr) (w : world)
    (outs : list pystr) (w' : world) :
  folder_file E file_path acc w = (Ok outs, w') ->
  (forall q, is_Some (fs w !! q) -> is_Some (fs w' !! q))
  /\ ((outs = acc /\ fs w' = fs w)
      \/ (outs = acc ++ [output_path E file_path]
          /\ reported E (fs w') (output_path E file_path))).
Proof.
  unfold folder_file, bind.
  pose proof (process_file_effect E file_path w) as Heff.
  destruct (process_file E file_path w) as [r w1]. cbn [fst snd] in Heff.
  destruct Heff as [[Hfs [->|[e ->]]]|(fmt & f & f' & Hext & _ & _ & _ & -> & Hfs)].
  - cbn [truthy]. intros [= <- <-]. rewrite Hfs.
    split; [auto|left; split; reflexivity].
  - discriminate.
  - rewrite output_path_truthy. intros [= <- <-]. rewrite Hfs. split.
    + intros q Hq. destruct (decide (q = output_path E file_path)) as [->|Hne].
      * rewrite lookup_insert_eq. eexists. reflexivity.
      * rewrite lookup_insert_ne by congruence. exact Hq.
    + right. split; [reflexivity|]. split.
      * rewrite lookup_insert_eq. eexists. reflexivity.
      * exists file_path, fmt. split; [reflexivity|exact Hext].
Qed.

Lemma reported_kept (files files' : gmap pystr file) (o : pystr) :
  (forall q, is_Some (files !! q) -> is_Some (files' !! q)) ->
  reported E files o -> reported E files' o.
Proof. intros Hkeep [Hp Ho]. split; [apply Hkeep, Hp|exact Ho]. Qed.

Lemma folder_loop_reports (found : list pystr) (acc : list pystr) (w : world)
    (outs : list pystr) (w' : world) :
  for_in (folder_file E) found acc w = (Ok outs, w') ->
  (forall q, is_Some (fs w !! q) -> is_Some (fs w' !! q))
  /\ exists produced,
       outs = acc ++ produced
       /\ (length produced <= length found)%nat
       /\ Forall (reported E (fs w')) produced.
Proof.
  revert acc w. induction found as [|p rest IH]; intros acc w Hrun.
  - injection Hrun as <- <-. split; [auto|].
    exists []. rewrite app_nil_r. repeat split; [simpl; lia|constructor].
  - cbn [for_in] in Hrun. unfold bind at 1 in Hrun.
    destruct (folder_file E p acc w) as [[acc1|e] w1] eqn:Hp; [|discriminate Hrun].
    destruct (folder_file_reports p acc w acc1 w1 Hp) as [Hkeep1 Hone].
    destruct (IH acc1 w1 Hrun) as [Hkeep2 (produced & -> & Hlen & Hall)].
    split; [auto|].
    destruct Hone as [[-> _]|[-> Hrep]].
    + exists produced. repeat split; [simpl; lia|exact Hall].
    + exists (output_path E p :: produced). rewrite <- app_assoc.
      repeat split; [simpl; lia|].
      constructor; [|exact Hall]. apply (reported_kept (fs w1)); assumption.
Qed.

End Reports.

(** What [process_folder] returns are output paths of supported documents,
    each of them written, and no file is removed. *)
Lemma process_folder_reported (E : env) (folder_path : pystr) (w : world)
    (outs : list pystr) (w' : world) :
  process_folder E folder_path w = (Ok outs, w') ->
  Forall (reported E (fs w')) outs
  /\ (forall q, is_Some (fs w !! q) -> is_Some (fs w' !! q)).
Proof.
  unfold process_folder, SUPPORTED_EXTENSIONS. cbn [for_in].
  unfold bind at 1. cbv beta. unfold bind at 1, glob at 1.
  match goal with
  | |- context [for_in (folder_file E) ?found ?acc ?w0] =>
      destruct (for_in (folder_file E) found acc w0) as [[o1|e1] w1] eqn:H1
  end; [|discriminate].
  unfold bind at 1. cbv beta. unfold bind at 1, glob at 1.
  match goal with
  | |- context [for_in (folder_file E) ?found ?acc ?w0] =>
      destruct (for_in (folder_file E) found acc w0) as [[o2|e2] w2] eqn:H2
  end; [|discriminate].
  unfold bind at 1. cbv beta. unfold bind at 1, glob at 1.
  match goal with
  | |- context [for_in (folder_file E) ?found ?acc ?w0] =>
      destruct (for_in (folder_file E) found acc w0) as [[o3|e3] w3] eqn:H3
  end; [|discriminate].
  intros [= <- <-].
  destruct (folder_loop_reports E _ _ _ _ _ H1) as [K1 (p1 & -> & _ & A1)].
  destruct (folder_loop_reports E _ _ _ _ _ H2) as [K2 (p2 & -> & _ & A2)].
  destruct (folder_loop_reports E _ _ _ _ _ H3) as [K3 (p3 & -> & _ & A3)].
  split; [|auto].
  cbn [app]. rewrite !Forall_app. repeat split.
  - eapply Forall_impl; [exact A1|]. intros o Ho.
    apply (reported_kept E (fs w1)); [|exact Ho]. auto.
  - eapply Forall_impl; [exact A2|]. intros o Ho.
    apply (reported_kept E (fs w2)); [|exact Ho]. auto.
  - exact A3.
Qed.

(** X2.  When [process_folder] returns, every path of the list it returns
    is there on disk and is the output path [stem + "_alt" + ext] of a
    file whose extension is, up to letter case, one of the three supported
    ones; and every file that was there before the run is still there. *)
Theorem process_folder_reports (E : env) (folder_path : pystr) (w : world)
    (outs : list pystr) (w' : world) :
  process_folder E folder_path w = (Ok outs, w') ->
  Forall (reported E (fs w')) outs
  /\ (forall q, is_Some (fs w !! q) -> is_Some (fs w' !! q)).
Proof. apply process_folder_reported. Qed.

Lemma process_folder_reports_witness :
  Forall (reported Example2.E1
            (fs (snd (process_folder Example2.E1 (py "d") Example.w_folder))))
    [py "d/a_alt.pptx"; py "d/b_alt.docx"]
  /\ (forall q, is_Some (fs Example.w_folder !! q) ->
       is_Some (fs (snd (process_folder Example2.E1 (py "d") Example.w_folder)) !! q)).
Proof.
  apply (process_folder_reports Example2.E1 (py "d") Example.w_folder).
  vm_compute. reflexivity.
Defined.


(** ** More on the adapters *)

Lemma for_mut_pure_Forall2 {A St : Type} (calls : A -> nat)
    (step : nat -> A -> St -> A * St) (Q : A -> A -> Prop) :
  (forall n x st, Q x (fst (step n x st))) ->
  forall xs n st, Forall2 Q xs (fst (for_mut_pure calls step n xs st)).
Proof.
  intros HQ xs. induction xs as [|x r IH]; intros n st.
  - constructor.
  - rewrite for_mut_pure_cons. constructor; [apply HQ|apply IH].
Qed.

Lemma shape_step_unreadable (E : env) (n : nat) (sh : shape) (updated : bool) :
  image_blob sh = None -> fst (shape_step E n sh updated) = sh.
Proof.
  intros Hb. unfold shape_step.
  destruct (shape_image_cases sh) as [[_ ->]|[_ ->]]; [rewrite Hb|]; reflexivity.
Qed.


Lemma inline_requests_images (E : env) (doc : document) (l : list inline_shape) :
  flat_map (inline_requests E doc) l
  = map (request_for E) (omap (inline_image doc) l).
Proof.
  induction l as [|sh r IH]; [reflexivity|].
  simpl. rewrite IH. unfold inline_requests.
  destruct (inline_image doc sh); reflexivity.
Qed.

Lemma inline_step_keeps (E : env) (doc : document) (n : nat) (sh : inline_shape)
    (updated : bool) :
  graphic (fst (inline_step E doc n sh updated)) = graphic sh
  /\ (inline_image doc sh = None -> fst (inline_step E doc n sh updated) = sh).
Proof.
  unfold inline_step. destruct (inline_image doc sh) as [bs|].
  - destruct (xml_compatible (caption E n bs)); split;
      (reflexivity || discriminate).
  - split; reflexivity.
Qed.




(** ** More on the PDF adapter *)

Section PdfBoxes.

Variable E : env.

Lemma block_next_cases (n : nat) (b : block) (st : page * bool) :
  block_next E n b st = st
  \/ (exists image bbox,
        block_target b = Some (image, bbox) /\ block_calls b = 1%nat
        /\ block_next E n b st
           = (Page (blocks (fst st))
                (htmlboxes (fst st) ++ [(bbox, block_html E n image)]), true)).
Proof.
  unfold block_next, block_calls.
  destruct (block_target b) as [[image bbox]|]; [|left; reflexivity].
  destruct (htmlbox_accepts E bbox (block_html E n image)); [|left; reflexivity].
  right. exists image, bbox. repeat split.
Qed.

(** What a run over blocks adds to a page. *)
Lemma blocks_pure_boxes (bs : list block) (n : nat) (st : page * bool) :
  exists boxes,
    blocks (fst (for_in_pure block_calls (block_next E) n bs st)) = blocks (fst st)
    /\ htmlboxes (fst (for_in_pure block_calls (block_next E) n bs st))
       = htmlboxes (fst st) ++ boxes
    /\ (length boxes <= total_calls block_calls bs)%nat
    /\ (forall bbox html_text,
          (bbox, html_text) ∈ boxes ->
          exists b image alt_text,
            b ∈ bs /\ block_target b = Some (image, bbox)
            /\ html_text = py "<p>" ++ alt_text ++ py "</p>").
Proof.
  revert n st. induction bs as [|b r IH]; intros n st.
  - exists []. cbn. rewrite app_nil_r. repeat split; [lia|].
    intros bbox html_text Hin. apply elem_of_nil in Hin. contradiction.
  - cbn [for_in_pure].
    destruct (IH (n + block_calls b)%nat (block_next E n b st))
      as (boxes & Hb & Hh & Hlen & Hall).
    assert (Hrest : forall bbox html_text,
              (bbox, html_text) ∈ boxes ->
              exists b' image alt_text,
                b' ∈ b :: r /\ block_target b' = Some (image, bbox)
                /\ html_text = py "<p>" ++ alt_text ++ py "</p>").
    { intros bbox' html' Hin.
      destruct (Hall _ _ Hin) as (b' & im & alt & Hb' & Ht' & Hhtml).
      exists b', im, alt. split; [right; exact Hb'|]. split; assumption. }
    unfold total_calls. cbn [sum_list_with]. fold (total_calls block_calls r).
    destruct (block_next_cases n b st) as [Hsame|(image & bbox & Ht & Hc & Hnext)].
    + exists boxes. rewrite Hb, Hh, Hsame.
      repeat split; [lia|exact Hrest].
    + exists ((bbox, block_html E n image) :: boxes).
      rewrite Hb, Hh, Hnext. cbn [fst blocks htmlboxes].
      rewrite <- app_assoc. repeat split; [simpl; lia|].
      intros bbox' html' Hin. apply elem_of_cons in Hin.
      destruct Hin as [[= -> ->]|Hin]; [|apply Hrest, Hin].
      exists b, image, (caption E n image).
      split; [left|]. split; [exact Ht|reflexivity].
Qed.

End PdfBoxes.



(** X6.  A PDF that opens and holds, on some page, a block dictionary
    without its "type": the lookup is outside the [try], so [process_pdf]
    raises KeyError and writes no file, whatever it captioned before it
    came to that block. *)
Theorem process_pdf_block_without_type (E : env) (file_path : pystr) (w : world)
    (doc : pdf) (pg : page) (b : block) :
  fs w !! file_path = Some (PdfFile doc) ->
  pg ∈ doc -> b ∈ blocks pg -> b !! "type" = None ->
  exists w', process_pdf E file_path w = (Raise KeyError, w') /\ fs w' = fs w.
Proof.
  intros Hf Hpg Hb Hty. apply (process_pdf_untyped E file_path w doc Hf).
  intros Hall. rewrite Forall_forall in Hall.
  specialize (Hall pg Hpg). unfold typed_page in Hall.
  rewrite Forall_forall in Hall. destruct (Hall b Hb) as [ty Hsome].
  congruence.
Qed.

Lemma process_pdf_block_without_type_witness :
  exists w',
    process_pdf Example.E0 (py "d/c.pdf") Example3.w_untyped = (Raise KeyError, w')
    /\ fs w' = fs Example3.w_untyped
    /\ length (posts w') = 1%nat.
Proof.
  destruct (process_pdf_block_without_type Example.E0 (py "d/c.pdf")
              Example3.w_untyped Example3.pdf_untyped
              (Page [delete "type" (Example.image_block 40 40 72 72)] [])
              (delete "type" (Example.image_block 40 40 72 72)))
    as (w' & Hrun & Hfs).
  - vm_compute. reflexivity.
  - right. left.
  - left.
  - vm_compute. reflexivity.
  - exists w'. split; [exact Hrun|]. split; [exact Hfs|].
    assert (Hw : w' = snd (process_pdf Example.E0 (py "d/c.pdf") Example3.w_untyped))
      by (rewrite Hrun; reflexivity).
    rewrite Hw. vm_compute. reflexivity.
Defined.

(** ** More on the captioning client *)

Lemma reply_text_ok_body (o : http_outcome) (s : pystr) :
  reply_text o = Ok s ->
  exists status_code data,
    o = PostReturns status_code (Some data).
Proof.
  destruct o as [e|status_code [data|]]; cbn [reply_text].
  - discriminate.
  - intros _. exists status_code, data. reflexivity.
  - destruct ((400 <=? status_code) && (status_code <? 600)); discriminate.
Qed.

(** X7.  One call of [generate_alt_text] posts exactly one request, never
    raises and touches no file; there is no second try.  It logs one ERROR
    record and returns the placeholder exactly when the call fails;
    otherwise it logs nothing and returns the stripped content of a
    success response. *)
Theorem generate_alt_text_one_post (E : env) (image_bytes : pybytes) (w : world) :
  exists alt_text lg,
    generate_alt_text E image_bytes w
    = (Ok alt_text,
       World (fs w) (log w ++ lg) (posts w ++ [request_for E image_bytes]))
    /\ ((call_fails (server E (length (posts w)) (request_for E image_bytes))
         /\ alt_text = caption_error_text
         /\ exists e,
              lg = [(ERROR,
                     [Lit "代替テキストの生成中にエラーが発生しました: "; FExn e])])
        \/ (~ call_fails (server E (length (posts w)) (request_for E image_bytes))
            /\ lg = []
            /\ exists status_code data content,
                 server E (length (posts w)) (request_for E image_bytes)
                 = PostReturns status_code (Some data)
                 /\ status_ok status_code
                 /\ has_content data content
                 /\ alt_text = Str.strip content)).
Proof.
  exists (caption E (length (posts w)) image_bytes),
         (caption_log E (length (posts w)) image_bytes).
  split; [apply generate_alt_text_eq|].
  unfold caption, caption_log.
  destruct (reply_text (server E (length (posts w)) (request_for E image_bytes)))
    as [s|e] eqn:Hr.
  - right.
    destruct (reply_text_ok_body _ _ Hr) as (status_code & data & Ho).
    rewrite Ho in Hr |- *.
    destruct (reply_text_inv status_code data s Hr) as [Hok (content & Hc & ->)].
    split.
    + intros [Hbad|[Hnone|(data' & [= <-] & Hno)]].
      * exact (Hok Hbad).
      * discriminate Hnone.
      * exact (Hno content Hc).
    + split; [reflexivity|]. exists status_code, data, content.
      repeat split; assumption.
  - left. split.
    + destruct (server E (length (posts w)) (request_for E image_bytes))
        as [e'|status_code [data|]] eqn:Ho; cbn [call_fails]; [exact I| |].
      * destruct (Z_lt_dec status_code 400) as [Hlo|Hlo];
          [|destruct (Z_lt_dec status_code 600) as [Hhi|Hhi]; [left; lia|]].
        -- right. right. exists data. split; [reflexivity|].
           intros s Hs.
           rewrite (reply_text_content status_code data s) in Hr;
             [discriminate Hr|unfold status_ok; lia|exact Hs].
        -- right. right. exists data. split; [reflexivity|].
           intros s Hs.
           rewrite (reply_text_content status_code data s) in Hr;
             [discriminate Hr|unfold status_ok; lia|exact Hs].
      * right. left. reflexivity.
    + split; [reflexivity|]. exists e. reflexivity.
Qed.

(** X8.  Two images get the same request only if they are the same bytes:
    the request determines the image. *)
Theorem request_for_injective (E : env) (image1 image2 : pybytes) :
  request_for E image1 = request_for E image2 -> image1 = image2.
Proof.
  unfold request_for, payload. intros H.
  injection H as H.
  apply (f_equal Base64.b64decode) in H.
  rewrite !Base64Facts.b64decode_b64encode in H.
  injection H as H. exact H.
Qed.

Lemma request_for_injective_witness :
  Example.png1 = Example.png1.
Proof.
  apply (request_for_injective Example.E0 Example.png1 Example.png1).
  reflexivity.
Defined.

(** ** Captions that are blank or cannot be stored *)

Lemma lstrip_all_space (s : pystr) : all_space s -> Str.lstrip s = [].
Proof.
  unfold all_space. induction s as [|c r IH]; [reflexivity|].
  simpl. destruct (Str.isspace c); [exact IH|discriminate].
Qed.

Lemma strip_all_space (s : pystr) : all_space s -> Str.strip s = [].
Proof. intros H. unfold Str.strip. rewrite lstrip_all_space by exact H. reflexivity. Qed.

Lemma caption_of_content (E : env) (n : nat) (bs : pybytes) (status_code : Z)
    (data : json) (content : pystr) :
  server E n (request_for E bs) = PostReturns status_code (Some data) ->
  status_ok status_code -> has_content data content ->
  caption E n bs = Str.strip content.
Proof.
  intros Hsrv Hok Hc. unfold caption. rewrite Hsrv.
  rewrite (reply_text_content status_code data content Hok Hc). reflexivity.
Qed.

Lemma pptx_shape_picture (E : env) (sh : shape) (updated : bool) (w : world)
    (bs : pybytes) :
  shape_type sh = Ok (Some PICTURE) -> image_blob sh = Some bs ->
  exists lg,
    pptx_shape E sh updated w
    = (Ok (if xml_compatible (caption E (length (posts w)) bs)
           then (Shape (Ok (Some PICTURE)) (Some bs)
                   (Some (caption E (length (posts w)) bs)), true)
           else (sh, updated)),
       after_run w lg [request_for E bs]).
Proof.
  intros Ht Hb.
  destruct (pptx_shape_eq E sh updated w (ex_intro _ _ Ht)) as [lg H].
  exists lg. rewrite H. unfold shape_step, shape_requests.
  rewrite (shape_image_picture sh Ht), Ht, Hb. reflexivity.
Qed.

(** X9.  A picture for which the server answers with whitespace only: the
    answer is no failure, so the body of the shape loop stores the empty
    string as the description of the picture and marks the presentation
    updated. *)
Theorem blank_caption_is_stored (E : env) (sh : shape) (updated : bool)
    (w : world) (bs : pybytes) (status_code : Z) (data : json) (content : pystr) :
  shape_type sh = Ok (Some PICTURE) -> image_blob sh = Some bs ->
  server E (length (posts w)) (request_for E bs)
  = PostReturns status_code (Some data) ->
  status_ok status_code -> has_content data content -> all_space content ->
  exists w',
    pptx_shape E sh updated w = (Ok (Shape (Ok (Some PICTURE)) (Some bs) (Some []), true), w')
    /\ posts w' = posts w ++ [request_for E bs].
Proof.
  intros Ht Hb Hsrv Hok Hc Hblank.
  destruct (pptx_shape_picture E sh updated w bs Ht Hb) as [lg H].
  rewrite (caption_of_content E _ bs status_code data content Hsrv Hok Hc) in H.
  rewrite (strip_all_space content Hblank) in H.
  eexists. split; [exact H|reflexivity].
Qed.

Lemma blank_caption_is_stored_witness :
  exists w',
    pptx_shape Example3.E_blank (Shape (Ok (Some PICTURE)) (Some Example.png1) (Some (py "old")))
      false Example.w0
    = (Ok (Shape (Ok (Some PICTURE)) (Some Example.png1) (Some []), true), w')
    /\ posts w' = posts Example.w0 ++ [request_for Example3.E_blank Example.png1].
Proof.
  apply (blank_caption_is_stored Example3.E_blank
           (Shape (Ok (Some PICTURE)) (Some Example.png1) (Some (py "old"))) false Example.w0
           Example.png1 200 (Example.content_reply (py "   ")) (py "   ")).
  - reflexivity.
  - reflexivity.
  - reflexivity.
  - unfold status_ok. lia.
  - unfold has_content, Example.content_reply.
    eexists _, _, _, _. repeat split; reflexivity.
  - vm_compute. reflexivity.
Defined.

(** X10.  A picture for which the server answers with a caption the XML
    library refuses (a NUL or another control character inside it): the
    request was posted, but the description of the picture and the
    updated mark stay as they were; the failure stays inside the body of
    the shape loop. *)
Theorem refused_caption_is_dropped (E : env) (sh : shape) (updated : bool)
    (w : world) (bs : pybytes) (status_code : Z) (data : json) (content : pystr) :
  shape_type sh = Ok (Some PICTURE) -> image_blob sh = Some bs ->
  server E (length (posts w)) (request_for E bs)
  = PostReturns status_code (Some data) ->
  status_ok status_code -> has_content data content ->
  xml_compatible (Str.strip content) = false ->
  exists w',
    pptx_shape E sh updated w = (Ok (sh, updated), w')
    /\ posts w' = posts w ++ [request_for E bs]
    /\ fs w' = fs w.
Proof.
  intros Ht Hb Hsrv Hok Hc Hbad.
  destruct (pptx_shape_picture E sh updated w bs Ht Hb) as [lg H].
  rewrite (caption_of_content E _ bs status_code data content Hsrv Hok Hc) in H.
  rewrite Hbad in H.
  eexists. split; [exact H|]. split; reflexivity.
Qed.

Lemma refused_caption_is_dropped_witness :
  exists w',
    pptx_shape Example3.E_nul (Shape (Ok (Some PICTURE)) (Some Example.png1) (Some (py "old")))
      false Example.w0
    = (Ok (Shape (Ok (Some PICTURE)) (Some Example.png1) (Some (py "old")), false), w')
    /\ posts w' = posts Example.w0 ++ [request_for Example3.E_nul Example.png1]
    /\ fs w' = fs Example.w0.
Proof.
  apply (refused_caption_is_dropped Example3.E_nul
           (Shape (Ok (Some PICTURE)) (Some Example.png1) (Some (py "old"))) false Example.w0
           Example.png1 200 (Example.content_reply [97%N; 0%N; 98%N])
           [97%N; 0%N; 98%N]).
  - reflexivity.
  - reflexivity.
  - reflexivity.
  - unfold status_ok. lia.
  - unfold has_content, Example.content_reply.
    eexists _, _, _, _. repeat split; reflexivity.
  - vm_compute. reflexivity.
Defined.

Lemma pdf_block_target (E : env) (page_num : Z) (b : block) (pg : page)
    (updated : bool) (w : world) (bs : pybytes) (bbox : Rect) :
  typed b -> block_target b = Some (bs, bbox) ->
  exists lg,
    pdf_block E true page_num b (pg, updated) w
    = (Ok (if htmlbox_accepts E bbox (block_html E (length (posts w)) bs)
           then (Page (blocks pg)
                   (htmlboxes pg ++ [(bbox, block_html E (length (posts w)) bs)]),
                 true)
           else (pg, updated)),
       after_run w lg [request_for E bs]).
Proof.
  intros Hty Ht. destruct (pdf_block_eq E page_num b (pg, updated) w Hty) as [lg H].
  exists lg. rewrite H. unfold block_next, block_requests. rewrite Ht. reflexivity.
Qed.

(** X11.  An image block of a page of a PDF that passes the thresholds, the
    caption call for it failing: the text box inserted at its box holds
    "<p>" + placeholder + "</p>", visible text in the document, and the
    document counts as updated. *)
Theorem pdf_failed_caption_is_inserted (E : env) (page_num : Z) (b : block)
    (pg : page) (updated : bool) (w : world) (width height xres yres : Z)
    (bs : pybytes) (c0 c1 c2 c3 : Q) :
  b !! "type" = Some (PInt 1) ->
  b !! "width" = Some (PInt width) -> b !! "height" = Some (PInt height) ->
  b !! "xres" = Some (PInt xres) -> b !! "yres" = Some (PInt yres) ->
  b !! "image" = Some (PBytes bs) ->
  b !! "bbox" = Some (PSeq [c0; c1; c2; c3]) ->
  20 <= width -> 20 <= height -> 36 <= xres -> 36 <= yres ->
  call_fails (server E (length (posts w)) (request_for E bs)) ->
  htmlbox_accepts E (MkRect c0 c1 c2 c3)
    (py "<p>" ++ caption_error_text ++ py "</p>") = true ->
  exists w',
    pdf_block E true page_num b (pg, updated) w
    = (Ok (Page (blocks pg)
             (htmlboxes pg
              ++ [(MkRect c0 c1 c2 c3, py "<p>" ++ caption_error_text ++ py "</p>")]),
           true), w')
    /\ posts w' = posts w ++ [request_for E bs].
Proof.
  intros Hty Hw Hh Hx Hy Hi Hb H1 H2 H3 H4 Hfail Hacc.
  pose proof (block_target_of_ints b width height xres yres bs c0 c1 c2 c3
                Hty Hw Hh Hx Hy Hi Hb) as Ht.
  assert ((20 <=? width) && (20 <=? height) && (36 <=? xres) && (36 <=? yres) = true)
    as Hpass by (rewrite !andb_true_iff, !Z.leb_le; tauto).
  rewrite Hpass in Ht.
  destruct (pdf_block_target E page_num b pg updated w bs _ (ex_intro _ _ Hty) Ht)
    as [lg H].
  unfold block_html in H. rewrite (caption_of_failure E _ _ Hfail), Hacc in H.
  eexists. split; [exact H|reflexivity].
Qed.

Lemma pdf_failed_caption_is_inserted_witness :
  exists w',
    pdf_block Example.E0 true 0 (Example.image_block 40 40 72 72)
      (Example.page0, false) Example.w0
    = (Ok (Page []
             [(MkRect (0#1) (0#1) (72#1) (72#1),
               py "<p>" ++ caption_error_text ++ py "</p>")],
           true), w')
    /\ posts w' = posts Example.w0 ++ [request_for Example.E0 Example.png1].
Proof.
  apply (pdf_failed_caption_is_inserted Example.E0 0
           (Example.image_block 40 40 72 72) Example.page0 false Example.w0
           40 40 72 72 Example.png1 (0#1)%Q (0#1)%Q (72#1)%Q (72#1)%Q);
    try reflexivity; try lia.
Defined.

(** X12.  An image block that passes the thresholds, at a box the PDF library
    refuses or on a page of a document that is not a PDF: the caption
    request was posted before the insertion was tried, nothing is inserted
    and the updated mark stays as it was. *)
Theorem pdf_refused_box_costs_a_call (E : env) (is_pdf : bool) (page_num : Z)
    (b : block) (pg : page) (updated : bool) (w : world) (bs : pybytes)
    (bbox : Rect) :
  typed b -> block_target b = Some (bs, bbox) ->
  is_pdf = false \/ (forall html_text, htmlbox_accepts E bbox html_text = false) ->
  exists w',
    pdf_block E is_pdf page_num b (pg, updated) w = (Ok (pg, updated), w')
    /\ posts w' = posts w ++ [request_for E bs]
    /\ fs w' = fs w.
Proof.
  intros Hty Ht Href.
  assert (Hnot : exists lg,
            pdf_block E false page_num b (pg, updated) w
            = (Ok (pg, updated), after_run w lg [request_for E bs])).
  { destruct (pdf_block_not_pdf E page_num b (pg, updated) w Hty) as [lg H].
    exists lg. rewrite H. unfold block_requests. rewrite Ht. reflexivity. }
  destruct is_pdf.
  - destruct Href as [Href|Href]; [discriminate Href|].
    destruct (pdf_block_target E page_num b pg updated w bs bbox Hty Ht) as [lg H].
    rewrite Href in H. eexists. split; [exact H|]. split; reflexivity.
  - destruct Hnot as [lg H]. eexists. split; [exact H|]. split; reflexivity.
Qed.

Lemma pdf_refused_box_costs_a_call_witness :
  exists w',
    pdf_block Example3.E_refuse true 0 (Example.image_block 40 40 72 72)
      (Example.page0, false) Example.w0
    = (Ok (Example.page0, false), w')
    /\ posts w' = posts Example.w0 ++ [request_for Example3.E_refuse Example.png1]
    /\ fs w' = fs Example.w0.
Proof.
  apply (pdf_refused_box_costs_a_call Example3.E_refuse true 0
           (Example.image_block 40 40 72 72) Example.page0 false Example.w0
           Example.png1 (MkRect (0#1) (0#1) (72#1) (72#1))).
  - eexists. vm_compute. reflexivity.
  - vm_compute. reflexivity.
  - right. intros html_text. reflexivity.
Defined.

(** ** More on paths *)

Module PathShape.
Import Str OsPath PathFacts.

Lemma rfind_upper (p : pystr) (c : N) : rfind p c < Z.of_nat (length p).
Proof.
  destruct (rfind_split p c) as [[-> _]|(pre & post & -> & -> & _)].
  - lia.
  - rewrite length_app. simpl. lia.
Qed.

Lemma sep_index_upper (p : pystr) (sep : N) (altsep : option N) :
  sep_index p sep altsep < Z.of_nat (length p).
Proof.
  unfold sep_index. pose proof (rfind_upper p sep).
  destruct altsep as [a|]; [pose proof (rfind_upper p a)|]; lia.
Qed.

Lemma sep_index_bounds_rfind (p : pystr) (sep : N) (altsep : option N) (c : N) :
  c = sep \/ altsep = Some c -> rfind p c <= sep_index p sep altsep.
Proof.
  unfold sep_index. intros [-> | ->]; [destruct altsep|]; lia.
Qed.

(** The two ways [_splitext] ends: no extension, or the split at the last
    dot, a dot after the last separator and after a character of the name
    that is no dot. *)
Lemma splitext_shape (p : pystr) (sep : N) (altsep : option N) :
  _splitext p sep altsep = (p, [])
  \/ (exists pre post,
        p = pre ++ extsep :: post
        /\ _splitext p sep altsep = (pre, extsep :: post)
        /\ (extsep ∉ post)
        /\ sep_index p sep altsep + 1 < Z.of_nat (length pre)).
Proof.
  rewrite splitext_unfold.
  destruct (sep_index p sep altsep <? rfind p extsep) eqn:Hlt; [|left; reflexivity].
  apply Z.ltb_lt in Hlt.
  pose proof (sep_index_lower p sep altsep) as Hlow.
  destruct (rfind_split p extsep) as [[Hd _]|(pre & post & Hpre & Hd & Hn)]; [lia|].
  assert (Hlenp : (length pre < length p)%nat)
    by (rewrite Hpre, length_app; simpl; lia).
  destruct (skip_cases (length p) p (sep_index p sep altsep + 1) (rfind p extsep))
    as [Hall|(k & Hk & Hkd & Hdots & Hnot)]; [lia| |].
  - left. apply skip_all_dots, Hall.
  - right. exists pre, post. split; [exact Hpre|].
    rewrite (skip_found k _ p _ _ Hk Hkd Hdots Hnot).
    rewrite Hd, Nat2Z.id.
    assert (Htake : take (length pre) p = pre)
      by (rewrite Hpre; apply take_app_length).
    assert (Hdrop : drop (length pre) p = extsep :: post)
      by (rewrite Hpre; apply drop_app_length).
    rewrite Htake, Hdrop. repeat split; [exact Hn|lia].
Qed.

End PathShape.

(** X13.  The extension [os.path.splitext] gives is empty, or it is a dot
    followed by characters among which there is no dot and no path
    separator, and then the stem is not empty. *)
Theorem splitext_extension_shape (E : env) (p : pystr) :
  snd (splitext E p) = []
  \/ (exists rest,
        snd (splitext E p) = OsPath.extsep :: rest
        /\ (OsPath.extsep ∉ rest)
        /\ (os_sep (os E) ∉ rest)
        /\ (forall a, os_altsep (os E) = Some a -> a ∉ rest)
        /\ fst (splitext E p) <> []).
Proof.
  unfold splitext.
  destruct (PathShape.splitext_shape p (os_sep (os E)) (os_altsep (os E)))
    as [->|(pre & post & Hpre & -> & Hn & Hs)]; [left; reflexivity|].
  right. exists post. cbn [fst snd].
  assert (Hnosep : forall c, c = os_sep (os E) \/ os_altsep (os E) = Some c ->
                             c ∉ post).
  { intros c Hc Hin.
    pose proof (PathShape.sep_index_bounds_rfind p _ _ c Hc) as Hle.
    rewrite Hpre in Hle at 1.
    pose proof (PathFacts.rfind_ge_of_in pre (OsPath.extsep :: post) c
                  ltac:(right; exact Hin)) as Hge.
    lia. }
  split; [reflexivity|]. split; [exact Hn|].
  split; [apply Hnosep; left; reflexivity|].
  split; [intros a Ha; apply Hnosep; right; exact Ha|].
  intros ->. pose proof (PathFacts.sep_index_lower p (os_sep (os E)) (os_altsep (os E))).
  simpl in Hs. lia.
Qed.

(** X14.  The output path lies in the directory of the input path: the last
    separator is at the same place in both, and the two paths agree up to
    and including it. *)
Theorem output_path_same_directory (E : env) (p : pystr) :
  let s := sep_index p (os_sep (os E)) (os_altsep (os E)) in
  sep_index (output_path E p) (os_sep (os E)) (os_altsep (os E)) = s
  /\ take (Z.to_nat (s + 1)) (output_path E p) = take (Z.to_nat (s + 1)) p.
Proof.
  intros s. subst s. unfold output_path, splitext.
  assert (Hsep : os_sep (os E) ∉ py "_alt")
    by (destruct (os E); apply not_in_alt; discriminate).
  assert (Halt : forall a, os_altsep (os E) = Some a -> a ∉ py "_alt")
    by (destruct (os E); intros a [= <-]; apply not_in_alt; discriminate).
  pose proof (PathShape.sep_index_upper p (os_sep (os E)) (os_altsep (os E))) as Hup.
  pose proof (PathFacts.sep_index_lower p (os_sep (os E)) (os_altsep (os E))) as Hlow.
  destruct (PathShape.splitext_shape p (os_sep (os E)) (os_altsep (os E)))
    as [->|(pre & post & Hpre & -> & Hn & Hs)]; cbn [fst snd].
  - rewrite app_nil_r.
    rewrite (PathFacts.sep_index_app _ _ _ Hsep Halt). split; [reflexivity|].
    apply take_app_le. lia.
  - assert (Hidx : sep_index (pre ++ py "_alt" ++ OsPath.extsep :: post)
                     (os_sep (os E)) (os_altsep (os E))
                   = sep_index p (os_sep (os E)) (os_altsep (os E))).
    { rewrite Hpre. apply (PathFacts.sep_index_insert _ _ _ Hsep Halt).
      rewrite <- Hpre. lia. }
    split; [exact Hidx|].
    set (n := Z.to_nat (sep_index p (os_sep (os E)) (os_altsep (os E)) + 1)) in *.
    assert (Hle : (n <= length pre)%nat) by lia.
    rewrite Hpre. rewrite !take_app_le by exact Hle. reflexivity.
Qed.

Lemma slice_of_lookup (p : pystr) (i : Z) (c : N) :
  0 <= i -> p !! Z.to_nat i = Some c -> Str.slice p i (i + 1) = [c].
Proof.
  intros Hi Hc. unfold Str.slice.
  replace (Z.to_nat (i + 1 - i)) with 1%nat by lia.
  rewrite (drop_S _ _ _ Hc). reflexivity.
Qed.

Lemma not_in_replicate (c x : N) (n : nat) : c <> x -> c ∉ replicate n x.
Proof.
  intros Hne Hin. apply elem_of_replicate in Hin. destruct Hin as [-> _].
  contradiction.
Qed.

(** X15.  A file name that starts with dots and has no other dot, such as
    ".pptx" in some directory, has no extension for [os.path.splitext]:
    [process_file] logs the warning and returns nothing for it, without
    opening the file. *)
Theorem dot_file_has_no_extension (E : env) (dir name : pystr) (n : nat)
    (w : world) :
  dir = []
  \/ (exists d0 c, dir = d0 ++ [c]
                   /\ (c = os_sep (os E) \/ os_altsep (os E) = Some c)) ->
  (1 <= n)%nat ->
  OsPath.extsep ∉ name ->
  os_sep (os E) ∉ name ->
  (forall a, os_altsep (os E) = Some a -> a ∉ name) ->
  let p := dir ++ replicate n OsPath.extsep ++ name in
  splitext E p = (p, [])
  /\ process_file E p w
     = (Ok None,
        World (fs w)
          (log w ++ [(WARNING, [Lit "Unsupported file type: "; FStr p])])
          (posts w)).
Proof.
  intros Hdir Hn Hdot Hsep Halt p.
  assert (Hsplit : splitext E p = (p, [])).
  { unfold splitext. rewrite PathFacts.splitext_unfold.
    assert (Hd : Str.rfind p OsPath.extsep = Z.of_nat (length dir + n) - 1).
    { subst p. destruct n as [|m]; [lia|].
      replace (replicate (S m) OsPath.extsep)
        with (replicate m OsPath.extsep ++ [OsPath.extsep])
        by (rewrite <- replicate_cons_app; reflexivity).
      rewrite <- app_assoc. cbn [app]. rewrite app_assoc.
      rewrite PathFacts.rfind_of_split by exact Hdot.
      rewrite length_app, length_replicate. lia. }
    assert (Hnosep : forall c, c = os_sep (os E) \/ os_altsep (os E) = Some c ->
                       c ∉ replicate n OsPath.extsep ++ name).
    { intros c Hc. apply not_elem_of_app. split.
      - apply not_in_replicate.
        destruct Hc as [-> | Hc]; destruct (os E); try discriminate.
        injection Hc as <-. discriminate.
      - destruct Hc as [-> | Hc]; [exact Hsep|exact (Halt c Hc)]. }
    assert (Hs : sep_index p (os_sep (os E)) (os_altsep (os E))
                 = Z.of_nat (length dir) - 1).
    { assert (Hrf : forall c, c = os_sep (os E) \/ os_altsep (os E) = Some c ->
                      Str.rfind p c = Str.rfind dir c).
      { intros c Hc. subst p. apply PathFacts.rfind_app_notin, Hnosep, Hc. }
      assert (Hle : forall c, Str.rfind dir c <= Z.of_nat (length dir) - 1).
      { intros c. pose proof (PathShape.rfind_upper dir c). lia. }
      assert (Hlast : forall d0 c, dir = d0 ++ [c] ->
                        Str.rfind dir c = Z.of_nat (length dir) - 1).
      { intros d0 c ->. rewrite PathFacts.rfind_of_split by apply not_elem_of_nil.
        rewrite length_app. simpl. lia. }
      unfold sep_index.
      destruct (os_altsep (os E)) as [a|] eqn:Ha.
      - rewrite (Hrf (os_sep (os E))) by (left; reflexivity).
        rewrite (Hrf a) by (right; reflexivity).
        pose proof (Hle (os_sep (os E))). pose proof (Hle a).
        destruct Hdir as [->|(d0 & c & Hd0 & [-> | [= ->]])].
        + cbn. reflexivity.
        + pose proof (Hlast d0 _ Hd0). lia.
        + pose proof (Hlast d0 _ Hd0). lia.
      - rewrite (Hrf (os_sep (os E))) by (left; reflexivity).
        destruct Hdir as [->|(d0 & c & Hd0 & [-> | Hc])].
        + cbn. reflexivity.
        + apply (Hlast d0 _ Hd0).
        + discriminate Hc. }
    rewrite Hs, Hd.
    assert ((Z.of_nat (length dir) - 1 <? Z.of_nat (length dir + n) - 1) = true)
      as -> by (apply Z.ltb_lt; lia).
    apply PathFacts.skip_all_dots. intros i Hi. unfold dot_at.
    apply slice_of_lookup; [lia|]. subst p.
    rewrite lookup_app_r by lia.
    rewrite lookup_app_l by (rewrite length_replicate; lia).
    apply lookup_replicate_2. lia. }
  split; [exact Hsplit|].
  destruct (process_file_cases E p w) as [(fmt & Hext & _)|[_ ->]].
  - rewrite Hsplit in Hext. destruct fmt; vm_compute in Hext; discriminate Hext.
  - unfold after_run. rewrite app_nil_r. reflexivity.
Qed.

Lemma dot_file_has_no_extension_witness :
  splitext Example.E0 (py "d/.pptx") = (py "d/.pptx", [])
  /\ process_file Example.E0 (py "d/.pptx") Example.w0
     = (Ok None,
        World (fs Example.w0)
          (log Example.w0
           ++ [(WARNING, [Lit "Unsupported file type: "; FStr (py "d/.pptx")])])
          (posts Example.w0)).
Proof.
  apply (dot_file_has_no_extension Example.E0 (py "d/") (py "pptx") 1 Example.w0).
  - right. exists (py "d"), 47%N. split; [reflexivity|left; reflexivity].
  - lia.
  - intros H. apply list_elem_of_In in H. vm_compute in H. intuition discriminate.
  - intros H. apply list_elem_of_In in H. vm_compute in H. intuition discriminate.
  - intros a [=].
Defined.

(** ** The log level *)

Lemma str_upper_ascii (unicode_upper : N -> pystr) (s : pystr) :
  Forall (fun c => (c < 128)%N) s ->
  str_upper unicode_upper s
  = map (fun c => if ((97 <=? c) && (c <=? 122))%N then (c - 32)%N else c) s.
Proof.
  intros H. induction H as [|c r Hc Hr IH]; [reflexivity|].
  unfold str_upper in *. cbn [flat_map map]. rewrite IH. unfold upper_char.
  destruct ((97 <=? c) && (c <=? 122))%N; [reflexivity|].
  assert ((c <? 128)%N = true) as -> by (apply N.ltb_lt; exact Hc). reflexivity.
Qed.

Lemma lower_of_upper (s : pystr) :
  Str.lower (map (fun c => if ((97 <=? c) && (c <=? 122))%N then (c - 32)%N else c) s)
  = Str.lower s.
Proof.
  unfold Str.lower. rewrite map_map. apply map_ext. intros c.
  unfold Str.lower_char.
  destruct ((97 <=? c) && (c <=? 122))%N eqn:H1.
  - apply andb_true_iff in H1. destruct H1 as [Ha Hb].
    apply N.leb_le in Ha, Hb.
    assert (((65 <=? c - 32) && (c - 32 <=? 90))%N = true) as ->
      by (apply andb_true_iff; split; apply N.leb_le; lia).
    assert (((65 <=? c) && (c <=? 90))%N = false) as ->
      by (apply andb_false_iff; right; apply N.leb_gt; lia).
    lia.
  - reflexivity.
Qed.

Lemma upper_of_lower (s : pystr) :
  map (fun c => if ((97 <=? c) && (c <=? 122))%N then (c - 32)%N else c) (Str.lower s)
  = map (fun c => if ((97 <=? c) && (c <=? 122))%N then (c - 32)%N else c) s.
Proof.
  unfold Str.lower. rewrite map_map. apply map_ext. intros c.
  unfold Str.lower_char.
  destruct ((65 <=? c) && (c <=? 90))%N eqn:H1.
  - apply andb_true_iff in H1. destruct H1 as [Ha Hb].
    apply N.leb_le in Ha, Hb.
    assert (((97 <=? c + 32) && (c + 32 <=? 122))%N = true) as ->
      by (apply andb_true_iff; split; apply N.leb_le; lia).
    assert (((97 <=? c) && (c <=? 122))%N = false) as ->
      by (apply andb_false_iff; left; apply N.leb_gt; lia).
    lia.
  - reflexivity.
Qed.

(** The upper-case form of an ASCII name is a key exactly when its
    lower-case form is the key in small letters. *)
Lemma upper_is_key (unicode_upper : N -> pystr) (s key small : pystr) :
  Forall (fun c => (c < 128)%N) s ->
  map (fun c => if ((97 <=? c) && (c <=? 122))%N then (c - 32)%N else c) small = key ->
  Str.lower key = small ->
  str_upper unicode_upper s = key <-> Str.lower s = small.
Proof.
  intros Hs Hup Hlow. rewrite (str_upper_ascii _ s Hs). split; intros H.
  - rewrite <- (lower_of_upper s), H. exact Hlow.
  - rewrite <- (upper_of_lower s), H. exact Hup.
Qed.

(** X16.  For a level name of ASCII characters [get_log_level] does not look
    at the letter case: it gives DEBUG, INFO, WARNING, ERROR or CRITICAL
    when the name in small letters is "debug", "info", "warning", "error"
    or "critical", and INFO for every other name. *)
Theorem get_log_level_ignores_case (unicode_upper : N -> pystr) (s : pystr) :
  Forall (fun c => (c < 128)%N) s ->
  get_log_level unicode_upper s
  = if Str.eqb (Str.lower s) (py "debug") then logging_DEBUG
    else if Str.eqb (Str.lower s) (py "info") then logging_INFO
    else if Str.eqb (Str.lower s) (py "warning") then logging_WARNING
    else if Str.eqb (Str.lower s) (py "error") then logging_ERROR
    else if Str.eqb (Str.lower s) (py "critical") then logging_CRITICAL
    else logging_INFO.
Proof.
  intros Hs. unfold get_log_level, Str.eqb.
  pose proof (upper_is_key unicode_upper s (py "DEBUG") (py "debug") Hs
                eq_refl eq_refl) as K1.
  pose proof (upper_is_key unicode_upper s (py "INFO") (py "info") Hs
                eq_refl eq_refl) as K2.
  pose proof (upper_is_key unicode_upper s (py "WARNING") (py "warning") Hs
                eq_refl eq_refl) as K3.
  pose proof (upper_is_key unicode_upper s (py "ERROR") (py "error") Hs
                eq_refl eq_refl) as K4.
  pose proof (upper_is_key unicode_upper s (py "CRITICAL") (py "critical") Hs
                eq_refl eq_refl) as K5.
  set (k := str_upper unicode_upper s) in *.
  destruct (decide (Str.lower s = py "debug")) as [H1|H1].
  { rewrite bool_decide_eq_true_2 by exact H1.
    apply K1 in H1. rewrite <- H1, lookup_insert_eq. reflexivity. }
  rewrite bool_decide_eq_false_2 by exact H1.
  rewrite lookup_insert_ne by (intros Hk; apply H1, K1; symmetry; exact Hk).
  destruct (decide (Str.lower s = py "info")) as [H2|H2].
  { rewrite bool_decide_eq_true_2 by exact H2.
    apply K2 in H2. rewrite <- H2, lookup_insert_eq. reflexivity. }
  rewrite bool_decide_eq_false_2 by exact H2.
  rewrite lookup_insert_ne by (intros Hk; apply H2, K2; symmetry; exact Hk).
  destruct (decide (Str.lower s = py "warning")) as [H3|H3].
  { rewrite bool_decide_eq_true_2 by exact H3.
    apply K3 in H3. rewrite <- H3, lookup_insert_eq. reflexivity. }
  rewrite bool_decide_eq_false_2 by exact H3.
  rewrite lookup_insert_ne by (intros Hk; apply H3, K3; symmetry; exact Hk).
  destruct (decide (Str.lower s = py "error")) as [H4|H4].
  { rewrite bool_decide_eq_true_2 by exact H4.
    apply K4 in H4. rewrite <- H4, lookup_insert_eq. reflexivity. }
  rewrite bool_decide_eq_false_2 by exact H4.
  rewrite lookup_insert_ne by (intros Hk; apply H4, K4; symmetry; exact Hk).
  destruct (decide (Str.lower s = py "critical")) as [H5|H5].
  { rewrite bool_decide_eq_true_2 by exact H5.
    apply K5 in H5. rewrite <- H5, lookup_insert_eq. reflexivity. }
  rewrite bool_decide_eq_false_2 by exact H5.
  rewrite lookup_insert_ne by (intros Hk; apply H5, K5; symmetry; exact Hk).
  rewrite lookup_empty. reflexivity.
Qed.

Lemma get_log_level_ignores_case_witness :
  get_log_level (fun c => [c]) (py "Warning") = logging_WARNING.
Proof.
  rewrite (get_log_level_ignores_case (fun c => [c]) (py "Warning")).
  - reflexivity.
  - repeat constructor.
Defined.

(** ** The start button *)

Section Button.

Variable E : env.
Variable os_path_isdir : gmap pystr file -> pystr -> bool.

(** With a path selected, the callback is the run of [process_folder] or
    of [process_file], followed by one dialog. *)
Lemma process_action_run (g : gui) (w : world) :
  selected_path g <> [] ->
  process_action E os_path_isdir g w
  = match (if os_path_isdir (fs w) (selected_path g)
           then process_folder E (selected_path g) w
           else match process_file E (selected_path g) w with
                | (Ok output, w') =>
                    (Ok (if truthy output then option_list output else []), w')
                | (Raise e, w') => (Raise e, w')
                end) with
    | (Ok [], w') =>
        (Ok (Gui (selected_path g) (py "⚠️ The target document was not found.")
               (dialogs g
                ++ [showwarning (py "Complete") (py "Target document not found.")])),
         w')
    | (Ok (o :: r), w') =>
        (Ok (Gui (selected_path g)
               (py "✅ Processing complete:" ++ [10%N] ++ str_join [10%N] (o :: r))
               (dialogs g
                ++ [showinfo (py "Complete")
                      (py "Alternative text embedding has finished.")])),
         w')
    | (Raise e, w') => (Raise e, w')
    end.
Proof.
  intros Hsel. unfold process_action.
  destruct (selected_path g) as [|c p] eqn:Hp; [contradiction|].
  unfold bind at 1, isdir at 1. cbv beta iota.
  destruct (os_path_isdir (fs w) (c :: p)).
  - unfold bind at 1.
    destruct (process_folder E (c :: p) w) as [[[|o r]|e] w']; reflexivity.
  - unfold bind at 1. unfold bind at 1.
    destruct (process_file E (c :: p) w) as [[output|e] w']; [|reflexivity].
    destruct (truthy output); cbn [app]; unfold ret;
      [destruct (option_list output)|]; reflexivity.
Qed.

Lemma process_action_document (g : gui) (w : world) (fmt : format) (f : file) :
  selected_path g <> [] ->
  os_path_isdir (fs w) (selected_path g) = false ->
  Str.lower (snd (splitext E (selected_path g))) = extension fmt ->
  fs w !! selected_path g = Some f ->
  readable_as fmt f ->
  exists f' k lg,
    k = captioned E fmt (length (posts w)) f
    /\ file_updates fmt f f' k
    /\ process_action E os_path_isdir g w
       = if (0 <? k)%nat then
           (Ok (Gui (selected_path g)
                  (py "✅ Processing complete:" ++ [10%N]
                   ++ output_path E (selected_path g))
                  (dialogs g
                   ++ [showinfo (py "Complete")
                         (py "Alternative text embedding has finished.")])),
            World (<[output_path E (selected_path g) := f']> (fs w))
              (log w ++ lg) (posts w ++ adapter_requests E fmt f))
         else
           (Ok (Gui (selected_path g) (py "⚠️ The target document was not found.")
                  (dialogs g
                   ++ [showwarning (py "Complete")
                         (py "Target document not found.")])),
            World (fs w) (log w ++ lg) (posts w ++ adapter_requests E fmt f)).
Proof.
  intros Hsel Hdir Hext Hf Hr.
  rewrite (process_action_run g w Hsel), Hdir.
  destruct (process_file_cases E (selected_path g) w)
    as [(fmt' & Hext' & ->)|[Hno _]]; [|exfalso; exact (Hno fmt Hext)].
  rewrite Hext in Hext'. apply extension_inj in Hext'. subst fmt'.
  destruct (adapter_eq E fmt (selected_path g) w f Hf Hr) as [lg ->].
  destruct (adapter_pure_captioned E fmt (length (posts w)) f Hr) as [Hk Hupd].
  exists (fst (adapter_pure E fmt (length (posts w)) f)),
    (captioned E fmt (length (posts w)) f), lg.
  split; [reflexivity|]. split; [exact Hk|].
  rewrite Hupd. destruct (0 <? captioned E fmt (length (posts w)) f)%nat;
    cbn [returned files_after].
  - rewrite output_path_truthy.
    cbv beta iota delta [option_list option_rect str_join flat_map].
    rewrite app_nil_r. reflexivity.
  - reflexivity.
Qed.

End Button.



(** X18.  The start button on a single file that the library of its
    extension cannot open (a missing file, a file that is not a document of
    the format and, for a PDF name, not one of the other files PyMuPDF reads
    either): the exception of [process_file] leaves the callback, so neither
    the result line is set nor a dialog shown; no file is written and
    nothing is posted. *)
Theorem process_action_unreadable_document (E : env)
    (os_path_isdir : gmap pystr file -> pystr -> bool) (g : gui) (w : world)
    (fmt : format) :
  selected_path g <> [] ->
  os_path_isdir (fs w) (selected_path g) = false ->
  Str.lower (snd (splitext E (selected_path g))) = extension fmt ->
  open_fails E fmt (fs w !! selected_path g) ->
  exists e w',
    process_action E os_path_isdir g w = (Raise e, w')
    /\ fs w' = fs w /\ posts w' = posts w.
Proof.
  intros Hsel Hdir Hext Hbad.
  rewrite (process_action_run E os_path_isdir g w Hsel), Hdir.
  destruct (process_file_open_fails E (selected_path g) w fmt Hext Hbad)
    as (e & w' & -> & Hfs & Hposts).
  exists e, w'. repeat split; assumption.
Qed.

Lemma process_action_unreadable_document_witness :
  exists e w',
    process_action Example.E0 Example3.isdir_never (Gui (py "d/a.pptx") [] [])
      Example.w_broken = (Raise e, w')
    /\ fs w' = fs Example.w_broken /\ posts w' = posts Example.w_broken.
Proof.
  apply (process_action_unreadable_document Example.E0 Example3.isdir_never
           (Gui (py "d/a.pptx") [] []) Example.w_broken PPTX).
  - discriminate.
  - reflexivity.
  - vm_compute. reflexivity.
  - vm_compute. exact I.
Defined.

(** X19.  The start button on a single file whose extension is none of
    .pptx, .docx and .pdf in any letter case: the file is not opened, the
    warning "Unsupported file type" is logged, and the window and the
    warning dialog say that the target document was not found. *)
Theorem process_action_unsupported_file (E : env)
    (os_path_isdir : gmap pystr file -> pystr -> bool) (g : gui) (w : world) :
  selected_path g <> [] ->
  os_path_isdir (fs w) (selected_path g) = false ->
  (forall fmt, Str.lower (snd (splitext E (selected_path g))) <> extension fmt) ->
  process_action E os_path_isdir g w
  = (Ok (Gui (selected_path g) (py "⚠️ The target document was not found.")
           (dialogs g
            ++ [showwarning (py "Complete") (py "Target document not found.")])),
     World (fs w)
       (log w ++ [(WARNING, [Lit "Unsupported file type: "; FStr (selected_path g)])])
       (posts w)).
Proof.
  intros Hsel Hdir Hno.
  rewrite (process_action_run E os_path_isdir g w Hsel), Hdir.
  destruct (process_file_cases E (selected_path g) w)
    as [(fmt & Hext & _)|[_ ->]]; [exfalso; exact (Hno fmt Hext)|].
  unfold after_run. rewrite app_nil_r. reflexivity.
Qed.

Lemma process_action_unsupported_file_witness :
  process_action Example.E0 Example3.isdir_never (Gui (py "d/notes.txt") [] [])
    Example.w0
  = (Ok (Gui (py "d/notes.txt") (py "⚠️ The target document was not found.")
           ([] ++ [showwarning (py "Complete") (py "Target document not found.")])),
     World (fs Example.w0)
       (log Example.w0
        ++ [(WARNING, [Lit "Unsupported file type: "; FStr (py "d/notes.txt")])])
       (posts Example.w0)).
Proof.
  apply (process_action_unsupported_file Example.E0 Example3.isdir_never
           (Gui (py "d/notes.txt") [] []) Example.w0).
  - discriminate.
  - reflexivity.
  - intros fmt H. destruct fmt; vm_compute in H; discriminate H.
Defined.

(** X20.  The start button on a folder: when [process_folder] returns, the
    window lists what it returned, one path a line under the heading, and
    the information dialog follows; every path listed is the output path of
    a supported document and is on disk.  When it returned nothing, the
    window and the warning dialog say that the target document was not
    found. *)
Theorem process_action_folder (E : env)
    (os_path_isdir : gmap pystr file -> pystr -> bool) (g : gui) (w : world)
    (outs : list pystr) (w' : world) :
  selected_path g <> [] ->
  os_path_isdir (fs w) (selected_path g) = true ->
  process_folder E (selected_path g) w = (Ok outs, w') ->
  Forall (reported E (fs w')) outs
  /\ process_action E os_path_isdir g w
     = (Ok (Gui (selected_path g)
              (match outs with
               | [] => py "⚠️ The target document was not found."
               | _ :: _ =>
                   py "✅ Processing complete:" ++ [10%N] ++ str_join [10%N] outs
               end)
              (dialogs g
               ++ [match outs with
                   | [] => showwarning (py "Complete") (py "Target document not found.")
                   | _ :: _ =>
                       showinfo (py "Complete")
                         (py "Alternative text embedding has finished.")
                   end])),
        w').
Proof.
  intros Hsel Hdir Hrun.
  split; [exact (proj1 (process_folder_reported E _ w outs w' Hrun))|].
  rewrite (process_action_run E os_path_isdir g w Hsel), Hdir, Hrun.
  destruct outs; reflexivity.
Qed.

Lemma process_action_folder_witness :
  Forall (reported Example2.E1
            (fs (snd (process_folder Example2.E1 (py "d") Example.w_folder))))
    [py "d/a_alt.pptx"; py "d/b_alt.docx"]
  /\ process_action Example2.E1 Example3.isdir_always (Gui (py "d") [] [])
       Example.w_folder
     = (Ok (Gui (py "d")
              (py "✅ Processing complete:" ++ [10%N]
               ++ str_join [10%N] [py "d/a_alt.pptx"; py "d/b_alt.docx"])
              ([] ++ [showinfo (py "Complete")
                        (py "Alternative text embedding has finished.")])),
        snd (process_folder Example2.E1 (py "d") Example.w_folder)).
Proof.
  apply (process_action_folder Example2.E1 Example3.isdir_always
           (Gui (py "d") [] []) Example.w_folder).
  - discriminate.
  - reflexivity.
  - vm_compute. reflexivity.
Defined.

(** X21.  Whenever the callback of the start button returns, it has shown
    exactly one dialog and left the selected path as it was, and every file
    that was on disk before is still there. *)
Theorem process_action_one_dialog (E : env)
    (os_path_isdir : gmap pystr file -> pystr -> bool) (g g' : gui)
    (w w' : world) :
  process_action E os_path_isdir g w = (Ok g', w') ->
  selected_path g' = selected_path g
  /\ (exists d, dialogs g' = dialogs g ++ [d])
  /\ (forall q, is_Some (fs w !! q) -> is_Some (fs w' !! q)).
Proof.
  destruct (decide (selected_path g = [])) as [Hsel|Hsel].
  { unfold process_action. rewrite Hsel. unfold ret. intros [= <- <-].
    cbn [selected_path dialogs]. repeat split; eauto. }
  rewrite (process_action_run E os_path_isdir g w Hsel).
  assert (forall outs w1,
            (forall q, is_Some (fs w !! q) -> is_Some (fs w1 !! q)) ->
            match outs with
            | [] =>
                (Ok (Gui (selected_path g) (py "⚠️ The target document was not found.")
                       (dialogs g
                        ++ [showwarning (py "Complete")
                              (py "Target document not found.")])),
                 w1)
            | o :: r =>
                (Ok (Gui (selected_path g)
                       (py "✅ Processing complete:" ++ [10%N]
                        ++ str_join [10%N] (o :: r))
                       (dialogs g
                        ++ [showinfo (py "Complete")
                              (py "Alternative text embedding has finished.")])),
                 w1)
            end = (Ok g', w') ->
            selected_path g' = selected_path g
            /\ (exists d, dialogs g' = dialogs g ++ [d])
            /\ (forall q, is_Some (fs w !! q) -> is_Some (fs w' !! q))) as Hend.
  { intros outs w1 Hkeep Heq.
    destruct outs; injection Heq as <- <-; cbn [selected_path dialogs];
      repeat split; eauto. }
  destruct (os_path_isdir (fs w) (selected_path g)).
  - destruct (process_folder E (selected_path g) w) as [[outs|e] w1] eqn:Hrun;
      [|discriminate].
    apply Hend. exact (proj2 (process_folder_reported E _ w outs w1 Hrun)).
  - pose proof (process_file_effect E (selected_path g) w) as Heff.
    destruct (process_file E (selected_path g) w) as [[output|e] w1];
      [|discriminate].
    cbn [fst snd] in Heff. apply Hend.
    destruct Heff as [[-> _]|(fmt & f & f' & _ & _ & _ & _ & _ & ->)].
    + auto.
    + intros q Hq. rewrite lookup_insert_is_Some.
      destruct (decide (output_path E (selected_path g) = q)); auto.
Qed.

Lemma process_action_one_dialog_witness :
  selected_path
    (match fst (process_action Example.E0 Example3.isdir_never
                  (Gui (py "d/a.pptx") [] []) Example.w0) with
     | Ok g' => g'
     | Raise _ => Gui [] [] []
     end) = py "d/a.pptx"
  /\ (exists d,
        dialogs
          (match fst (process_action Example.E0 Example3.isdir_never
                        (Gui (py "d/a.pptx") [] []) Example.w0) with
           | Ok g' => g'
           | Raise _ => Gui [] [] []
           end) = [] ++ [d])
  /\ (forall q, is_Some (fs Example.w0 !! q) ->
       is_Some (fs (snd (process_action Example.E0 Example3.isdir_never
                           (Gui (py "d/a.pptx") [] []) Example.w0)) !! q)).
Proof.
  apply (process_action_one_dialog Example.E0 Example3.isdir_never
           (Gui (py "d/a.pptx") [] [])).
  vm_compute. reflexivity.
Defined.

(** ** Documents the adapters do not walk through *)

(** X22.  A presentation that opens and holds a shape whose type cannot be
    read: [process_pptx] leaves with the exception reading that type
    raises (the test of the type is outside the [try]) and saves nothing,
    whatever it captioned before it came to that shape. *)
Theorem process_pptx_unrecognised_shape (E : env) (file_path : pystr) (w : world)
    (prs : presentation) :
  fs w !! file_path = Some (PptxFile prs) ->
  ~ recognised_slides prs ->
  exists e w',
    process_pptx E file_path w = (Raise e, w')
    /\ (exists sh, sh ∈ concat prs /\ shape_type sh = Raise e)
    /\ fs w' = fs w.
Proof.
  intros Hf Hno.
  destruct (process_pptx_unrecognised E file_path prs Hno) as (e & Hsh & Hrun).
  destruct (Hrun w Hf) as (w' & H & Hfs).
  exists e, w'. split; [exact H|]. split; [exact Hsh|exact Hfs].
Qed.

Lemma process_pptx_unrecognised_shape_witness :
  fst (process_pptx Example.E0 (py "d/a.pptx") Example3.w_unrecognised)
  = Raise NotImplementedError
  /\ exists e w',
       process_pptx Example.E0 (py "d/a.pptx") Example3.w_unrecognised = (Raise e, w')
       /\ (exists sh, sh ∈ concat Example3.prs_unrecognised /\ shape_type sh = Raise e)
       /\ fs w' = fs Example3.w_unrecognised.
Proof.
  split; [vm_compute; reflexivity|].
  apply (process_pptx_unrecognised_shape Example.E0 (py "d/a.pptx")
           Example3.w_unrecognised Example3.prs_unrecognised).
  - vm_compute. reflexivity.
  - intros H. apply (bool_decide_pack _) in H. vm_compute in H. exact H.
Defined.

(** X23.  A file that is not a PDF and that PyMuPDF opens all the same (an
    image under a PDF name): [process_pdf] posts the caption requests of
    the image blocks that pass the thresholds, page by page, inserts
    nothing, returns nothing and writes no file. *)
Theorem process_pdf_other_document (E : env) (file_path : pystr) (w : world)
    (f : file) (doc : pdf) :
  fs w !! file_path = Some f ->
  (forall d, f <> PdfFile d) ->
  fitz_other E f = Some doc ->
  Forall typed_page doc ->
  exists lg,
    process_pdf E file_path w
    = (Ok None,
       World (fs w) (log w ++ lg) (posts w ++ flat_map (page_requests E) doc)).
Proof.
  intros Hf Hnot Hother Hdoc.
  exact (proj1 (process_pdf_not_pdf E file_path w f doc Hf Hnot Hother) Hdoc).
Qed.

Lemma process_pdf_other_document_witness :
  exists lg,
    process_pdf Example3.E_png (py "d/c.pdf") Example3.w_png
    = (Ok None,
       World (fs Example3.w_png) (log Example3.w_png ++ lg)
         (posts Example3.w_png ++ [request_for Example3.E_png Example.png1])).
Proof.
  destruct (process_pdf_other_document Example3.E_png (py "d/c.pdf") Example3.w_png
              (OtherFile Example.png1)
              [Page [<["image" := PBytes Example.png1]>
                        (Example.image_block 40 40 96 96)] []]) as [lg H].
  - vm_compute. reflexivity.
  - intros d. discriminate.
  - vm_compute. reflexivity.
  - repeat constructor. eexists. vm_compute. reflexivity.
  - exists lg. exact H.
Defined.

(** X24.  The start button on such a file: its images are sent to the
    server, nothing is saved, and the window and the warning dialog say
    that the target document was not found. *)
Theorem process_action_other_document (E : env)
    (os_path_isdir : gmap pystr file -> pystr -> bool) (g : gui) (w : world)
    (f : file) (doc : pdf) :
  selected_path g <> [] ->
  os_path_isdir (fs w) (selected_path g) = false ->
  Str.lower (snd (splitext E (selected_path g))) = extension PDF ->
  fs w !! selected_path g = Some f ->
  (forall d, f <> PdfFile d) ->
  fitz_other E f = Some doc ->
  Forall typed_page doc ->
  exists lg,
    process_action E os_path_isdir g w
    = (Ok (Gui (selected_path g) (py "⚠️ The target document was not found.")
             (dialogs g
              ++ [showwarning (py "Complete") (py "Target document not found.")])),
       World (fs w) (log w ++ lg) (posts w ++ flat_map (page_requests E) doc)).
Proof.
  intros Hsel Hdir Hext Hf Hnot Hother Hdoc.
  rewrite (process_action_run E os_path_isdir g w Hsel), Hdir.
  destruct (process_file_cases E (selected_path g) w)
    as [(fmt & Hext' & ->)|[Hno _]]; [|exfalso; exact (Hno PDF Hext)].
  rewrite Hext in Hext'. apply extension_inj in Hext'. subst fmt.
  cbn [adapter].
  destruct (proj1 (process_pdf_not_pdf E (selected_path g) w f doc Hf Hnot Hother)
              Hdoc) as [lg ->].
  exists lg. reflexivity.
Qed.

Lemma process_action_other_document_witness :
  exists lg,
    process_action Example3.E_png Example3.isdir_never (Gui (py "d/c.pdf") [] [])
      Example3.w_png
    = (Ok (Gui (py "d/c.pdf") (py "⚠️ The target document was not found.")
             ([] ++ [showwarning (py "Complete") (py "Target document not found.")])),
       World (fs Example3.w_png) (log Example3.w_png ++ lg)
         (posts Example3.w_png ++ [request_for Example3.E_png Example.png1])).
Proof.
  destruct (process_action_other_document Example3.E_png Example3.isdir_never
              (Gui (py "d/c.pdf") [] []) Example3.w_png
              (OtherFile Example.png1)
              [Page [<["image" := PBytes Example.png1]>
                        (Example.image_block 40 40 96 96)] []]) as [lg H].
  - discriminate.
  - reflexivity.
  - vm_compute. reflexivity.
  - vm_compute. reflexivity.
  - intros d. discriminate.
  - vm_compute. reflexivity.
  - repeat constructor. eexists. vm_compute. reflexivity.
  - exists lg. exact H.
Defined.
